(** * The Helios testnet automation bot ([lol.js])

    A shallow embedding of the script and the properties of its task
    functions, its two sub-schedulers and its daily master scheduler.

    Asynchronous functions are modelled in a small monad that threads the
    replies of the outside world (chain client, clock, random sources),
    collects the observable events (client calls with their outcome, console
    output, timers, clock readings) and carries JavaScript exceptions.  Every
    awaited promise is taken to settle: it either resolves with the reply or
    rejects with the error the world supplies.  The loops that the source
    writes with a counter or with [while (true)] are run with fuel, and
    running out of fuel is a result of its own, distinct from returning and
    from throwing.

    Of the bootstrap of the script, the reading of the environment and the
    test that stops the script are modelled on their own ([bootstrap]); the
    construction of the clients is the library's: the address of the account
    and the time zone of the host are parameters.  Dates follow ECMA-262,
    timers follow Node.js.

    The file has three parts: the model, the definitions that read a trace,
    and the lemmas and theorems. *)

From Stdlib Require Import ZArith List String Ascii Lia Bool Arith.
From Stdlib Require Import DecimalString.
Import ListNotations.
Open Scope string_scope.
Open Scope list_scope.
Open Scope Z_scope.

Set Warnings "-register-all".

(** ** JavaScript values *)

(** A Number that is either an integer (all numbers of the script are
    integral and far below 2^53, where doubles are exact) or [NaN]. *)
Definition JsNum := option Z.
Definition NaN : JsNum := None.

Definition num_add (a b : JsNum) : JsNum :=
  match a, b with Some x, Some y => Some (x + y) | _, _ => NaN end.

Definition num_sub (a b : JsNum) : JsNum :=
  match a, b with Some x, Some y => Some (x - y) | _, _ => NaN end.

(** [Math.floor(a / d)] for a positive integer constant [d]. *)
Definition num_floor_div (a : JsNum) (d : Z) : JsNum :=
  match a with Some x => Some (x / d) | None => NaN end.

(** [a % d]: the remainder takes the sign of the dividend. *)
Definition num_rem (a : JsNum) (d : Z) : JsNum :=
  match a with Some x => Some (Z.rem x d) | None => NaN end.

(** Decimal rendering of an integer, as string concatenation does it. *)
Definition string_of_Z (z : Z) : string :=
  NilEmpty.string_of_int (Z.to_int z).

Definition lower_ascii (c : ascii) : ascii :=
  let n := nat_of_ascii c in
  if (Nat.leb 65 n && Nat.leb n 90)%bool then ascii_of_nat (n + 32) else c.

Fixpoint toLowerCase (s : string) : string :=
  match s with
  | EmptyString => EmptyString
  | String c s' => String (lower_ascii c) (toLowerCase s')
  end.

(** [s.indexOf(pat)]: position of the first occurrence, -1 when absent. *)
Definition indexOf (s pat : string) : Z :=
  match String.index 0 pat s with
  | Some n => Z.of_nat n
  | None => -1
  end.

Definition strlen (s : string) : Z := Z.of_nat (String.length s).

Definition clamp_index (s : string) (i : Z) : Z :=
  Z.min (Z.max i 0) (strlen s).

(** [s.substring(start, end)]: both indices are clamped to [0, length] and
    swapped when [start > end]. *)
Definition substring2 (s : string) (start stop : Z) : string :=
  let a := clamp_index s start in
  let b := clamp_index s stop in
  let from := Z.min a b in
  let to := Z.max a b in
  String.substring (Z.to_nat from) (Z.to_nat (to - from)) s.

(** [s.substring(start)] *)
Definition substring1 (s : string) (start : Z) : string :=
  substring2 s start (strlen s).

(** The value a rejected promise carries; the script reads two optional
    properties of it. *)
Record JsError := mkError {
  shortMessage : option string;
  message : option string
}.

(** What [error?.shortMessage || error?.message || error] evaluates to. *)
Inductive Shown :=
| ShownText (s : string)
| ShownError (e : JsError).

Definition truthy (o : option string) : option string :=
  match o with
  | Some s => if String.eqb s "" then None else Some s
  | None => None
  end.

Definition describe (e : JsError) : Shown :=
  match truthy (shortMessage e) with
  | Some s => ShownText s
  | None =>
      match truthy (message e) with
      | Some s => ShownText s
      | None => ShownError e
      end
  end.

(** ** The chain client *)

Inductive TxStatus := success | reverted.

Record Receipt := mkReceipt {
  status : TxStatus;
  blockNumber : Z;
  contractAddress : option string
}.

(** The ABI literals of the script, by name. *)
Inductive Abi := counterAbi | TOKEN_DEPLOYER_ABI | ERC20_ABI | SOLARISWAP_ABI.

Inductive Arg :=
| AStr (s : string)
| AUint (n : Z)
| AAddr (a : string)
| ASwapParams (tokenIn tokenOut : string) (fee : Z) (recipient : string)
    (deadline amountIn amountOutMinimum sqrtPriceLimitX96 : Z).

(** One constructor per client operation, with the properties of the
    parameter object the script passes. *)
Inductive ClientOp :=
| DeployContract (abi : Abi) (bytecode : string) (args : list Arg) (gasPrice : Z)
| WriteContract (address : string) (abi : Abi) (functionName : string)
    (args : list Arg) (gasPrice : Z)
| SendTransaction (to data : string) (gasPrice : Z)
| ReadContract (address : string) (abi : Abi) (functionName : string)
    (args : list Arg)
| WaitForTransactionReceipt (hash : string).

(** The [gasPrice] property of the parameter object, when it has one. *)
Definition gasPrice_of (op : ClientOp) : option Z :=
  match op with
  | DeployContract _ _ _ g => Some g
  | WriteContract _ _ _ _ g => Some g
  | SendTransaction _ _ g => Some g
  | ReadContract _ _ _ _ => None
  | WaitForTransactionReceipt _ => None
  end.

(** Operations that submit a transaction. *)
Definition submits (op : ClientOp) : bool :=
  match op with
  | DeployContract _ _ _ _ | WriteContract _ _ _ _ _ | SendTransaction _ _ _ => true
  | ReadContract _ _ _ _ | WaitForTransactionReceipt _ => false
  end.

Inductive Value :=
| VHash (h : string)
| VReceipt (r : Receipt)
| VUint (n : Z).

Inductive Outcome :=
| Resolved (v : Value)
| Rejected (e : JsError).

(** ** Console output

    One constructor per message of the script, carrying the interpolated
    values. *)
Inductive LogMsg :=
| MsgTask1                                   (* --- TASK 1: Deploying a new Smart Contract --- *)
| MsgDeployTxHash (h : string)               (* Deploy Tx Hash: h *)
| MsgContractDeployed (a : option string) (b : Z)
| MsgDeployFailed
| MsgTask2                                   (* --- TASK 2: Creating a new ERC20 Token --- *)
| MsgTxHash (h : string)                     (* Tx Hash: h *)
| MsgTokenCreated (b : Z)
| MsgTokenFailed
| MsgTask3                                   (* --- TASK 3: Minting an NFT --- *)
| MsgNftMinted (b : Z)
| MsgNftFailed
| MsgTask4                                   (* --- TASK 4: Claim & Burn Sequence (4 Steps) --- *)
| MsgClaimingOre
| MsgClaimingMlunari
| MsgApprovingOre
| MsgBurningOre
| MsgSubtaskSuccess (b : Z)
| MsgSubtaskFailed
| MsgTask5                                   (* --- TASK 5: Swapping HLS for WETH --- *)
| MsgApproving
| MsgApprovalComplete
| MsgAlreadyApproved
| MsgExecutingSwap
| MsgSwapSuccessful (b : Z)
| MsgSwapFailed
| MsgTask6                                   (* --- TASK 6: Creating Mintpad NFT (Dynamic Salt) --- *)
| MsgGeneratedSalt (prefix : string)
| MsgMintpadCreated (b : Z)
| MsgMintpadFailed
| MsgMainStart                               (* >>> [SCHEDULER 1]: Starting MAIN TASKS ... *)
| MsgMainRun (i n : Z)                       (* Running Main Sequence #i of n *)
| MsgCritical (task : string) (err : Shown)  (* A critical error occurred during task: err *)
| MsgTaskPause (seconds : Z)                 (* ... waiting 10s ... *)
| MsgMainRunFinished (i elapsed_ms : Z)      (* Sequence #i finished in elapsed_ms / 1000 seconds. *)
| MsgMainWaiting (h m : Z)                   (* Waiting 1h 5m for next sequence... *)
| MsgMainComplete                            (* >>> [SCHEDULER 1]: ALL MAIN TASKS COMPLETE. <<< *)
| MsgTokenStart                              (* >>> [SCHEDULER 2]: Starting TOKEN DEPLOY ... *)
| MsgTokenRun (i n : Z)                      (* Running Token Deploy #i of n *)
| MsgTokenWaiting (h m : Z)                  (* Waiting 1h 5m for next token deploy... *)
| MsgTokenComplete                           (* >>> [SCHEDULER 2]: ALL TOKEN DEPLOYS COMPLETE. <<< *)
| MsgRule                                    (* ================================================= *)
| MsgBotStart                                (* ===      Helios Full Automation Bot START     === *)
| MsgLoadedAccount (a : string)
| MsgParallelNote                            (* Bot will run multiple task schedules in parallel. *)
| MsgSessionStart (t : JsNum)                (* >>> Starting new daily session at t <<< *)
| MsgSessionComplete                         (* >>> Daily session complete. All schedules finished. <<< *)
| MsgNextSession (t : JsNum)                 (* Next session scheduled to start at: t *)
| MsgWaitApprox (hours minutes : JsNum).     (* Waiting for approximately h hours and m minutes ... *)

Inductive Stream := stdout | stderr.

(** ** Events and the world *)

Inductive Event :=
| Call (op : ClientOp) (out : Outcome)
| Log (to : Stream) (msg : LogMsg)
| Sleep (ms : JsNum)
| Clock (t : Z)
| Parallel (left right : list Event).

(** What the world answers to one interaction.  Each primitive reads the
    component it needs. *)
Record Reply := mkReply {
  r_rejects : option JsError;
  r_hash : string;
  r_receipt : Receipt;
  r_uint : Z;
  r_clock : Z;
  r_random : Z;
  r_bytes : nat -> Byte.byte
}.

Definition Env := nat -> Reply.

Definition shift (n : nat) (env : Env) : Env := fun k => env (n + k)%nat.

Inductive Result (A : Type) :=
| Ok (a : A)
| Throw (e : JsError)
| OutOfFuel.
Arguments Ok {A} a.
Arguments Throw {A} e.
Arguments OutOfFuel {A}.

Record Out (A : Type) := mkOut {
  res : Result A;
  used : nat;
  events : list Event
}.
Arguments mkOut {A} res used events.
Arguments res {A} o.
Arguments used {A} o.
Arguments events {A} o.

Definition M (A : Type) := Env -> Out A.

Definition ret {A} (a : A) : M A := fun _ => mkOut (Ok a) 0 [].

Definition bind {A B} (m : M A) (k : A -> M B) : M B :=
  fun env =>
    let o := m env in
    match res o with
    | Ok a =>
        let o' := k a (shift (used o) env) in
        mkOut (res o') (used o + used o') (events o ++ events o')
    | Throw e => mkOut (Throw e) (used o) (events o)
    | OutOfFuel => mkOut OutOfFuel (used o) (events o)
    end.

Notation "x <- m ;; k" := (bind m (fun x => k))
  (at level 61, m at next level, right associativity).
Notation "m ;; k" := (bind m (fun _ => k))
  (at level 61, right associativity).

Definition out_of_fuel {A} : M A := fun _ => mkOut OutOfFuel 0 [].

(** [try { m } catch (error) { handler }] *)
Definition try_catch (m : M unit) (handler : JsError -> M unit) : M unit :=
  fun env =>
    let o := m env in
    match res o with
    | Throw e =>
        let o' := handler e (shift (used o) env) in
        mkOut (res o') (used o + used o') (events o ++ events o')
    | _ => o
    end.

(** [for (let i = start; cond(i); i++) body(i)] *)
Fixpoint for_loop (fuel : nat) (cond : Z -> bool) (body : Z -> M unit) (i : Z)
  : M unit :=
  match fuel with
  | O => out_of_fuel
  | S fuel' =>
      if cond i then body i ;; for_loop fuel' cond body (i + 1) else ret tt
  end.

(** [for (const x of xs) body(x)] over an array literal. *)
Fixpoint for_of {X} (xs : list X) (body : X -> M unit) : M unit :=
  match xs with
  | [] => ret tt
  | x :: xs' => body x ;; for_of xs' body
  end.

(** [while (true) body] *)
Fixpoint while_true (fuel : nat) (body : M unit) : M unit :=
  match fuel with
  | O => out_of_fuel
  | S fuel' => body ;; while_true fuel' body
  end.

(** [await Promise.all([a, b])]: the two computations interleave; each one
    sees every second reply of the world.  The promise rejects when one of
    them rejects. *)
Definition promise_all2 (a b : M unit) : M unit :=
  fun env =>
    let oa := a (fun k => env (2 * k)%nat) in
    let ob := b (fun k => env (2 * k + 1)%nat) in
    mkOut
      (match res oa, res ob with
       | OutOfFuel, _ | _, OutOfFuel => OutOfFuel
       | Throw e, _ => Throw e
       | Ok _, Throw e => Throw e
       | Ok _, Ok _ => Ok tt
       end)
      (2 * Nat.max (used oa) (used ob))
      [Parallel (events oa) (events ob)].

(** *** Primitives *)

Definition log (msg : LogMsg) : M unit := fun _ => mkOut (Ok tt) 0 [Log stdout msg].

Definition log_error (msg : LogMsg) : M unit :=
  fun _ => mkOut (Ok tt) 0 [Log stderr msg].

(** [await new Promise(resolve => setTimeout(resolve, ms))] *)
Definition sleep (ms : JsNum) : M unit := fun _ => mkOut (Ok tt) 0 [Sleep ms].

(** [Date.now()] *)
Definition date_now : M Z :=
  fun env => mkOut (Ok (r_clock (env 0%nat))) 1 [Clock (r_clock (env 0%nat))].

(** [Math.floor(Math.random() * n)] for a positive integer [n]: some integer
    of [0, n). *)
Definition random_below (n : Z) : M Z :=
  fun env => mkOut (Ok (r_random (env 0%nat) mod n)) 1 [].

(** [crypto.randomBytes(n)] *)
Definition randomBytes (n : nat) : M (list Byte.byte) :=
  fun env => mkOut (Ok (map (r_bytes (env 0%nat)) (seq 0 n))) 1 [].

(** An awaited client call: the world rejects it or resolves it. *)
Definition client_call {A} (op : ClientOp) (get : Reply -> A) (inj : A -> Value)
  : M A :=
  fun env =>
    match r_rejects (env 0%nat) with
    | Some e => mkOut (Throw e) 1 [Call op (Rejected e)]
    | None =>
        mkOut (Ok (get (env 0%nat))) 1 [Call op (Resolved (inj (get (env 0%nat))))]
    end.

Definition deployContract (abi : Abi) (bytecode : string) (args : list Arg)
  (gasPrice : Z) : M string :=
  client_call (DeployContract abi bytecode args gasPrice) r_hash VHash.

Definition writeContract (address : string) (abi : Abi) (functionName : string)
  (args : list Arg) (gasPrice : Z) : M string :=
  client_call (WriteContract address abi functionName args gasPrice) r_hash VHash.

Definition sendTransaction (to data : string) (gasPrice : Z) : M string :=
  client_call (SendTransaction to data gasPrice) r_hash VHash.

Definition readContract (address : string) (abi : Abi) (functionName : string)
  (args : list Arg) : M Z :=
  client_call (ReadContract address abi functionName args) r_uint VUint.

Definition waitForTransactionReceipt (hash : string) : M Receipt :=
  client_call (WaitForTransactionReceipt hash) r_receipt VReceipt.

(** viem's [parseUnits] on a decimal string without a fractional part. *)
Definition parseUnits (value : Z) (decimals : Z) : Z := value * 10 ^ decimals.

Definition maxUint256 : Z := 2 ^ 256 - 1.

(** ** Dates (ECMA-262, Date objects)

    Time values are milliseconds since the epoch in UTC.  The local time
    zone of the host is a parameter: [tza t true] is the offset in force at
    the UTC time [t], [tza t false] the offset to use for the local time
    [t]. *)
Module JsDate.

Definition Zone := Z -> bool -> Z.

Definition msPerDay : Z := 86400000.

Definition Day (t : Z) : Z := t / msPerDay.

Definition TimeWithinDay (t : Z) : Z := t mod msPerDay.

Definition DaysInYear (y : Z) : Z :=
  if negb (y mod 4 =? 0) then 365
  else if negb (y mod 100 =? 0) then 366
  else if negb (y mod 400 =? 0) then 365
  else 366.

Definition DayFromYear (y : Z) : Z :=
  365 * (y - 1970) + (y - 1969) / 4 - (y - 1901) / 100 + (y - 1601) / 400.

Definition TimeFromYear (y : Z) : Z := msPerDay * DayFromYear y.

(** The largest [y] with [TimeFromYear y <= t]: the mean year length gives
    an estimate that is off by at most one. *)
Definition YearFromTime (t : Z) : Z :=
  let d := Day t in
  let y := 1970 + (400 * d) / 146097 in
  if d <? DayFromYear y then y - 1
  else if DayFromYear (y + 1) <=? d then y + 1
  else y.

Definition InLeapYear (t : Z) : Z :=
  if DaysInYear (YearFromTime t) =? 365 then 0 else 1.

Definition DayWithinYear (t : Z) : Z := Day t - DayFromYear (YearFromTime t).

(** Day within the year on which month [m] (0 to 11) begins. *)
Definition monthStart (m leap : Z) : Z :=
  if m =? 0 then 0
  else if m =? 1 then 31
  else if m =? 2 then 59 + leap
  else if m =? 3 then 90 + leap
  else if m =? 4 then 120 + leap
  else if m =? 5 then 151 + leap
  else if m =? 6 then 181 + leap
  else if m =? 7 then 212 + leap
  else if m =? 8 then 243 + leap
  else if m =? 9 then 273 + leap
  else if m =? 10 then 304 + leap
  else 334 + leap.

Definition MonthFromTime (t : Z) : Z :=
  let d := DayWithinYear t in
  let leap := InLeapYear t in
  if d <? 31 then 0
  else if d <? 59 + leap then 1
  else if d <? 90 + leap then 2
  else if d <? 120 + leap then 3
  else if d <? 151 + leap then 4
  else if d <? 181 + leap then 5
  else if d <? 212 + leap then 6
  else if d <? 243 + leap then 7
  else if d <? 273 + leap then 8
  else if d <? 304 + leap then 9
  else if d <? 334 + leap then 10
  else 11.

Definition DateFromTime (t : Z) : Z :=
  DayWithinYear t - monthStart (MonthFromTime t) (InLeapYear t) + 1.

(** [MakeDay(year, month, date)]: the day number of the first of the month
    plus [date - 1]. *)
Definition MakeDay (year month date : Z) : Z :=
  let ym := year + month / 12 in
  let mn := month mod 12 in
  let leap := if DaysInYear ym =? 365 then 0 else 1 in
  DayFromYear ym + monthStart mn leap + date - 1.

Definition MakeDate (day time : Z) : Z := day * msPerDay + time.

Definition LocalTime (tza : Zone) (t : Z) : Z := t + tza t true.

Definition UTC (tza : Zone) (t : Z) : Z := t - tza t false.

Definition TimeClip (time : Z) : JsNum :=
  if Z.abs time <=? 8640000000000000 then Some time else NaN.

(** A Date object is its time value. *)
Definition Date := JsNum.

(** [new Date(value)] for a Number. *)
Definition Date_of (value : JsNum) : Date :=
  match value with
  | Some v => TimeClip v
  | None => NaN
  end.

Definition getTime (d : Date) : JsNum := d.

Definition getDate (tza : Zone) (d : Date) : JsNum :=
  match d with
  | Some t => Some (DateFromTime (LocalTime tza t))
  | None => NaN
  end.

(** [d.setDate(date)]: the time value the object holds afterwards. *)
Definition setDate (tza : Zone) (d : Date) (date : JsNum) : Date :=
  match d with
  | None => NaN
  | Some t0 =>
      match date with
      | None => NaN
      | Some dt =>
          let t := LocalTime tza t0 in
          let newDate :=
            MakeDate (MakeDay (YearFromTime t) (MonthFromTime t) dt)
                     (TimeWithinDay t) in
          TimeClip (UTC tza newDate)
      end
  end.

End JsDate.

(** ** Timers (Node.js)

    [setTimeout(f, after)]: a delay that is not a number of [1, 2^31 - 1]
    is set to 1. *)
Definition TIMEOUT_MAX : Z := 2 ^ 31 - 1.

Definition timer_delay (after : JsNum) : Z :=
  match after with
  | Some a => if (1 <=? a) && (a <=? TIMEOUT_MAX) then a else 1
  | None => 1
  end.

(** ** The script *)

(** *** Schedule and fee configuration *)

Definition MAIN_RUNS_PER_SESSION : Z := 10.
Definition MAIN_INTERVAL_HOURS : Z := 1.
Definition MAIN_INTERVAL_MINUTES : Z := 5.
Definition MAIN_RUN_INTERVAL_MS : Z :=
  (MAIN_INTERVAL_HOURS * 60 + MAIN_INTERVAL_MINUTES) * 60 * 1000.

Definition TOKEN_RUNS_PER_SESSION : Z := 3.
Definition TOKEN_INTERVAL_HOURS : Z := 1.
Definition TOKEN_INTERVAL_MINUTES : Z := 5.
Definition TOKEN_RUN_INTERVAL_MS : Z :=
  (TOKEN_INTERVAL_HOURS * 60 + TOKEN_INTERVAL_MINUTES) * 60 * 1000.

Definition DELAY_BETWEEN_TASKS_MS : Z := 10000.

Definition HIGH_GAS_PRICE : Z := 200000000000.

(** *** Literals of the task functions *)

Definition counterBytecode : string :=
  "0x608060405234801561001057600080fd5b50610100806100206000396000f3fe6080604052348015600f57600080fd5b506004361060325760003560e01c806360fe47b11460375780638381f58a146059575b600080fd5b605760048036038101906053565b6076565b005b605f607e565b604051606c9190608d565b60405180910390f35b60008054905090565b60005481565b600080546001019055565b608791905b80821115609d576000818152602081019051609392919160010160a3565b505050565b60006020828403121560b457600080fd5b503591905056fea2646970667358221220a2e51921201a9160358e2d46e279a1f7344b5fb227f722955f240214a1c09b3064736f6c63430008090033".

Definition TOKEN_DEPLOYER_ADDRESS : string :=
  "0x0000000000000000000000000000000000000806".

Definition NFT_CONTRACT_ADDRESS : string :=
  "0x9b0C569E2F63CEC5066f9f13C78bA0C6777322aa".

Definition NFT_MINT_DATA : string :=
  "0x57bc3d7800000000000000000000000081860e8fec3115e6809be409cf5059a91b7be83e00000000000000000000000000000000000000000000000000000000000000000000000000000000000000000000000000000000000000000000000000000001000000000000000000000000eeeeeeeeeeeeeeeeeeeeeeeeeeeeeeeeeeeeeeee000000000000000000000000000000000000000000000000000000000000000000000000000000000000000000000000000000000000000000000000000000e0000000000000000000000000000000000000000000000000000000000000018000000000000000000000000000000000000000000000000000000000000000800000000000000000000000000000000000000000000000000000000000000000ffffffffffffffffffffffffffffffffffffffffffffffffffffffffffffffff000000000000000000000000000000000000000000000000000000000000000000000000000000000000000000000000000000000000000000000000000000000000000000000000000000000000000000000000000000000000000000000000".

Definition SWAP_ROUTER_ADDRESS : string :=
  "0x512320fC42aCFAdc0f6aDA03626a76eD726fDA63".

Definition HLS_TOKEN_ADDRESS : string :=
  "0xD4949664cD82660AaE99bEdc034a0deA8A0bd517".

Definition WETH_TOKEN_ADDRESS : string :=
  "0x80b5a32E4F032B2a058b4F29EC95EEfEEB87aDcd".

Definition MINTPAD_CONTRACT_ADDRESS : string :=
  "0xaaae0243007AA3000000d8e8bEeF0a944A0d3900".

Definition TEMPLATE_DATA : string :=
  "0x00000000000000000000000000000000000000000000000000000000000000000000006081860e8fec3115e6809be409cf5059a91b7be83ebbda4e0bb46bd9a50509b579000000000000000000000000000000000000000000000000000000000099000000000000000000000000000000000000000000000000000000000000000002440000000100000000000000000000000000000000000000000000000000000000000000c00000000000000000000000000000000000000000000000000000000000000100000000000000000000000000000000000000000000000000000000018cf78900000000000000000000000000000000000000000000000000000000000000000000000018000402ee0000000081860e8fec3115e6809be409cf5059a91b7be83e0000000000000000000000000000000000000000000000000000000000000140000000000000000000000000000000000000000000000000000000000000000561776461770000000000000000000000000000000000000000000000000000000000000000000000000000000000000000000000000000000000000000000003415744000000000000000000000000000000000000000000000000000000000000000000000000000000000000000000000000000000000000000000000000e0g0000000000000000000000000000000000000000000000000000000000000060000000000000000000000000000000000000000000000000000000000000008000000000000000000000000000000000000000000000000000000000000000c00000000000000000000000000000000000000000000000000000000000000000000000000000000000000000000000000000000000000000000000000000000868747470733a2f2f000000000000000000000000000000000000000000000000000000000000000000000000000000000000000000000000000000000000000000000000000000000000000000000000000000000000000000000000".

Definition YOUR_ADDRESS_IN_DATA : string :=
  "81860e8fec3115e6809be409cf5059a91b7be83e".

(** *** Hexadecimal rendering of random bytes *)

Definition hex_digit (n : N) : ascii :=
  match n with
  | 0%N => "0" | 1%N => "1" | 2%N => "2" | 3%N => "3"
  | 4%N => "4" | 5%N => "5" | 6%N => "6" | 7%N => "7"
  | 8%N => "8" | 9%N => "9" | 10%N => "a" | 11%N => "b"
  | 12%N => "c" | 13%N => "d" | 14%N => "e" | _ => "f"
  end%char.

(** [buffer.toString('hex')] *)
Fixpoint toHex (bs : list Byte.byte) : string :=
  match bs with
  | [] => EmptyString
  | b :: bs' =>
      String (hex_digit (Byte.to_N b / 16))
        (String (hex_digit (Byte.to_N b mod 16)) (toHex bs'))
  end.

(** The calldata of task 6 for a given salt string. *)
Definition mintpad_data (newSalt : string) : string :=
  let saltStartIndex :=
    indexOf TEMPLATE_DATA YOUR_ADDRESS_IN_DATA + strlen YOUR_ADDRESS_IN_DATA in
  let saltEndIndex := saltStartIndex + 64 in
  (substring2 TEMPLATE_DATA 0 saltStartIndex ++ newSalt
     ++ substring1 TEMPLATE_DATA saltEndIndex)%string.

Section Bot.

(** The address of the account derived from the private key, and the time
    zone of the host. *)
Variable account_address : string.
Variable tza : JsDate.Zone.

(** *** Task 1: deploy a simple contract *)
Definition task_deployContract : M unit :=
  log MsgTask1 ;;
  hash <- deployContract counterAbi counterBytecode [] HIGH_GAS_PRICE ;;
  log (MsgDeployTxHash hash) ;;
  receipt <- waitForTransactionReceipt hash ;;
  match status receipt with
  | success =>
      log (MsgContractDeployed (contractAddress receipt) (blockNumber receipt))
  | reverted => log MsgDeployFailed
  end.

(** *** Task 2: create a random token *)
Definition task_createToken : M unit :=
  log MsgTask2 ;;
  r1 <- random_below 10000 ;;
  let name := ("AutoToken" ++ string_of_Z r1)%string in
  r2 <- random_below 1000 ;;
  let symbol := ("ATK" ++ string_of_Z r2)%string in
  now <- date_now ;;
  let denom := ("a" ++ toLowerCase symbol ++ "-" ++ string_of_Z now)%string in
  let totalSupply := parseUnits 1000000 18 in
  hash <- writeContract TOKEN_DEPLOYER_ADDRESS TOKEN_DEPLOYER_ABI "createErc20"
            [AStr name; AStr symbol; AStr denom; AUint totalSupply; AUint 18;
             AStr ""]
            HIGH_GAS_PRICE ;;
  log (MsgTxHash hash) ;;
  receipt <- waitForTransactionReceipt hash ;;
  log (match status receipt with
       | success => MsgTokenCreated (blockNumber receipt)
       | reverted => MsgTokenFailed
       end).

(** *** Task 3: mint an NFT *)
Definition task_mintNft : M unit :=
  log MsgTask3 ;;
  hash <- sendTransaction NFT_CONTRACT_ADDRESS NFT_MINT_DATA HIGH_GAS_PRICE ;;
  log (MsgTxHash hash) ;;
  receipt <- waitForTransactionReceipt hash ;;
  log (match status receipt with
       | success => MsgNftMinted (blockNumber receipt)
       | reverted => MsgNftFailed
       end).

(** *** Task 4: claim and burn *)

(** Helper for the claim/burn subtasks. *)
Definition sendSubtask (to data : string) : M unit :=
  hash <- sendTransaction to data HIGH_GAS_PRICE ;;
  receipt <- waitForTransactionReceipt hash ;;
  log (match status receipt with
       | success => MsgSubtaskSuccess (blockNumber receipt)
       | reverted => MsgSubtaskFailed
       end).

Definition task_claimAndBurn : M unit :=
  log MsgTask4 ;;
  let DELAY_BETWEEN_SUBTASKS_MS := 5000 in
  log MsgClaimingOre ;;
  sendSubtask "0x0B1Bb8520a3443b43FA66B123f6C69aEBa41e7Cc" "0x4e71d92d" ;;
  sleep (Some DELAY_BETWEEN_SUBTASKS_MS) ;;
  log MsgClaimingMlunari ;;
  sendSubtask "0xEb3D9727D5bcAf5F792FA2eCFF73f6A9448c036B"
    "0x1e83409a000000000000000000000000c36e9b957e218cda978bd1b95745f15d8cedb3c4" ;;
  sleep (Some DELAY_BETWEEN_SUBTASKS_MS) ;;
  log MsgApprovingOre ;;
  sendSubtask "0xC36e9B957E218cDa978bd1B95745f15d8CEDb3C4"
    "0x095ea7b3000000000000000000000000eb3d9727d5bcaf5f792fa2ecff73f6a9448c036b0000000000000000000000000000000000000000000000000de0b6b3a7640000" ;;
  sleep (Some DELAY_BETWEEN_SUBTASKS_MS) ;;
  log MsgBurningOre ;;
  sendSubtask "0xEb3D9727D5bcAf5F792FA2eCFF73f6A9448c036B"
    "0xf4ec95d5000000000000000000000000c36e9b957e218cda978bd1b95745f15d8cedb3c40000000000000000000000000000000000000000000000000de0b6b3a7640000".

(** *** Task 5: swap tokens *)
Definition task_swapTokens : M unit :=
  log MsgTask5 ;;
  let amountInWei := parseUnits 1 18 in
  allowance <- readContract HLS_TOKEN_ADDRESS ERC20_ABI "allowance"
                 [AAddr account_address; AAddr SWAP_ROUTER_ADDRESS] ;;
  (if allowance <? amountInWei then
     log MsgApproving ;;
     approveHash <- writeContract HLS_TOKEN_ADDRESS ERC20_ABI "approve"
                      [AAddr SWAP_ROUTER_ADDRESS; AUint maxUint256]
                      HIGH_GAS_PRICE ;;
     _ <- waitForTransactionReceipt approveHash ;;
     log MsgApprovalComplete
   else
     log MsgAlreadyApproved) ;;
  log MsgExecutingSwap ;;
  now <- date_now ;;
  let deadline := now / 1000 + 600 in
  swapHash <- writeContract SWAP_ROUTER_ADDRESS SOLARISWAP_ABI "exactInputSingle"
                [ASwapParams HLS_TOKEN_ADDRESS WETH_TOKEN_ADDRESS 3000
                   account_address deadline amountInWei 0 0]
                HIGH_GAS_PRICE ;;
  receipt <- waitForTransactionReceipt swapHash ;;
  log (match status receipt with
       | success => MsgSwapSuccessful (blockNumber receipt)
       | reverted => MsgSwapFailed
       end).

(** *** Task 6: create a Mintpad NFT *)
Definition task_createMintpadNFT : M unit :=
  log MsgTask6 ;;
  bytes <- randomBytes 32 ;;
  let newSalt := toHex bytes in
  let data := mintpad_data newSalt in
  log (MsgGeneratedSalt (substring2 newSalt 0 10)) ;;
  hash <- sendTransaction MINTPAD_CONTRACT_ADDRESS data HIGH_GAS_PRICE ;;
  log (MsgTxHash hash) ;;
  receipt <- waitForTransactionReceipt hash ;;
  log (match status receipt with
       | success => MsgMintpadCreated (blockNumber receipt)
       | reverted => MsgMintpadFailed
       end).

(** *** Sub-schedulers *)

(** A task function with its [name] property. *)
Record Task := mkTask { task_name : string; task_run : M unit }.

Definition main_tasks : list Task :=
  [ mkTask "task_deployContract" task_deployContract;
    mkTask "task_mintNft" task_mintNft;
    mkTask "task_claimAndBurn" task_claimAndBurn;
    mkTask "task_swapTokens" task_swapTokens;
    mkTask "task_createMintpadNFT" task_createMintpadNFT ].

(** The body of the inner loop over the tasks. *)
Definition run_guarded (task : Task) : M unit :=
  try_catch (task_run task)
    (fun error => log_error (MsgCritical (task_name task) (describe error))) ;;
  log (MsgTaskPause (DELAY_BETWEEN_TASKS_MS / 1000)) ;;
  sleep (Some DELAY_BETWEEN_TASKS_MS).

(** One pass of the main loop body. *)
Definition main_sequence (i : Z) : M unit :=
  log (MsgMainRun i MAIN_RUNS_PER_SESSION) ;;
  sequenceStartTime <- date_now ;;
  for_of main_tasks run_guarded ;;
  sequenceEndTime <- date_now ;;
  log (MsgMainRunFinished i (sequenceEndTime - sequenceStartTime)) ;;
  if i <? MAIN_RUNS_PER_SESSION then
    log (MsgMainWaiting MAIN_INTERVAL_HOURS MAIN_INTERVAL_MINUTES) ;;
    sleep (Some MAIN_RUN_INTERVAL_MS)
  else ret tt.

Definition runMainTasks (fuel : nat) : M unit :=
  log MsgMainStart ;;
  for_loop fuel (fun i => i <=? MAIN_RUNS_PER_SESSION) main_sequence 1 ;;
  log MsgMainComplete.

(** One pass of the token loop body. *)
Definition token_sequence (i : Z) : M unit :=
  log (MsgTokenRun i TOKEN_RUNS_PER_SESSION) ;;
  try_catch task_createToken
    (fun error => log_error (MsgCritical "task_createToken" (describe error))) ;;
  if i <? TOKEN_RUNS_PER_SESSION then
    log (MsgTokenWaiting TOKEN_INTERVAL_HOURS TOKEN_INTERVAL_MINUTES) ;;
    sleep (Some TOKEN_RUN_INTERVAL_MS)
  else ret tt.

Definition runTokenDeploy (fuel : nat) : M unit :=
  log MsgTokenStart ;;
  for_loop fuel (fun i => i <=? TOKEN_RUNS_PER_SESSION) token_sequence 1 ;;
  log MsgTokenComplete.

(** *** Master scheduler *)

(** The Date the next session is scheduled at, from the Date the session
    started at. *)
Definition next_session_time (sessionStartTime : JsDate.Date) : JsDate.Date :=
  let nextSessionTime := JsDate.Date_of (JsDate.getTime sessionStartTime) in
  JsDate.setDate tza nextSessionTime
    (num_add (JsDate.getDate tza nextSessionTime) (Some 1)).

(** One daily session and the wait that follows it. *)
Definition daily_session (fuel : nat) : M unit :=
  start <- date_now ;;
  let sessionStartTime : JsDate.Date := Some start in
  log (MsgSessionStart sessionStartTime) ;;
  promise_all2 (runMainTasks fuel) (runTokenDeploy fuel) ;;
  log MsgSessionComplete ;;
  let nextSessionTime := next_session_time sessionStartTime in
  now <- date_now ;;
  let waitTime := num_sub (JsDate.getTime nextSessionTime) (Some now) in
  let waitHours := num_floor_div waitTime 3600000 in
  let waitMinutes := num_floor_div (num_rem waitTime 3600000) 60000 in
  log (MsgNextSession nextSessionTime) ;;
  log (MsgWaitApprox waitHours waitMinutes) ;;
  sleep waitTime.

Definition scheduleDailyRuns (sessions fuel : nat) : M unit :=
  log MsgRule ;;
  log MsgBotStart ;;
  log MsgRule ;;
  log (MsgLoadedAccount account_address) ;;
  log MsgParallelNote ;;
  while_true sessions (daily_session fuel).

End Bot.

(** *** The environment of the process

    The script reads its configuration from [process.env] before anything
    else and stops when the endpoint or the key is missing. *)

(** A JavaScript string as the list of its UTF-16 code units. *)
Definition JsString := list N.

(** The code points [String.prototype.trim] strips: WhiteSpace (TAB, VT, FF,
    ZWNBSP and the space separators of Unicode) and LineTerminator (LF, CR,
    LS, PS) of ECMA-262.  All of them are single code units. *)
Definition is_white_space (c : N) : bool :=
  existsb (N.eqb c)
    [9; 10; 11; 12; 13; 32; 160; 5760; 8232; 8233; 8239; 8287; 12288; 65279]%N
  || ((8192 <=? c) && (c <=? 8202))%N.

Fixpoint trimStart (s : JsString) : JsString :=
  match s with
  | [] => []
  | c :: s' => if is_white_space c then trimStart s' else s
  end.

Definition trimEnd (s : JsString) : JsString := rev (trimStart (rev s)).

(** [s.trim()] *)
Definition trim (s : JsString) : JsString := trimEnd (trimStart s).

(** [process.env]: a variable that is not set reads as [undefined]. *)
Definition ProcessEnv := string -> option JsString.

(** [v?.trim()] *)
Definition optional_trim (v : option JsString) : option JsString :=
  option_map trim v.

(** [!v] for a string or [undefined]. *)
Definition falsy (v : option JsString) : bool :=
  match v with
  | None | Some [] => true
  | Some (_ :: _) => false
  end.

(** How the top level of the script goes on after reading the environment:
    it prints the complaint on the error stream and exits, or it builds the
    clients from the two values and starts the master scheduler. *)
Inductive Boot :=
| Exit (code : Z)
| Start (RPC_URL PRIV_KEY : option JsString).

(** The reading of [CHAIN_ID] neither throws nor takes part in the test; it
    only reaches the construction of the wallet client. *)
Definition bootstrap (env : ProcessEnv) : Boot :=
  let RPC_URL := optional_trim (env "RPC_URL") in
  let PRIV_KEY := optional_trim (env "PRIVATE_KEY") in
  if falsy RPC_URL || falsy PRIV_KEY then Exit 1 else Start RPC_URL PRIV_KEY.

(** * Reading a trace

    The notions the properties are stated with: what a computation emits,
    projections of a trace, and the readings of the traces of the tasks, of
    the sub-schedulers and of the master scheduler. *)

(** ** Events of a computation *)

(** Every event [m] emits, in any world, satisfies [P]. *)
Definition emits {A} (P : Event -> Prop) (m : M A) : Prop :=
  forall env, Forall P (events (m env)).

(** The events of a trace that [proj] selects, as [proj] renders them. *)
Definition project {X} (proj : Event -> option X) (evs : list Event) : list X :=
  flat_map (fun e => match proj e with Some x => [x] | None => [] end) evs.

(** A computation none of whose events is selected. *)
Definition silent {X} (proj : Event -> option X) {A} (m : M A) : Prop :=
  emits (fun e => proj e = None) m.

(** [zseq i n] is [i; i + 1; ...; i + n - 1]. *)
Fixpoint zseq (i : Z) (n : nat) : list Z :=
  match n with
  | O => []
  | S n' => i :: zseq (i + 1) n'
  end.

(** [seg] is the trace of one pass of [body]. *)
Definition pass_of (body : M unit) (seg : list Event) : Prop :=
  exists env, seg = events (body env).

(** ** Client calls *)

Definition call_of (e : Event) : option ClientOp :=
  match e with
  | Call op _ => Some op
  | _ => None
  end.

(** The client operations a trace invokes, in order. *)
Abbreviation calls := (project call_of).

Definition submission_of (e : Event) : option ClientOp :=
  match e with
  | Call op _ => if submits op then Some op else None
  | _ => None
  end.

(** The transactions a trace submits, in order. *)
Abbreviation submissions := (project submission_of).

Definition rejected_of (e : Event) : option JsError :=
  match e with
  | Call _ (Rejected err) => Some err
  | _ => None
  end.

(** The errors of the rejected client calls of a trace, in order. *)
Abbreviation rejections := (project rejected_of).

(** A computation is faithful when it returns only if no client call was
    rejected, throws only the error of a rejected client call, which is then
    its last event, and never runs out of fuel. *)
Definition faithful {A} (m : M A) : Prop :=
  forall env,
    match res (m env) with
    | Ok _ => rejections (events (m env)) = []
    | Throw e =>
        exists pre op,
          events (m env) = pre ++ [Call op (Rejected e)] /\ rejections pre = []
    | OutOfFuel => False
    end.

(** The client operations of a trace, those of parallel branches
    included. *)
Fixpoint calls_of (e : Event) : list ClientOp :=
  match e with
  | Call op _ => [op]
  | Parallel l r => flat_map calls_of l ++ flat_map calls_of r
  | _ => []
  end.

Definition all_calls (evs : list Event) : list ClientOp :=
  flat_map calls_of evs.

(** An operation that submits a transaction carries the elevated gas price;
    a read or a wait for a receipt carries no gas price. *)
Definition gas_rule (op : ClientOp) : Prop :=
  gasPrice_of op = if submits op then Some HIGH_GAS_PRICE else None.

Definition calls_obey (e : Event) : Prop := Forall gas_rule (calls_of e).

(** ** Task functions *)

(** The six task functions of the script. *)
Definition task_functions (account_address : string) : list (M unit) :=
  [ task_deployContract; task_createToken; task_mintNft; task_claimAndBurn;
    task_swapTokens account_address; task_createMintpadNFT ].

Definition is_banner (m : LogMsg) : bool :=
  match m with
  | MsgTask1 | MsgTask2 | MsgTask3 | MsgTask4 | MsgTask5 | MsgTask6 => true
  | _ => false
  end.

(** The first line a task function prints identifies its execution. *)
Definition banner_of (e : Event) : option LogMsg :=
  match e with
  | Log _ m => if is_banner m then Some m else None
  | _ => None
  end.

(** The task functions a trace executed, in order. *)
Abbreviation banners := (project banner_of).

(** What [sendSubtask] prints for a receipt. *)
Definition subtask_log (r : Receipt) : Event :=
  Log stdout
    (match status r with
     | success => MsgSubtaskSuccess (blockNumber r)
     | reverted => MsgSubtaskFailed
     end).

(** The calls of task 5. *)
Definition allowance_read (account_address : string) : ClientOp :=
  ReadContract HLS_TOKEN_ADDRESS ERC20_ABI "allowance"
    [AAddr account_address; AAddr SWAP_ROUTER_ADDRESS].

Definition approval : ClientOp :=
  WriteContract HLS_TOKEN_ADDRESS ERC20_ABI "approve"
    [AAddr SWAP_ROUTER_ADDRESS; AUint maxUint256] HIGH_GAS_PRICE.

Definition is_swap (op : ClientOp) : bool :=
  match op with
  | WriteContract address SOLARISWAP_ABI functionName _ _ =>
      String.eqb address SWAP_ROUTER_ADDRESS
      && String.eqb functionName "exactInputSingle"
  | _ => false
  end.

Definition is_hex_digit (c : ascii) : bool :=
  match index 0 (String c EmptyString) "0123456789abcdef" with
  | Some _ => true
  | None => false
  end.

Fixpoint all_chars (f : ascii -> bool) (s : string) : bool :=
  match s with
  | EmptyString => true
  | String c s' => f c && all_chars f s'
  end.

(** ** Receipt statuses *)

(** The world [env] with the status of every receipt replaced. *)
Definition with_status (st : nat -> TxStatus) (env : Env) : Env :=
  fun k =>
    mkReply (r_rejects (env k)) (r_hash (env k))
      (mkReceipt (st k) (blockNumber (r_receipt (env k)))
         (contractAddress (r_receipt (env k))))
      (r_uint (env k)) (r_clock (env k)) (r_random (env k)) (r_bytes (env k)).

(** What a trace does apart from printing: its events other than console
    output, the status of the receipts forgotten. *)
Definition action_of (e : Event) : option Event :=
  match e with
  | Log _ _ => None
  | Call op (Resolved (VReceipt r)) =>
      Some (Call op (Resolved
              (VReceipt (mkReceipt success (blockNumber r) (contractAddress r)))))
  | _ => Some e
  end.

Abbreviation actions := (project action_of).










Definition log_of (e : Event) : option LogMsg :=
  match e with
  | Log _ m => Some m
  | _ => None
  end.

(** What a trace prints, in order. *)
Abbreviation printed := (project log_of).





(** ** Sub-schedulers *)

Inductive Mark :=
| MRun (i : Z)            (* a run of a sub-scheduler begins *)
| MTask (banner : LogMsg) (* a task function begins *)
| MInterval.              (* the sleep between two runs *)

Definition mark_of (e : Event) : option Mark :=
  match e with
  | Log _ (MsgMainRun i _) => Some (MRun i)
  | Log _ (MsgTokenRun i _) => Some (MRun i)
  | Log _ m => if is_banner m then Some (MTask m) else None
  | Sleep (Some ms) =>
      if (ms =? MAIN_RUN_INTERVAL_MS) || (ms =? TOKEN_RUN_INTERVAL_MS)
      then Some MInterval else None
  | _ => None
  end.

(** The schedule as a trace shows it: runs, tasks and interval sleeps. *)
Abbreviation marks := (project mark_of).

(** The banners of one pass over the five main tasks. *)
Definition main_banners : list LogMsg :=
  [MsgTask1; MsgTask3; MsgTask4; MsgTask5; MsgTask6].

(** The marks of run [i] of a sub-scheduler with [runs] runs whose tasks
    print [tasks]: the run begins, the tasks execute in order, and the
    interval sleep follows exactly when [i] is not the last run. *)
Definition run_marks (runs : Z) (tasks : list LogMsg) (i : Z) : list Mark :=
  MRun i :: map MTask tasks ++ (if i <? runs then [MInterval] else []).

(** What the [catch] block of a sub-scheduler prints for the result of a
    task. *)
Definition caught (name : string) (r : Result unit) : list Event :=
  match r with
  | Throw e => [Log stderr (MsgCritical name (describe e))]
  | _ => []
  end.

(** The events that follow the tasks of run [i] of the main loop. *)
Definition main_interval (i : Z) : list Event :=
  if i <? MAIN_RUNS_PER_SESSION then
    [Log stdout (MsgMainWaiting MAIN_INTERVAL_HOURS MAIN_INTERVAL_MINUTES);
     Sleep (Some MAIN_RUN_INTERVAL_MS)]
  else [].

Definition token_interval (i : Z) : list Event :=
  if i <? TOKEN_RUNS_PER_SESSION then
    [Log stdout (MsgTokenWaiting TOKEN_INTERVAL_HOURS TOKEN_INTERVAL_MINUTES);
     Sleep (Some TOKEN_RUN_INTERVAL_MS)]
  else [].

Definition critical_of (e : Event) : option Shown :=
  match e with
  | Log stderr (MsgCritical _ shown) => Some shown
  | _ => None
  end.

(** What the [catch] blocks printed, in order. *)
Abbreviation criticals := (project critical_of).

(** Every rejected client call of the trace was reported by a [catch]
    block, and nothing else was. *)
Definition errors_logged (evs : list Event) : Prop :=
  criticals evs = map describe (rejections evs).

(** ** Master scheduler *)

(** The events of one daily session that started at [start], whose
    sub-schedulers left the traces [main] and [token] and finished at
    [now]. *)
Definition session_events (tza : JsDate.Zone) (start now : Z)
  (main token : list Event) : list Event :=
  let nextSessionTime := next_session_time tza (Some start) in
  let waitTime := num_sub nextSessionTime (Some now) in
  [ Clock start;
    Log stdout (MsgSessionStart (Some start));
    Parallel main token;
    Log stdout MsgSessionComplete;
    Clock now;
    Log stdout (MsgNextSession nextSessionTime);
    Log stdout (MsgWaitApprox (num_floor_div waitTime 3600000)
                  (num_floor_div (num_rem waitTime 3600000) 60000));
    Sleep waitTime ].

Definition is_session (tza : JsDate.Zone) (seg : list Event) : Prop :=
  exists start now main token, seg = session_events tza start now main token.

Definition master_banner (account_address : string) : list Event :=
  [ Log stdout MsgRule; Log stdout MsgBotStart; Log stdout MsgRule;
    Log stdout (MsgLoadedAccount account_address); Log stdout MsgParallelNote ].

(** The pairs (recorded session start, next session time) a trace shows, in
    order: each next session time is paired with the session start printed
    last before it. *)
Fixpoint session_pairs_from (start : JsNum) (evs : list Event)
  : list (JsNum * JsNum) :=
  match evs with
  | [] => []
  | Log _ (MsgSessionStart t) :: rest => session_pairs_from t rest
  | Log _ (MsgNextSession n) :: rest =>
      (start, n) :: session_pairs_from start rest
  | _ :: rest => session_pairs_from start rest
  end.

Definition session_pairs : list Event -> list (JsNum * JsNum) :=
  session_pairs_from NaN.




Definition session_start_of (e : Event) : option JsNum :=
  match e with
  | Log _ (MsgSessionStart t) => Some t
  | _ => None
  end.

(** The session starts a trace shows, in order. *)
Abbreviation session_starts := (project session_start_of).

(** ** The environment *)

(** A string of white space only. *)
Definition white (s : JsString) : Prop :=
  Forall (fun c => is_white_space c = true) s.

(** A variable that is not set or holds white space only. *)
Definition blank (v : option JsString) : Prop :=
  match v with
  | None => True
  | Some s => white s
  end.

(** [s] is what is left of the value [v] once the white space at both ends
    is taken away. *)
Definition stripped (v : option JsString) (s : JsString) : Prop :=
  exists before after raw,
    v = Some raw /\ raw = before ++ s ++ after /\
    white before /\ white after /\
    (exists c rest, s = c :: rest /\ is_white_space c = false) /\
    (exists rest c, s = rest ++ [c] /\ is_white_space c = false).

(** An environment given by the two variables the script needs. *)
Definition process_env (rpc_url private_key : option JsString) : ProcessEnv :=
  fun name =>
    if String.eqb name "RPC_URL" then rpc_url
    else if String.eqb name "PRIVATE_KEY" then private_key
    else None.

(** ** Further readings of the trace of a task *)

Definition sleep_of (e : Event) : option JsNum :=
  match e with
  | Sleep ms => Some ms
  | _ => None
  end.

(** The delays a trace hands to the timer, in order. *)
Abbreviation sleeps := (project sleep_of).

Definition receipt_of (e : Event) : option Receipt :=
  match e with
  | Call _ (Resolved (VReceipt r)) => Some r
  | _ => None
  end.

(** The receipts a trace obtained, in order. *)
Abbreviation receipts := (project receipt_of).

(** The four transactions of task 4, in the order of the source. *)
Definition claim_burn_steps : list ClientOp :=
  [ SendTransaction "0x0B1Bb8520a3443b43FA66B123f6C69aEBa41e7Cc" "0x4e71d92d"
      HIGH_GAS_PRICE;
    SendTransaction "0xEb3D9727D5bcAf5F792FA2eCFF73f6A9448c036B"
      "0x1e83409a000000000000000000000000c36e9b957e218cda978bd1b95745f15d8cedb3c4"
      HIGH_GAS_PRICE;
    SendTransaction "0xC36e9B957E218cDa978bd1B95745f15d8CEDb3C4"
      "0x095ea7b3000000000000000000000000eb3d9727d5bcaf5f792fa2ecff73f6a9448c036b0000000000000000000000000000000000000000000000000de0b6b3a7640000"
      HIGH_GAS_PRICE;
    SendTransaction "0xEb3D9727D5bcAf5F792FA2eCFF73f6A9448c036B"
      "0xf4ec95d5000000000000000000000000c36e9b957e218cda978bd1b95745f15d8cedb3c40000000000000000000000000000000000000000000000000de0b6b3a7640000"
      HIGH_GAS_PRICE ].

(** Every transaction is followed to its receipt before anything else is
    asked of the client: a submission that resolved with a hash is followed,
    as the next client call, by the wait for the receipt of that hash, and no
    receipt is waited for otherwise.  [pending] is the hash whose receipt is
    still to be asked for. *)
Fixpoint receipts_awaited (pending : option string) (evs : list Event) : bool :=
  match evs with
  | [] => match pending with None => true | Some _ => false end
  | Call op out :: rest =>
      match pending, op with
      | Some h, WaitForTransactionReceipt h' =>
          String.eqb h h' && receipts_awaited None rest
      | Some _, _ => false
      | None, WaitForTransactionReceipt _ => false
      | None, _ =>
          receipts_awaited
            (match out with
             | Resolved (VHash h) => if submits op then Some h else None
             | _ => None
             end) rest
      end
  | _ :: rest => receipts_awaited pending rest
  end.

(** ** Further readings of the trace of a sub-scheduler *)

Definition zsum (l : list Z) : Z := fold_right Z.add 0 l.

(** The time a trace spends asleep, in milliseconds: the delays it hands to
    the timer, as the timer takes them. *)
Definition total_delay (evs : list Event) : Z :=
  zsum (map timer_delay (sleeps evs)).

(** The delay of a sleep, when the event is one, is one of [allowed]. *)
Definition sleeps_among (allowed : list Z) (e : Event) : Prop :=
  match e with
  | Sleep ms => exists d, ms = Some d /\ In d allowed
  | _ => True
  end.

Inductive Pace :=
| PTask (banner : LogMsg)  (* a task function begins *)
| PPause.                  (* the sleep that follows a task *)

Definition pace_of (e : Event) : option Pace :=
  match e with
  | Log _ m => if is_banner m then Some (PTask m) else None
  | Sleep (Some ms) => if ms =? DELAY_BETWEEN_TASKS_MS then Some PPause else None
  | _ => None
  end.

(** The tasks and the pauses between tasks, as a trace shows them. *)
Abbreviation paces := (project pace_of).

(** The name of the function that prints a banner. *)
Definition function_name (banner : LogMsg) : string :=
  match banner with
  | MsgTask1 => "task_deployContract"
  | MsgTask2 => "task_createToken"
  | MsgTask3 => "task_mintNft"
  | MsgTask4 => "task_claimAndBurn"
  | MsgTask5 => "task_swapTokens"
  | MsgTask6 => "task_createMintpadNFT"
  | _ => ""
  end.

(** A task that begins, or a [catch] block that reports a task by name. *)
Inductive Attribution :=
| Began (banner : LogMsg)
| Blamed (name : string).

Definition attribution_of (e : Event) : option Attribution :=
  match e with
  | Log stderr (MsgCritical name _) => Some (Blamed name)
  | Log _ m => if is_banner m then Some (Began m) else None
  | _ => None
  end.

Abbreviation attributions := (project attribution_of).

(** Every report names the function that began last, and at most one report
    follows a beginning. *)
Fixpoint well_attributed (last : option LogMsg) (l : list Attribution) : bool :=
  match l with
  | [] => true
  | Began b :: rest => well_attributed (Some b) rest
  | Blamed name :: rest =>
      match last with
      | Some b => String.eqb name (function_name b) && well_attributed None rest
      | None => false
      end
  end.

(** The interval a sub-scheduler of [runs] runs sleeps after run [i]. *)
Definition interval_after (runs interval i : Z) : Z :=
  if i <? runs then interval else 0.

(** What the attributions of one task look like: the task begins, and its
    function is reported at most once. *)
Definition task_story (l : list Attribution) : Prop :=
  exists b, l = [Began b] \/ l = [Began b; Blamed (function_name b)].

Definition storied (l : list Attribution) : Prop :=
  exists stories, Forall task_story stories /\ l = List.concat stories.

(** ** Further readings of the trace of the master scheduler *)

Definition parallel_of (e : Event) : option (list Event * list Event) :=
  match e with
  | Parallel l r => Some (l, r)
  | _ => None
  end.

(** The pairs of traces the sub-schedulers left, session after session. *)
Abbreviation branches := (project parallel_of).

(** A daily session whose two branches are complete runs of the two
    sub-schedulers. *)
Definition is_full_session (account_address : string) (tza : JsDate.Zone)
  (fuel : nat) (seg : list Event) : Prop :=
  exists start now e1 e2,
    seg = session_events tza start now
            (events (runMainTasks account_address fuel e1))
            (events (runTokenDeploy fuel e2)).

(** What the master scheduler says of a wait: the hours and the minutes it
    printed last, and the delay it then handed to the timer. *)
Record Report := mkReport {
  rp_hours : JsNum;
  rp_minutes : JsNum;
  rp_wait : JsNum
}.

Fixpoint reports_from (hours minutes : JsNum) (evs : list Event)
  : list Report :=
  match evs with
  | [] => []
  | Log _ (MsgWaitApprox h m) :: rest => reports_from h m rest
  | Sleep ms :: rest => mkReport hours minutes ms :: reports_from hours minutes rest
  | _ :: rest => reports_from hours minutes rest
  end.

Definition reports : list Event -> list Report := reports_from NaN NaN.

(** A turn of the daily cycle: the session start printed last, the clock
    read last and the delay handed to the timer. *)
Record Cycle := mkCycle {
  c_start : JsNum;
  c_end : JsNum;
  c_requested : JsNum
}.

Fixpoint cycles_from (start now : JsNum) (evs : list Event) : list Cycle :=
  match evs with
  | [] => []
  | Log _ (MsgSessionStart t) :: rest => cycles_from t now rest
  | Clock t :: rest => cycles_from start (Some t) rest
  | Sleep ms :: rest => mkCycle start now ms :: cycles_from start now rest
  | _ :: rest => cycles_from start now rest
  end.

Definition cycles : list Event -> list Cycle := cycles_from NaN NaN.

(** ** Sample worlds and hosts *)

(** A world in which every call resolves and every receipt reports success. *)
Definition calm_reply : Reply :=
  mkReply None "0xfeed" (mkReceipt success 1 None) 0 1700000000000 7
    (fun _ => Byte.x2a).

Definition calm_world : Env := fun _ => calm_reply.

(** A world in which every third reply rejects the call and every other
    receipt reports a revert. *)
Definition rough_world : Env :=
  fun k =>
    mkReply
      (if Nat.eqb (k mod 3) 2 then Some (mkError (Some "timeout") None) else None)
      "0xfeed"
      (mkReceipt (if Nat.even k then reverted else success) (Z.of_nat k) None)
      0 (1700000000000 + Z.of_nat k) (Z.of_nat k) (fun _ => Byte.x2a).

(** A world whose clock reads [t0] first and [t1] ever after. *)
Definition world_at (t0 t1 : Z) : Env :=
  fun k =>
    mkReply None "0xfeed" (mkReceipt success 1 None) 0
      (if Nat.eqb k 0 then t0 else t1) 7 (fun _ => Byte.x2a).

(** A host on UTC. *)
Definition utc : JsDate.Zone := fun _ _ => 0.

(** A host whose zone is one hour ahead of UTC and moves its clocks forward
    by one hour at 2026-03-29T01:00:00Z (02:00 local time). *)
Definition spring_forward : JsDate.Zone :=
  let switch := JsDate.MakeDate (JsDate.MakeDay 2026 2 29) 3600000 in
  fun t isUTC =>
    if isUTC then (if t <? switch then 3600000 else 7200000)
    else (if t <? switch + 7200000 then 3600000 else 7200000).

(** 2026-03-28T12:00:00Z *)
Definition noon_before_switch : Z :=
  JsDate.MakeDate (JsDate.MakeDay 2026 2 28) 43200000.

(** A world in which the client rejects every call. *)
Definition stormy_world : Env :=
  fun _ =>
    mkReply (Some (mkError None (Some "fetch failed"))) "0xfeed"
      (mkReceipt success 1 None) 0 1700000000000 7 (fun _ => Byte.x2a).

(** A host five and a half hours ahead of UTC all year. *)
Definition fixed_offset : JsDate.Zone := fun _ _ => 19800000.

(** * The model at work *)

Example main_interval_ms : MAIN_RUN_INTERVAL_MS = 3900000.
Proof. reflexivity. Qed.

Example high_gas_price_gwei : HIGH_GAS_PRICE = 200 * 10 ^ 9.
Proof. reflexivity. Qed.

Example indexOf_found : indexOf "abcdef" "cd" = 2.
Proof. reflexivity. Qed.

Example indexOf_absent : indexOf "abcdef" "x" = -1.
Proof. reflexivity. Qed.

Example substring_swaps : substring2 "abcdef" 4 1 = "bcd".
Proof. reflexivity. Qed.

Example substring_clamps : substring2 "abcdef" (-3) 99 = "abcdef".
Proof. reflexivity. Qed.

Example toHex_bytes : toHex [Byte.x00; Byte.x2a; Byte.xff] = "002aff".
Proof. reflexivity. Qed.

Example describe_short :
  describe (mkError (Some "reverted") (Some "long text")) = ShownText "reverted".
Proof. reflexivity. Qed.

Example describe_message :
  describe (mkError (Some "") (Some "long text")) = ShownText "long text".
Proof. reflexivity. Qed.

Example describe_neither :
  describe (mkError None None) = ShownError (mkError None None).
Proof. reflexivity. Qed.

Example timer_delay_negative : timer_delay (Some (-5)) = 1.
Proof. reflexivity. Qed.

Example timer_delay_zero : timer_delay (Some 0) = 1.
Proof. reflexivity. Qed.

Example timer_delay_hour : timer_delay (Some 3600000) = 3600000.
Proof. reflexivity. Qed.

Example timer_delay_overflow : timer_delay (Some (2 ^ 31)) = 1.
Proof. reflexivity. Qed.

Example timer_delay_nan : timer_delay NaN = 1.
Proof. reflexivity. Qed.

Example epoch_date :
  (JsDate.YearFromTime 0, JsDate.MonthFromTime 0, JsDate.DateFromTime 0)
  = (1970, 0, 1).
Proof. reflexivity. Qed.

Example before_epoch_date :
  (JsDate.YearFromTime (-1), JsDate.MonthFromTime (-1), JsDate.DateFromTime (-1))
  = (1969, 11, 31).
Proof. reflexivity. Qed.

(** 2024-02-29T00:00:00Z *)
Example leap_day_date :
  (JsDate.YearFromTime 1709164800000, JsDate.MonthFromTime 1709164800000,
   JsDate.DateFromTime 1709164800000) = (2024, 1, 29).
Proof. reflexivity. Qed.

(** The last day of February rolls over to March, and December to the next
    year, on a host on UTC. *)
Example setDate_month_end :
  JsDate.setDate utc (Some 1709164800000)
    (num_add (JsDate.getDate utc (Some 1709164800000)) (Some 1))
  = Some (1709164800000 + 86400000).
Proof. reflexivity. Qed.

Example noon_before_switch_ms : noon_before_switch = 1774699200000.
Proof. reflexivity. Qed.

Example next_session_utc :
  next_session_time utc (Some noon_before_switch)
  = Some (noon_before_switch + 24 * 3600000).
Proof. reflexivity. Qed.

Example next_session_spring_forward :
  next_session_time spring_forward (Some noon_before_switch)
  = Some (noon_before_switch + 23 * 3600000).
Proof. reflexivity. Qed.

Example deploy_in_calm_world :
  events (task_deployContract calm_world) =
  [ Log stdout MsgTask1;
    Call (DeployContract counterAbi counterBytecode [] HIGH_GAS_PRICE)
      (Resolved (VHash "0xfeed"));
    Log stdout (MsgDeployTxHash "0xfeed");
    Call (WaitForTransactionReceipt "0xfeed")
      (Resolved (VReceipt (mkReceipt success 1 None)));
    Log stdout (MsgContractDeployed None 1) ].
Proof. reflexivity. Qed.

Example token_deploy_in_rough_world :
  res (runTokenDeploy 4 rough_world) = Ok tt /\
  criticals (events (runTokenDeploy 4 rough_world)) = [ShownText "timeout"].
Proof. split; reflexivity. Qed.

Example token_deploy_short_of_fuel :
  res (runTokenDeploy 3 calm_world) = OutOfFuel.
Proof. reflexivity. Qed.

Example trim_both_ends :
  trim [32; 9; 104; 116; 116; 112; 32; 58; 10; 13]%N = [104; 116; 116; 112; 32; 58]%N.
Proof. reflexivity. Qed.

Example trim_no_break_space : trim [160; 65279; 8232]%N = [].
Proof. reflexivity. Qed.

Example trim_keeps_other_controls : trim [0; 32; 8203]%N = [0; 32; 8203]%N.
Proof. reflexivity. Qed.

Example bootstrap_complete :
  bootstrap (process_env (Some [32; 104; 116; 116; 112; 10]%N) (Some [48; 120; 49]%N))
  = Start (Some [104; 116; 116; 112]%N) (Some [48; 120; 49]%N).
Proof. reflexivity. Qed.

Example bootstrap_without_key :
  bootstrap (process_env (Some [104; 116; 116; 112]%N) None) = Exit 1.
Proof. reflexivity. Qed.

Example bootstrap_blank_url :
  bootstrap (process_env (Some [32; 9; 10]%N) (Some [48; 120; 49]%N)) = Exit 1.
Proof. reflexivity. Qed.

Example claim_and_burn_in_stormy_world :
  submissions (events (task_claimAndBurn stormy_world)) = firstn 1 claim_burn_steps.
Proof. reflexivity. Qed.

Example main_session_submits_at_most :
  List.length (submissions (events (runMainTasks "0xabc" 11 calm_world))) = 90%nat.
Proof. vm_compute. reflexivity. Qed.

Example main_session_submits_at_least :
  List.length (submissions (events (runMainTasks "0xabc" 11 stormy_world))) = 40%nat.
Proof. vm_compute. reflexivity. Qed.

Example main_session_sleeps_at_most :
  total_delay (events (runMainTasks "0xabc" 11 calm_world)) = 35750000.
Proof. vm_compute. reflexivity. Qed.

Example main_session_sleeps_at_least :
  total_delay (events (runMainTasks "0xabc" 11 stormy_world)) = 35600000.
Proof. vm_compute. reflexivity. Qed.

Example template_is_not_hex :
  String.get 978 TEMPLATE_DATA = Some "g"%char.
Proof. vm_compute. reflexivity. Qed.

Example report_of_a_late_session :
  reports (events (scheduleDailyRuns "0xabc" utc 1 11
                     (world_at noon_before_switch
                        (noon_before_switch + JsDate.msPerDay + 1))))
  = [mkReport (Some (-1)) (Some (-1)) (Some (-1))].
Proof. vm_compute. reflexivity. Qed.

Example cycle_on_fixed_offset_host :
  cycles (events (scheduleDailyRuns "0xabc" fixed_offset 1 11
                    (world_at noon_before_switch
                       (noon_before_switch + 36000000))))
  = [mkCycle (Some noon_before_switch) (Some (noon_before_switch + 36000000))
       (Some 50400000)].
Proof. vm_compute. reflexivity. Qed.

(** * Reasoning about computations *)

Section Monad_facts.

Context {A B : Type}.

Lemma events_bind (m : M A) (k : A -> M B) (env : Env) :
  events (bind m k env) =
  events (m env) ++
  match res (m env) with
  | Ok a => events (k a (shift (used (m env)) env))
  | _ => []
  end.
Proof.
  unfold bind. destruct (res (m env)); simpl; auto using app_nil_r.
Qed.

Lemma res_bind (m : M A) (k : A -> M B) (env : Env) :
  res (bind m k env) =
  match res (m env) with
  | Ok a => res (k a (shift (used (m env)) env))
  | Throw e => Throw e
  | OutOfFuel => OutOfFuel
  end.
Proof.
  unfold bind. destruct (res (m env)); reflexivity.
Qed.

End Monad_facts.

Lemma events_try_catch (m : M unit) (h : JsError -> M unit) (env : Env) :
  events (try_catch m h env) =
  events (m env) ++
  match res (m env) with
  | Throw e => events (h e (shift (used (m env)) env))
  | _ => []
  end.
Proof.
  unfold try_catch. destruct (res (m env)) eqn:E; simpl;
    rewrite ?app_nil_r; reflexivity.
Qed.

Lemma res_try_catch (m : M unit) (h : JsError -> M unit) (env : Env) :
  res (try_catch m h env) =
  match res (m env) with
  | Throw e => res (h e (shift (used (m env)) env))
  | r => r
  end.
Proof.
  unfold try_catch. destruct (res (m env)) eqn:E; simpl; auto.
Qed.

(** ** Properties of every event a computation emits *)

Section Emits.

Variable P : Event -> Prop.

Lemma emits_ret {A} (a : A) : emits P (ret a).
Proof. intros env. constructor. Qed.

Lemma emits_bind {A B} (m : M A) (k : A -> M B) :
  emits P m -> (forall a, emits P (k a)) -> emits P (bind m k).
Proof.
  intros Hm Hk env. rewrite events_bind. apply Forall_app. split.
  - apply Hm.
  - destruct (res (m env)); [apply Hk | constructor | constructor].
Qed.

Lemma emits_log msg : P (Log stdout msg) -> emits P (log msg).
Proof. intros H env. repeat constructor. exact H. Qed.

Lemma emits_log_error msg : P (Log stderr msg) -> emits P (log_error msg).
Proof. intros H env. repeat constructor. exact H. Qed.

Lemma emits_sleep ms : P (Sleep ms) -> emits P (sleep ms).
Proof. intros H env. repeat constructor. exact H. Qed.

Lemma emits_date_now : (forall t, P (Clock t)) -> emits P date_now.
Proof. intros H env. repeat constructor. apply H. Qed.

Lemma emits_random_below n : emits P (random_below n).
Proof. intros env. constructor. Qed.

Lemma emits_randomBytes n : emits P (randomBytes n).
Proof. intros env. constructor. Qed.

Lemma emits_client_call {A} op (get : Reply -> A) inj :
  (forall out, P (Call op out)) -> emits P (client_call op get inj).
Proof.
  intros H env. unfold client_call.
  destruct (r_rejects (env 0%nat)); repeat constructor; apply H.
Qed.

Lemma emits_try_catch m h :
  emits P m -> (forall e, emits P (h e)) -> emits P (try_catch m h).
Proof.
  intros Hm Hh env. rewrite events_try_catch. apply Forall_app. split.
  - apply Hm.
  - destruct (res (m env)); [constructor | apply Hh | constructor].
Qed.

Lemma emits_for_of {X} (xs : list X) body :
  (forall x, In x xs -> emits P (body x)) -> emits P (for_of xs body).
Proof.
  induction xs as [|x xs IH]; intros H; simpl.
  - apply emits_ret.
  - apply emits_bind; [apply H; now left|].
    intros _. apply IH. intros y Hy. apply H. now right.
Qed.

Lemma emits_for_loop fuel cond body :
  (forall i, emits P (body i)) -> forall i, emits P (for_loop fuel cond body i).
Proof.
  intros H. induction fuel as [|fuel IH]; intros i; simpl.
  - intros env. constructor.
  - destruct (cond i); [|apply emits_ret].
    apply emits_bind; [apply H | intros _; apply IH].
Qed.

End Emits.

(** Syntax-directed proof that a computation emits only events of a kind. *)
Ltac emits_step :=
  match goal with
  | |- emits _ (bind _ _) => apply emits_bind; [|intros ?]
  | |- emits _ (ret _) => apply emits_ret
  | |- emits _ (log _) => apply emits_log
  | |- emits _ (log_error _) => apply emits_log_error
  | |- emits _ (sleep _) => apply emits_sleep
  | |- emits _ date_now => apply emits_date_now; intros ?
  | |- emits _ (random_below _) => apply emits_random_below
  | |- emits _ (randomBytes _) => apply emits_randomBytes
  | |- emits _ (client_call _ _ _) => apply emits_client_call; intros ?
  | |- emits _ (try_catch _ _) => apply emits_try_catch; [|intros ?]
  | |- emits _ (let _ := _ in _) => cbv zeta
  | |- emits _ (if ?c then _ else _) => destruct c
  | |- emits _ (match status ?r with _ => _ end) => destruct (status r)
  | |- emits _ (deployContract _ _ _ _) => unfold deployContract
  | |- emits _ (writeContract _ _ _ _ _) => unfold writeContract
  | |- emits _ (sendTransaction _ _ _) => unfold sendTransaction
  | |- emits _ (readContract _ _ _ _) => unfold readContract
  | |- emits _ (waitForTransactionReceipt _) => unfold waitForTransactionReceipt
  | |- emits _ (sendSubtask _ _) => unfold sendSubtask
  end.

(** ** Projections of a trace *)

Section Projection.

Context {X : Type}.
Variable proj : Event -> option X.

Lemma project_app l1 l2 :
  project proj (l1 ++ l2) = project proj l1 ++ project proj l2.
Proof. apply flat_map_app. Qed.

Lemma project_cons e l : project proj (e :: l) = project proj [e] ++ project proj l.
Proof. apply (project_app [e] l). Qed.

Lemma project_silent evs :
  Forall (fun e => proj e = None) evs -> project proj evs = [].
Proof.
  induction 1 as [|e evs He _ IH]; simpl; [reflexivity|].
  rewrite He. exact IH.
Qed.

Lemma project_concat segs :
  project proj (List.concat segs) = List.concat (map (project proj) segs).
Proof.
  induction segs as [|s segs IH]; simpl; [reflexivity|].
  rewrite project_app, IH. reflexivity.
Qed.

Lemma project_log_then {A} msg (rest : M A) env :
  silent proj rest ->
  project proj (events (bind (log msg) (fun _ => rest) env)) =
  project proj [Log stdout msg].
Proof.
  intros H. rewrite events_bind. simpl res. cbv iota.
  rewrite project_app, (project_silent _ (H _)). apply app_nil_r.
Qed.

End Projection.

(** ** Results and rejected client calls *)

Section Faithful.

Lemma faithful_ret {A} (a : A) : faithful (ret a).
Proof. intros env. reflexivity. Qed.

Lemma faithful_log msg : faithful (log msg).
Proof. intros env. reflexivity. Qed.

Lemma faithful_sleep ms : faithful (sleep ms).
Proof. intros env. reflexivity. Qed.

Lemma faithful_date_now : faithful date_now.
Proof. intros env. reflexivity. Qed.

Lemma faithful_random_below n : faithful (random_below n).
Proof. intros env. reflexivity. Qed.

Lemma faithful_randomBytes n : faithful (randomBytes n).
Proof. intros env. reflexivity. Qed.

Lemma faithful_client_call {A} op (get : Reply -> A) inj :
  faithful (client_call op get inj).
Proof.
  intros env. unfold client_call.
  destruct (r_rejects (env 0%nat)) as [e|]; simpl.
  - exists [], op. split; reflexivity.
  - reflexivity.
Qed.

Lemma faithful_bind {A B} (m : M A) (k : A -> M B) :
  faithful m -> (forall a, faithful (k a)) -> faithful (bind m k).
Proof.
  intros Hm Hk env. specialize (Hm env).
  rewrite res_bind, events_bind.
  destruct (res (m env)) as [a|e|]; [|now rewrite app_nil_r|exact Hm].
  specialize (Hk a (shift (used (m env)) env)).
  destruct (res (k a (shift (used (m env)) env))) as [b|e|]; [| |exact Hk].
  - rewrite project_app, Hm, Hk. reflexivity.
  - destruct Hk as (pre & op & -> & Hpre).
    exists (events (m env) ++ pre), op. split.
    + now rewrite app_assoc.
    + rewrite project_app, Hm, Hpre. reflexivity.
Qed.

End Faithful.

Ltac faithful_step :=
  match goal with
  | |- faithful (bind _ _) => apply faithful_bind; [|intros ?]
  | |- faithful (ret _) => apply faithful_ret
  | |- faithful (log _) => apply faithful_log
  | |- faithful (sleep _) => apply faithful_sleep
  | |- faithful date_now => apply faithful_date_now
  | |- faithful (random_below _) => apply faithful_random_below
  | |- faithful (randomBytes _) => apply faithful_randomBytes
  | |- faithful (client_call _ _ _) => apply faithful_client_call
  | |- faithful (let _ := _ in _) => cbv zeta
  | |- faithful (if ?c then _ else _) => destruct c
  | |- faithful (match status ?r with _ => _ end) => destruct (status r)
  | |- faithful (deployContract _ _ _ _) => unfold deployContract
  | |- faithful (writeContract _ _ _ _ _) => unfold writeContract
  | |- faithful (sendTransaction _ _ _) => unfold sendTransaction
  | |- faithful (readContract _ _ _ _) => unfold readContract
  | |- faithful (waitForTransactionReceipt _) => unfold waitForTransactionReceipt
  | |- faithful (sendSubtask _ _) => unfold sendSubtask
  end.

(** ** Loops as sequences of passes *)

Lemma for_of_passes {X} (body : X -> M unit) (xs : list X) :
  (forall x, In x xs -> forall env, res (body x env) = Ok tt) ->
  forall env,
    res (for_of xs body env) = Ok tt /\
    exists segs,
      Forall2 (fun x seg => pass_of (body x) seg) xs segs /\
      events (for_of xs body env) = List.concat segs.
Proof.
  induction xs as [|x xs IH]; intros Hok env; simpl.
  - split; [reflexivity|]. exists []. split; [constructor | reflexivity].
  - rewrite res_bind, events_bind, (Hok x (or_introl eq_refl)).
    destruct (IH (fun y Hy => Hok y (or_intror Hy))
                 (shift (used (body x env)) env)) as (Hr & segs & Hs & He).
    split; [exact Hr|].
    exists (events (body x env) :: segs). split.
    + constructor; [now exists env | exact Hs].
    + simpl. now rewrite He.
Qed.

Lemma for_loop_passes (N : Z) (body : Z -> M unit) :
  (forall i env, res (body i env) = Ok tt) ->
  forall n fuel i env,
    i + Z.of_nat n = N + 1 -> (n < fuel)%nat ->
    res (for_loop fuel (fun j => j <=? N) body i env) = Ok tt /\
    exists segs,
      Forall2 (fun j seg => pass_of (body j) seg) (zseq i n) segs /\
      events (for_loop fuel (fun j => j <=? N) body i env) = List.concat segs.
Proof.
  intros Hok. induction n as [|n IH]; intros fuel i env Hi Hf.
  - destruct fuel as [|fuel]; [lia|]. simpl.
    replace (i <=? N) with false by (symmetry; apply Z.leb_gt; lia).
    split; [reflexivity|]. exists []. split; [constructor | reflexivity].
  - destruct fuel as [|fuel]; [lia|]. simpl.
    replace (i <=? N) with true by (symmetry; apply Z.leb_le; lia).
    rewrite res_bind, events_bind, Hok.
    destruct (IH fuel (i + 1) (shift (used (body i env)) env)) as
        (Hr & segs & Hs & He); [lia | lia |].
    split; [exact Hr|].
    exists (events (body i env) :: segs). split.
    + constructor; [now exists env | exact Hs].
    + simpl. now rewrite He.
Qed.

Lemma while_true_passes (body : M unit) :
  (forall env, res (body env) = Ok tt) ->
  forall fuel env,
    res (while_true fuel body env) = OutOfFuel /\
    exists segs,
      List.length segs = fuel /\
      Forall (pass_of body) segs /\
      events (while_true fuel body env) = List.concat segs.
Proof.
  intros Hok. induction fuel as [|fuel IH]; intros env; simpl.
  - split; [reflexivity|]. exists []. repeat split. constructor.
  - rewrite res_bind, events_bind, Hok.
    destruct (IH (shift (used (body env)) env)) as (Hr & segs & Hl & Hs & He).
    split; [exact Hr|].
    exists (events (body env) :: segs). repeat split.
    + simpl. now rewrite Hl.
    + constructor; [now exists env | exact Hs].
    + simpl. now rewrite He.
Qed.

(** The projection of a loop is the projection of its passes. *)
Lemma project_passes {X J} (proj : Event -> option X) (body : J -> M unit)
  (f : J -> list X) (js : list J) (segs : list (list Event)) :
  (forall j, In j js -> forall env, project proj (events (body j env)) = f j) ->
  Forall2 (fun j seg => pass_of (body j) seg) js segs ->
  project proj (List.concat segs) = flat_map f js.
Proof.
  intros Hf H. induction H as [|j seg js segs (env & ->) _ IH]; simpl.
  - reflexivity.
  - rewrite project_app, (Hf j (or_introl eq_refl)), IH; [reflexivity|].
    intros k Hk. apply Hf. now right.
Qed.

(** * The task functions *)

Lemma task_functions_faithful account_address t :
  In t (task_functions account_address) -> faithful t.
Proof.
  unfold task_functions. simpl.
  intros [<-|[<-|[<-|[<-|[<-|[<-|[]]]]]]];
    [ unfold task_deployContract | unfold task_createToken
    | unfold task_mintNft | unfold task_claimAndBurn
    | unfold task_swapTokens | unfold task_createMintpadNFT ];
    repeat faithful_step.
Qed.

Lemma main_tasks_faithful account_address task :
  In task (main_tasks account_address) -> faithful (task_run task).
Proof.
  intros H. apply (task_functions_faithful account_address).
  unfold main_tasks in H. simpl in H. unfold task_functions. simpl.
  destruct H as [<-|[<-|[<-|[<-|[<-|[]]]]]]; simpl; auto 10.
Qed.

(** ** The banner and the marks of each task *)

Ltac silent_auto :=
  unfold silent; repeat emits_step;
  repeat match goal with |- context [status ?r] => destruct (status r) end;
  reflexivity.

Ltac task_projection :=
  intros; cbv delta [task_deployContract task_createToken task_mintNft
    task_claimAndBurn task_swapTokens task_createMintpadNFT];
  etransitivity; [apply project_log_then; silent_auto | reflexivity].

Section Task_marks.

Variable account_address : string.

Lemma banners_task_deployContract env :
  banners (events (task_deployContract env)) = [MsgTask1].
Proof. task_projection. Qed.

Lemma banners_task_createToken env :
  banners (events (task_createToken env)) = [MsgTask2].
Proof. task_projection. Qed.

Lemma banners_task_mintNft env :
  banners (events (task_mintNft env)) = [MsgTask3].
Proof. task_projection. Qed.

Lemma banners_task_claimAndBurn env :
  banners (events (task_claimAndBurn env)) = [MsgTask4].
Proof. task_projection. Qed.

Lemma banners_task_swapTokens env :
  banners (events (task_swapTokens account_address env)) = [MsgTask5].
Proof. task_projection. Qed.

Lemma banners_task_createMintpadNFT env :
  banners (events (task_createMintpadNFT env)) = [MsgTask6].
Proof. task_projection. Qed.

Lemma marks_task_deployContract env :
  marks (events (task_deployContract env)) = [MTask MsgTask1].
Proof. task_projection. Qed.

Lemma marks_task_createToken env :
  marks (events (task_createToken env)) = [MTask MsgTask2].
Proof. task_projection. Qed.

Lemma marks_task_mintNft env :
  marks (events (task_mintNft env)) = [MTask MsgTask3].
Proof. task_projection. Qed.

Lemma marks_task_claimAndBurn env :
  marks (events (task_claimAndBurn env)) = [MTask MsgTask4].
Proof. task_projection. Qed.

Lemma marks_task_swapTokens env :
  marks (events (task_swapTokens account_address env)) = [MTask MsgTask5].
Proof. task_projection. Qed.

Lemma marks_task_createMintpadNFT env :
  marks (events (task_createMintpadNFT env)) = [MTask MsgTask6].
Proof. task_projection. Qed.

End Task_marks.

(** * The sub-schedulers *)

Lemma res_bind_log {B} msg (k : unit -> M B) env :
  res (bind (log msg) k env) = res (k tt env).
Proof. reflexivity. Qed.

Lemma events_bind_log {B} msg (k : unit -> M B) env :
  events (bind (log msg) k env) = Log stdout msg :: events (k tt env).
Proof. reflexivity. Qed.

Lemma res_bind_date_now {B} (k : Z -> M B) env :
  res (bind date_now k env) = res (k (r_clock (env 0%nat)) (shift 1 env)).
Proof. reflexivity. Qed.

Lemma events_bind_date_now {B} (k : Z -> M B) env :
  events (bind date_now k env) =
  Clock (r_clock (env 0%nat)) :: events (k (r_clock (env 0%nat)) (shift 1 env)).
Proof. reflexivity. Qed.

Section Shapes.

Variable account_address : string.

Lemma guarded_shape (t : M unit) (name : string) (k : M unit) env :
  faithful t ->
  exists env',
    res (bind (try_catch t
                 (fun error => log_error (MsgCritical name (describe error))))
              (fun _ => k) env) = res (k env') /\
    events (bind (try_catch t
                    (fun error => log_error (MsgCritical name (describe error))))
                 (fun _ => k) env) =
      events (t env) ++ caught name (res (t env)) ++ events (k env').
Proof.
  intros Hf. specialize (Hf env).
  rewrite res_bind, events_bind, res_try_catch, events_try_catch.
  destruct (res (t env)) as [[]|e|]; [| |contradiction].
  - eexists. split; [reflexivity|]. simpl. now rewrite app_nil_r.
  - eexists. split; [reflexivity|]. simpl. now rewrite <- app_assoc.
Qed.

Lemma run_guarded_shape task env :
  faithful (task_run task) ->
  res (run_guarded task env) = Ok tt /\
  events (run_guarded task env) =
    events (task_run task env)
    ++ caught (task_name task) (res (task_run task env))
    ++ [Log stdout (MsgTaskPause 10); Sleep (Some DELAY_BETWEEN_TASKS_MS)].
Proof.
  intros Hf. unfold run_guarded.
  destruct (guarded_shape (task_run task) (task_name task)
              (log (MsgTaskPause (DELAY_BETWEEN_TASKS_MS / 1000)) ;;
               sleep (Some DELAY_BETWEEN_TASKS_MS)) env Hf) as (env' & Hr & He).
  rewrite Hr, He. split; reflexivity.
Qed.

Lemma run_guarded_ok task :
  In task (main_tasks account_address) ->
  forall env, res (run_guarded task env) = Ok tt.
Proof.
  intros H env. apply run_guarded_shape.
  now apply (main_tasks_faithful account_address).
Qed.

Lemma main_sequence_shape i env :
  res (main_sequence account_address i env) = Ok tt /\
  exists t0 t1 segs,
    Forall2 (fun task seg => pass_of (run_guarded task) seg)
      (main_tasks account_address) segs /\
    events (main_sequence account_address i env) =
      [Log stdout (MsgMainRun i MAIN_RUNS_PER_SESSION); Clock t0]
      ++ List.concat segs
      ++ [Clock t1; Log stdout (MsgMainRunFinished i (t1 - t0))]
      ++ main_interval i.
Proof.
  unfold main_sequence.
  rewrite res_bind_log, events_bind_log, res_bind_date_now, events_bind_date_now.
  destruct (for_of_passes run_guarded (main_tasks account_address)
              run_guarded_ok (shift 1 env)) as (Hr & segs & Hs & He).
  rewrite res_bind, events_bind, Hr, He.
  rewrite res_bind_date_now, events_bind_date_now, res_bind_log, events_bind_log.
  split.
  - destruct (i <? MAIN_RUNS_PER_SESSION); reflexivity.
  - do 2 eexists. exists segs. split; [exact Hs|].
    unfold main_interval. destruct (i <? MAIN_RUNS_PER_SESSION); reflexivity.
Qed.

Lemma runMainTasks_shape fuel env :
  (Z.to_nat MAIN_RUNS_PER_SESSION < fuel)%nat ->
  res (runMainTasks account_address fuel env) = Ok tt /\
  exists segs,
    Forall2 (fun i seg => pass_of (main_sequence account_address i) seg)
      (zseq 1 (Z.to_nat MAIN_RUNS_PER_SESSION)) segs /\
    events (runMainTasks account_address fuel env) =
      Log stdout MsgMainStart :: List.concat segs ++ [Log stdout MsgMainComplete].
Proof.
  intros Hfuel. unfold runMainTasks.
  rewrite res_bind_log, events_bind_log.
  destruct (for_loop_passes MAIN_RUNS_PER_SESSION
              (main_sequence account_address)
              (fun i e => proj1 (main_sequence_shape i e))
              (Z.to_nat MAIN_RUNS_PER_SESSION) fuel 1 env)
    as (Hr & segs & Hs & He); [reflexivity | exact Hfuel |].
  rewrite res_bind, events_bind, Hr, He.
  split; [reflexivity|]. exists segs. split; [exact Hs | reflexivity].
Qed.

Lemma token_sequence_shape i env :
  res (token_sequence i env) = Ok tt /\
  exists env',
    events (token_sequence i env) =
      Log stdout (MsgTokenRun i TOKEN_RUNS_PER_SESSION)
      :: events (task_createToken env')
      ++ caught "task_createToken" (res (task_createToken env'))
      ++ token_interval i.
Proof.
  assert (Hf : faithful task_createToken)
    by (apply (task_functions_faithful EmptyString);
        unfold task_functions; auto using in_eq, in_cons).
  unfold token_sequence.
  rewrite res_bind_log, events_bind_log.
  destruct (guarded_shape task_createToken "task_createToken"
              (if i <? TOKEN_RUNS_PER_SESSION then
                 log (MsgTokenWaiting TOKEN_INTERVAL_HOURS TOKEN_INTERVAL_MINUTES) ;;
                 sleep (Some TOKEN_RUN_INTERVAL_MS)
               else ret tt) env Hf) as (env' & Hr & He).
  rewrite Hr, He. unfold token_interval.
  split.
  - destruct (i <? TOKEN_RUNS_PER_SESSION); reflexivity.
  - exists env. destruct (i <? TOKEN_RUNS_PER_SESSION); reflexivity.
Qed.

Lemma runTokenDeploy_shape fuel env :
  (Z.to_nat TOKEN_RUNS_PER_SESSION < fuel)%nat ->
  res (runTokenDeploy fuel env) = Ok tt /\
  exists segs,
    Forall2 (fun i seg => pass_of (token_sequence i) seg)
      (zseq 1 (Z.to_nat TOKEN_RUNS_PER_SESSION)) segs /\
    events (runTokenDeploy fuel env) =
      Log stdout MsgTokenStart :: List.concat segs ++ [Log stdout MsgTokenComplete].
Proof.
  intros Hfuel. unfold runTokenDeploy.
  rewrite res_bind_log, events_bind_log.
  destruct (for_loop_passes TOKEN_RUNS_PER_SESSION token_sequence
              (fun i e => proj1 (token_sequence_shape i e))
              (Z.to_nat TOKEN_RUNS_PER_SESSION) fuel 1 env)
    as (Hr & segs & Hs & He); [reflexivity | exact Hfuel |].
  rewrite res_bind, events_bind, Hr, He.
  split; [reflexivity|]. exists segs. split; [exact Hs | reflexivity].
Qed.

End Shapes.

(** ** Projections of the sub-scheduler traces *)

Lemma project_passes_outs {X J} (proj : Event -> option X) (body : J -> M unit)
  (js : list J) (segs : list (list Event)) (outs : list (list X)) :
  Forall2 (fun j seg => pass_of (body j) seg) js segs ->
  Forall2 (fun j out => forall env, project proj (events (body j env)) = out)
    js outs ->
  project proj (List.concat segs) = List.concat outs.
Proof.
  intros H. revert outs.
  induction H as [|j seg js segs (env & ->) _ IH]; intros outs Ho;
    inversion Ho; subst; simpl.
  - reflexivity.
  - rewrite project_app. f_equal; auto.
Qed.

Section Sub_scheduler_projections.

Context {X : Type}.
Variable proj : Event -> option X.
Variable account_address : string.

Lemma project_run_guarded task env :
  faithful (task_run task) ->
  project proj (events (run_guarded task env)) =
    project proj (events (task_run task env))
    ++ project proj (caught (task_name task) (res (task_run task env)))
    ++ project proj
         [Log stdout (MsgTaskPause 10); Sleep (Some DELAY_BETWEEN_TASKS_MS)].
Proof.
  intros Hf. rewrite (proj2 (run_guarded_shape task env Hf)).
  now rewrite !project_app.
Qed.

Lemma project_main_sequence outs i env :
  Forall2 (fun task out =>
             forall e, project proj (events (run_guarded task e)) = out)
    (main_tasks account_address) outs ->
  exists t0 t1,
    project proj (events (main_sequence account_address i env)) =
      project proj [Log stdout (MsgMainRun i MAIN_RUNS_PER_SESSION); Clock t0]
      ++ List.concat outs
      ++ project proj [Clock t1; Log stdout (MsgMainRunFinished i (t1 - t0))]
      ++ project proj (main_interval i).
Proof.
  intros Ho.
  destruct (main_sequence_shape account_address i env)
    as (_ & t0 & t1 & segs & Hs & ->).
  exists t0, t1. rewrite !project_app.
  now rewrite (project_passes_outs proj run_guarded _ _ _ Hs Ho).
Qed.

Lemma project_runMainTasks f fuel env :
  (forall i e, project proj (events (main_sequence account_address i e)) = f i) ->
  (Z.to_nat MAIN_RUNS_PER_SESSION < fuel)%nat ->
  project proj (events (runMainTasks account_address fuel env)) =
    project proj [Log stdout MsgMainStart]
    ++ flat_map f (zseq 1 (Z.to_nat MAIN_RUNS_PER_SESSION))
    ++ project proj [Log stdout MsgMainComplete].
Proof.
  intros Hf Hfuel.
  destruct (runMainTasks_shape account_address fuel env Hfuel)
    as (_ & segs & Hs & ->).
  rewrite project_cons, !project_app.
  now rewrite (project_passes proj _ f _ _ (fun i _ => Hf i) Hs).
Qed.

Lemma project_token_sequence i env :
  exists env',
    project proj (events (token_sequence i env)) =
      project proj [Log stdout (MsgTokenRun i TOKEN_RUNS_PER_SESSION)]
      ++ project proj (events (task_createToken env'))
      ++ project proj (caught "task_createToken" (res (task_createToken env')))
      ++ project proj (token_interval i).
Proof.
  destruct (token_sequence_shape i env) as (_ & env' & ->).
  exists env'.
  now rewrite project_cons, !project_app.
Qed.

Lemma project_runTokenDeploy f fuel env :
  (forall i e, project proj (events (token_sequence i e)) = f i) ->
  (Z.to_nat TOKEN_RUNS_PER_SESSION < fuel)%nat ->
  project proj (events (runTokenDeploy fuel env)) =
    project proj [Log stdout MsgTokenStart]
    ++ flat_map f (zseq 1 (Z.to_nat TOKEN_RUNS_PER_SESSION))
    ++ project proj [Log stdout MsgTokenComplete].
Proof.
  intros Hf Hfuel.
  destruct (runTokenDeploy_shape fuel env Hfuel)
    as (_ & segs & Hs & ->).
  rewrite project_cons, !project_app.
  now rewrite (project_passes proj _ f _ _ (fun i _ => Hf i) Hs).
Qed.

End Sub_scheduler_projections.

(** *** Task banners *)

Lemma banners_caught name r : banners (caught name r) = [].
Proof. destruct r; reflexivity. Qed.

Lemma banners_main_interval i : banners (main_interval i) = [].
Proof. unfold main_interval. destruct (i <? MAIN_RUNS_PER_SESSION); reflexivity. Qed.

Lemma banners_token_interval i : banners (token_interval i) = [].
Proof. unfold token_interval. destruct (i <? TOKEN_RUNS_PER_SESSION); reflexivity. Qed.

Lemma banners_run_guarded account_address task b env :
  In task (main_tasks account_address) ->
  banners (events (task_run task env)) = [b] ->
  banners (events (run_guarded task env)) = [b].
Proof.
  intros Hin Hb.
  rewrite project_run_guarded by now apply (main_tasks_faithful account_address).
  now rewrite Hb, banners_caught.
Qed.

Lemma banners_main_tasks account_address :
  Forall2 (fun task out => forall e, banners (events (run_guarded task e)) = out)
    (main_tasks account_address) (map (fun b => [b]) main_banners).
Proof.
  unfold main_tasks, main_banners. simpl map.
  repeat constructor; intros e;
    apply (banners_run_guarded account_address);
    unfold main_tasks; auto 10 using in_eq, in_cons;
    cbn [task_run].
  - apply banners_task_deployContract.
  - apply banners_task_mintNft.
  - apply banners_task_claimAndBurn.
  - apply banners_task_swapTokens.
  - apply banners_task_createMintpadNFT.
Qed.

Lemma banners_main_sequence account_address i env :
  banners (events (main_sequence account_address i env)) = main_banners.
Proof.
  destruct (project_main_sequence banner_of account_address _ i env
              (banners_main_tasks account_address)) as (t0 & t1 & H).
  rewrite H.
  rewrite banners_main_interval. reflexivity.
Qed.

Lemma banners_token_sequence i env :
  banners (events (token_sequence i env)) = [MsgTask2].
Proof.
  destruct (project_token_sequence banner_of i env) as (env' & H).
  rewrite H.
  rewrite banners_task_createToken, banners_caught, banners_token_interval.
  reflexivity.
Qed.

Lemma banners_runMainTasks account_address fuel env :
  (Z.to_nat MAIN_RUNS_PER_SESSION < fuel)%nat ->
  banners (events (runMainTasks account_address fuel env)) =
    List.concat (repeat main_banners 10).
Proof.
  intros Hfuel.
  rewrite (project_runMainTasks banner_of account_address
             (fun _ => main_banners)); [reflexivity | | exact Hfuel].
  intros i e. apply banners_main_sequence.
Qed.

Lemma banners_runTokenDeploy fuel env :
  (Z.to_nat TOKEN_RUNS_PER_SESSION < fuel)%nat ->
  banners (events (runTokenDeploy fuel env)) = repeat MsgTask2 3.
Proof.
  intros Hfuel.
  rewrite (project_runTokenDeploy banner_of (fun _ => [MsgTask2]));
    [reflexivity | | exact Hfuel].
  intros i e. apply banners_token_sequence.
Qed.

Lemma token_fuel fuel :
  (Z.to_nat MAIN_RUNS_PER_SESSION < fuel)%nat ->
  (Z.to_nat TOKEN_RUNS_PER_SESSION < fuel)%nat.
Proof. unfold MAIN_RUNS_PER_SESSION, TOKEN_RUNS_PER_SESSION. lia. Qed.

(** *** Marks *)

Lemma marks_caught name r : marks (caught name r) = [].
Proof. destruct r; reflexivity. Qed.

Lemma marks_main_interval i :
  marks (main_interval i) =
  if i <? MAIN_RUNS_PER_SESSION then [MInterval] else [].
Proof. unfold main_interval. destruct (i <? MAIN_RUNS_PER_SESSION); reflexivity. Qed.

Lemma marks_token_interval i :
  marks (token_interval i) =
  if i <? TOKEN_RUNS_PER_SESSION then [MInterval] else [].
Proof. unfold token_interval. destruct (i <? TOKEN_RUNS_PER_SESSION); reflexivity. Qed.

Lemma marks_run_guarded account_address task b env :
  In task (main_tasks account_address) ->
  marks (events (task_run task env)) = [MTask b] ->
  marks (events (run_guarded task env)) = [MTask b].
Proof.
  intros Hin Hb.
  rewrite project_run_guarded by now apply (main_tasks_faithful account_address).
  now rewrite Hb, marks_caught.
Qed.

Lemma marks_main_tasks account_address :
  Forall2 (fun task out => forall e, marks (events (run_guarded task e)) = out)
    (main_tasks account_address) (map (fun b => [MTask b]) main_banners).
Proof.
  unfold main_tasks, main_banners. simpl map.
  repeat constructor; intros e;
    apply (marks_run_guarded account_address);
    unfold main_tasks; auto 10 using in_eq, in_cons;
    cbn [task_run].
  - apply marks_task_deployContract.
  - apply marks_task_mintNft.
  - apply marks_task_claimAndBurn.
  - apply marks_task_swapTokens.
  - apply marks_task_createMintpadNFT.
Qed.

Lemma marks_main_sequence account_address i env :
  marks (events (main_sequence account_address i env)) =
  run_marks MAIN_RUNS_PER_SESSION main_banners i.
Proof.
  destruct (project_main_sequence mark_of account_address _ i env
              (marks_main_tasks account_address)) as (t0 & t1 & H).
  rewrite H, marks_main_interval. reflexivity.
Qed.

Lemma marks_token_sequence i env :
  marks (events (token_sequence i env)) =
  run_marks TOKEN_RUNS_PER_SESSION [MsgTask2] i.
Proof.
  destruct (project_token_sequence mark_of i env) as (env' & H).
  rewrite H, marks_task_createToken, marks_caught, marks_token_interval.
  reflexivity.
Qed.

(** *** Errors *)

Lemma errors_logged_app l1 l2 :
  errors_logged l1 -> errors_logged l2 -> errors_logged (l1 ++ l2).
Proof.
  unfold errors_logged. intros H1 H2.
  now rewrite !project_app, map_app, H1, H2.
Qed.

Lemma errors_logged_concat segs :
  Forall errors_logged segs -> errors_logged (List.concat segs).
Proof.
  induction 1; simpl; [reflexivity | now apply errors_logged_app].
Qed.

Lemma errors_logged_guarded (t : M unit) name env :
  faithful t -> silent critical_of t ->
  errors_logged (events (t env) ++ caught name (res (t env))).
Proof.
  intros Hf Hs. specialize (Hf env). specialize (Hs env).
  unfold errors_logged. rewrite !project_app, (project_silent _ _ Hs).
  destruct (res (t env)) as [[]|e|]; [| |contradiction].
  - now rewrite Hf.
  - destruct Hf as (pre & op & -> & Hpre).
    rewrite project_app, Hpre. reflexivity.
Qed.

Lemma task_functions_no_critical account_address t :
  In t (task_functions account_address) -> silent critical_of t.
Proof.
  unfold task_functions. simpl.
  intros [<-|[<-|[<-|[<-|[<-|[<-|[]]]]]]];
    cbv beta delta [task_deployContract task_createToken task_mintNft
      task_claimAndBurn task_swapTokens task_createMintpadNFT];
    silent_auto.
Qed.

Lemma main_tasks_no_critical account_address task :
  In task (main_tasks account_address) -> silent critical_of (task_run task).
Proof.
  intros H. apply (task_functions_no_critical account_address).
  unfold main_tasks in H. simpl in H. unfold task_functions. simpl.
  destruct H as [<-|[<-|[<-|[<-|[<-|[]]]]]]; simpl; auto 10.
Qed.

Lemma passes_all {J} (body : J -> M unit) (Q : list Event -> Prop)
  (js : list J) (segs : list (list Event)) :
  Forall2 (fun j seg => pass_of (body j) seg) js segs ->
  (forall j, In j js -> forall env, Q (events (body j env))) ->
  Forall Q segs.
Proof.
  induction 1 as [|j seg js segs (env & ->) _ IH]; intros HQ; constructor.
  - apply HQ. now left.
  - apply IH. intros k Hk. apply HQ. now right.
Qed.

Lemma errors_logged_run_guarded account_address task env :
  In task (main_tasks account_address) ->
  errors_logged (events (run_guarded task env)).
Proof.
  intros Hin.
  pose proof (main_tasks_faithful account_address task Hin) as Hf.
  rewrite (proj2 (run_guarded_shape task env Hf)), app_assoc.
  apply errors_logged_app; [|reflexivity].
  apply errors_logged_guarded; [exact Hf|].
  now apply (main_tasks_no_critical account_address).
Qed.

Lemma errors_logged_main_sequence account_address i env :
  errors_logged (events (main_sequence account_address i env)).
Proof.
  destruct (main_sequence_shape account_address i env)
    as (_ & t0 & t1 & segs & Hs & ->).
  repeat apply errors_logged_app; try reflexivity.
  - apply errors_logged_concat.
    apply (passes_all run_guarded errors_logged _ _ Hs).
    intros task Hin e. now apply (errors_logged_run_guarded account_address).
  - unfold main_interval. destruct (i <? MAIN_RUNS_PER_SESSION); reflexivity.
Qed.

Lemma errors_logged_token_sequence i env :
  errors_logged (events (token_sequence i env)).
Proof.
  destruct (token_sequence_shape i env) as (_ & env' & ->).
  apply (errors_logged_app [_]); [reflexivity|].
  rewrite app_assoc. apply errors_logged_app.
  - apply errors_logged_guarded.
    + apply (task_functions_faithful EmptyString).
      unfold task_functions. auto using in_eq, in_cons.
    + apply (task_functions_no_critical EmptyString).
      unfold task_functions. auto using in_eq, in_cons.
  - unfold token_interval. destruct (i <? TOKEN_RUNS_PER_SESSION); reflexivity.
Qed.

Lemma errors_logged_runMainTasks account_address fuel env :
  (Z.to_nat MAIN_RUNS_PER_SESSION < fuel)%nat ->
  errors_logged (events (runMainTasks account_address fuel env)).
Proof.
  intros Hfuel.
  destruct (runMainTasks_shape account_address fuel env Hfuel)
    as (_ & segs & Hs & ->).
  apply (errors_logged_app [_]); [reflexivity|].
  apply errors_logged_app; [|reflexivity].
  apply errors_logged_concat.
  apply (passes_all (main_sequence account_address) errors_logged _ _ Hs).
  intros i _ e. apply errors_logged_main_sequence.
Qed.

Lemma errors_logged_runTokenDeploy fuel env :
  (Z.to_nat TOKEN_RUNS_PER_SESSION < fuel)%nat ->
  errors_logged (events (runTokenDeploy fuel env)).
Proof.
  intros Hfuel.
  destruct (runTokenDeploy_shape fuel env Hfuel) as (_ & segs & Hs & ->).
  apply (errors_logged_app [_]); [reflexivity|].
  apply errors_logged_app; [|reflexivity].
  apply errors_logged_concat.
  apply (passes_all token_sequence errors_logged _ _ Hs).
  intros i _ e. apply errors_logged_token_sequence.
Qed.

(** C1. Each sub-scheduler executes its task list exactly as many times as
    its run count says, the tasks of each run in their listed order:
    [runMainTasks] completes after executing its five tasks, in order, 10
    times, and [runTokenDeploy] after executing its one task 3 times, in
    every world. *)
Theorem sub_scheduler_run_counts (account_address : string) (fuel : nat)
  (env : Env) :
  (Z.to_nat MAIN_RUNS_PER_SESSION < fuel)%nat ->
  res (runMainTasks account_address fuel env) = Ok tt /\
  banners (events (runMainTasks account_address fuel env)) =
    List.concat (repeat [MsgTask1; MsgTask3; MsgTask4; MsgTask5; MsgTask6] 10) /\
  res (runTokenDeploy fuel env) = Ok tt /\
  banners (events (runTokenDeploy fuel env)) = repeat MsgTask2 3.
Proof.
  intros Hfuel. pose proof (token_fuel fuel Hfuel) as Hfuel'.
  split; [apply runMainTasks_shape, Hfuel|].
  split; [apply banners_runMainTasks, Hfuel|].
  split; [apply runTokenDeploy_shape, Hfuel'|].
  apply banners_runTokenDeploy, Hfuel'.
Qed.

Lemma sub_scheduler_run_counts_witness :
  (Z.to_nat MAIN_RUNS_PER_SESSION < 11)%nat /\
  res (runMainTasks "0xabc" 11 rough_world) = Ok tt /\
  banners (events (runMainTasks "0xabc" 11 rough_world)) =
    List.concat (repeat [MsgTask1; MsgTask3; MsgTask4; MsgTask5; MsgTask6] 10) /\
  res (runTokenDeploy 11 rough_world) = Ok tt /\
  banners (events (runTokenDeploy 11 rough_world)) = repeat MsgTask2 3.
Proof.
  assert (H : (Z.to_nat MAIN_RUNS_PER_SESSION < 11)%nat) by (vm_compute; lia).
  split; [exact H|].
  exact (sub_scheduler_run_counts "0xabc" 11 rough_world H).
Defined.

(** C7. In each sub-scheduler the interval sleep follows a run exactly when
    the run is not the last one: the runs, the tasks and the interval sleeps
    appear in the trace as [run_marks] lists them, run after run. *)
Theorem interval_sleep_between_runs (account_address : string) (fuel : nat)
  (env : Env) :
  (Z.to_nat MAIN_RUNS_PER_SESSION < fuel)%nat ->
  marks (events (runMainTasks account_address fuel env)) =
    flat_map (run_marks MAIN_RUNS_PER_SESSION main_banners)
      (zseq 1 (Z.to_nat MAIN_RUNS_PER_SESSION)) /\
  marks (events (runTokenDeploy fuel env)) =
    [MRun 1; MTask MsgTask2; MInterval;
     MRun 2; MTask MsgTask2; MInterval;
     MRun 3; MTask MsgTask2].
Proof.
  intros Hfuel. split.
  - rewrite (project_runMainTasks mark_of account_address
               (run_marks MAIN_RUNS_PER_SESSION main_banners));
      [reflexivity | | exact Hfuel].
    intros i e. apply marks_main_sequence.
  - rewrite (project_runTokenDeploy mark_of
               (run_marks TOKEN_RUNS_PER_SESSION [MsgTask2]));
      [reflexivity | | exact (token_fuel fuel Hfuel)].
    intros i e. apply marks_token_sequence.
Qed.

Lemma interval_sleep_between_runs_witness :
  (Z.to_nat MAIN_RUNS_PER_SESSION < 11)%nat /\
  marks (events (runMainTasks "0xabc" 11 rough_world)) =
    flat_map (run_marks MAIN_RUNS_PER_SESSION main_banners)
      (zseq 1 (Z.to_nat MAIN_RUNS_PER_SESSION)) /\
  marks (events (runTokenDeploy 11 rough_world)) =
    [MRun 1; MTask MsgTask2; MInterval;
     MRun 2; MTask MsgTask2; MInterval;
     MRun 3; MTask MsgTask2].
Proof.
  assert (H : (Z.to_nat MAIN_RUNS_PER_SESSION < 11)%nat) by (vm_compute; lia).
  split; [exact H|].
  exact (interval_sleep_between_runs "0xabc" 11 rough_world H).
Defined.

(** C2. A task that throws stops neither its run nor the sub-scheduler: in
    every world both sub-schedulers return normally, each rejected call is
    reported once by the [catch] block, and every task still executes in
    every run, once. *)
Theorem task_errors_are_contained (account_address : string) (fuel : nat)
  (env : Env) :
  (Z.to_nat MAIN_RUNS_PER_SESSION < fuel)%nat ->
  (res (runMainTasks account_address fuel env) = Ok tt /\
   errors_logged (events (runMainTasks account_address fuel env)) /\
   banners (events (runMainTasks account_address fuel env)) =
     List.concat (repeat main_banners 10)) /\
  (res (runTokenDeploy fuel env) = Ok tt /\
   errors_logged (events (runTokenDeploy fuel env)) /\
   banners (events (runTokenDeploy fuel env)) = repeat MsgTask2 3).
Proof.
  intros Hfuel. pose proof (token_fuel fuel Hfuel) as Hfuel'.
  split; split.
  - apply runMainTasks_shape, Hfuel.
  - split; [apply errors_logged_runMainTasks | apply banners_runMainTasks];
      exact Hfuel.
  - apply runTokenDeploy_shape, Hfuel'.
  - split; [apply errors_logged_runTokenDeploy | apply banners_runTokenDeploy];
      exact Hfuel'.
Qed.

Lemma task_errors_are_contained_witness :
  (Z.to_nat MAIN_RUNS_PER_SESSION < 11)%nat /\
  res (runMainTasks "0xabc" 11 rough_world) = Ok tt /\
  List.length (rejections (events (runMainTasks "0xabc" 11 rough_world)))
  = 40%nat.
Proof.
  assert (H : (Z.to_nat MAIN_RUNS_PER_SESSION < 11)%nat) by (vm_compute; lia).
  split; [exact H|].
  split; [|vm_compute; reflexivity].
  apply (task_errors_are_contained "0xabc" 11 rough_world H).
Defined.

(** * Stepping through straight-line code *)

Section Steps.

Context {A B : Type}.

Lemma used_bind (m : M A) (k : A -> M B) (env : Env) :
  used (bind m k env) =
  match res (m env) with
  | Ok a => (used (m env) + used (k a (shift (used (m env)) env)))%nat
  | _ => used (m env)
  end.
Proof. unfold bind. destruct (res (m env)); reflexivity. Qed.

Lemma used_bind_log msg (k : unit -> M B) env :
  used (bind (log msg) k env) = used (k tt env).
Proof. reflexivity. Qed.

Lemma res_bind_sleep ms (k : unit -> M B) env :
  res (bind (sleep ms) k env) = res (k tt env).
Proof. reflexivity. Qed.

Lemma events_bind_sleep ms (k : unit -> M B) env :
  events (bind (sleep ms) k env) = Sleep ms :: events (k tt env).
Proof. reflexivity. Qed.

Lemma used_bind_sleep ms (k : unit -> M B) env :
  used (bind (sleep ms) k env) = used (k tt env).
Proof. reflexivity. Qed.

Lemma used_bind_date_now (k : Z -> M B) env :
  used (bind date_now k env) =
  S (used (k (r_clock (env 0%nat)) (shift 1 env))).
Proof. reflexivity. Qed.

Lemma res_bind_random_below n (k : Z -> M B) env :
  res (bind (random_below n) k env) =
  res (k (r_random (env 0%nat) mod n) (shift 1 env)).
Proof. reflexivity. Qed.

Lemma events_bind_random_below n (k : Z -> M B) env :
  events (bind (random_below n) k env) =
  events (k (r_random (env 0%nat) mod n) (shift 1 env)).
Proof. reflexivity. Qed.

Lemma used_bind_random_below n (k : Z -> M B) env :
  used (bind (random_below n) k env) =
  S (used (k (r_random (env 0%nat) mod n) (shift 1 env))).
Proof. reflexivity. Qed.

Lemma res_bind_randomBytes n (k : list Byte.byte -> M B) env :
  res (bind (randomBytes n) k env) =
  res (k (map (r_bytes (env 0%nat)) (seq 0 n)) (shift 1 env)).
Proof. reflexivity. Qed.

Lemma events_bind_randomBytes n (k : list Byte.byte -> M B) env :
  events (bind (randomBytes n) k env) =
  events (k (map (r_bytes (env 0%nat)) (seq 0 n)) (shift 1 env)).
Proof. reflexivity. Qed.

Lemma used_bind_randomBytes n (k : list Byte.byte -> M B) env :
  used (bind (randomBytes n) k env) =
  S (used (k (map (r_bytes (env 0%nat)) (seq 0 n)) (shift 1 env))).
Proof. reflexivity. Qed.

Lemma res_bind_call op (get : Reply -> A) inj (k : A -> M B) env :
  res (bind (client_call op get inj) k env) =
  match r_rejects (env 0%nat) with
  | Some e => Throw e
  | None => res (k (get (env 0%nat)) (shift 1 env))
  end.
Proof.
  unfold bind, client_call. destruct (r_rejects (env 0%nat)); reflexivity.
Qed.

Lemma events_bind_call op (get : Reply -> A) inj (k : A -> M B) env :
  events (bind (client_call op get inj) k env) =
  match r_rejects (env 0%nat) with
  | Some e => [Call op (Rejected e)]
  | None =>
      Call op (Resolved (inj (get (env 0%nat))))
      :: events (k (get (env 0%nat)) (shift 1 env))
  end.
Proof.
  unfold bind, client_call. destruct (r_rejects (env 0%nat)); reflexivity.
Qed.

Lemma used_bind_call op (get : Reply -> A) inj (k : A -> M B) env :
  used (bind (client_call op get inj) k env) =
  match r_rejects (env 0%nat) with
  | Some e => 1%nat
  | None => S (used (k (get (env 0%nat)) (shift 1 env)))
  end.
Proof.
  unfold bind, client_call. destruct (r_rejects (env 0%nat)); reflexivity.
Qed.

End Steps.

Lemma res_log msg env : res (log msg env) = Ok tt.
Proof. reflexivity. Qed.

Lemma events_log msg env : events (log msg env) = [Log stdout msg].
Proof. reflexivity. Qed.

Lemma used_log msg env : used (log msg env) = 0%nat.
Proof. reflexivity. Qed.

Lemma res_sleep ms env : res (sleep ms env) = Ok tt.
Proof. reflexivity. Qed.

Lemma events_sleep ms env : events (sleep ms env) = [Sleep ms].
Proof. reflexivity. Qed.

Lemma used_sleep ms env : used (sleep ms env) = 0%nat.
Proof. reflexivity. Qed.

Lemma res_call {A} op (get : Reply -> A) inj env :
  res (client_call op get inj env) =
  match r_rejects (env 0%nat) with
  | Some e => Throw e
  | None => Ok (get (env 0%nat))
  end.
Proof. unfold client_call. destruct (r_rejects (env 0%nat)); reflexivity. Qed.

Lemma events_call {A} op (get : Reply -> A) inj env :
  events (client_call op get inj env) =
  match r_rejects (env 0%nat) with
  | Some e => [Call op (Rejected e)]
  | None => [Call op (Resolved (inj (get (env 0%nat))))]
  end.
Proof. unfold client_call. destruct (r_rejects (env 0%nat)); reflexivity. Qed.

Lemma used_call {A} op (get : Reply -> A) inj env :
  used (client_call op get inj env) = 1%nat.
Proof. unfold client_call. destruct (r_rejects (env 0%nat)); reflexivity. Qed.

Lemma res_date_now env : res (date_now env) = Ok (r_clock (env 0%nat)).
Proof. reflexivity. Qed.

Lemma events_date_now env : events (date_now env) = [Clock (r_clock (env 0%nat))].
Proof. reflexivity. Qed.

Lemma used_date_now env : used (date_now env) = 1%nat.
Proof. reflexivity. Qed.

Lemma res_ret {A} (a : A) env : res (ret a env) = Ok a.
Proof. reflexivity. Qed.

Lemma events_ret {A} (a : A) env : events (ret a env) = [].
Proof. reflexivity. Qed.

Lemma used_ret {A} (a : A) env : used (ret a env) = 0%nat.
Proof. reflexivity. Qed.

Create Rewrite HintDb run.
Create Rewrite HintDb run_nested.

#[global] Hint Rewrite
  @res_bind_log @events_bind_log @used_bind_log
  @res_bind_sleep @events_bind_sleep @used_bind_sleep
  @res_bind_date_now @events_bind_date_now @used_bind_date_now
  @res_bind_random_below @events_bind_random_below @used_bind_random_below
  @res_bind_randomBytes @events_bind_randomBytes @used_bind_randomBytes
  @res_bind_call @events_bind_call @used_bind_call
  res_log events_log used_log res_sleep events_sleep used_sleep
  res_date_now events_date_now used_date_now
  @res_call @events_call @used_call @res_ret @events_ret @used_ret : run.

#[global] Hint Rewrite @res_bind @events_bind @used_bind : run_nested.

(** Symbolic execution of a straight-line task: step over the primitives
    and split on what the world answers to each client call. *)
Ltac run_prepare :=
  cbv delta [task_deployContract task_createToken task_mintNft
    task_claimAndBurn task_swapTokens task_createMintpadNFT];
  unfold deployContract, writeContract, sendTransaction,
    readContract, waitForTransactionReceipt.

Ltac run_reduce :=
  cbv beta iota zeta delta [shift]; cbn beta iota zeta delta [Nat.add app].

Ltac run_split :=
  match goal with
  | |- context [match r_rejects ?r with _ => _ end] =>
      let E := fresh "E" in destruct (r_rejects r) eqn:E
  | |- context [if ?a <? ?b then _ else _] =>
      let E := fresh "E" in destruct (a <? b) eqn:E
  end.

Ltac run_status :=
  match goal with
  | |- context [match ?x with success => _ | reverted => _ end] =>
      let E := fresh "E" in destruct x eqn:E
  end.

Ltac run :=
  run_prepare;
  repeat first
    [ progress autorewrite with run
    | progress run_reduce
    | run_split
    | progress autorewrite with run_nested ].

Ltac run_all :=
  run_prepare;
  repeat first
    [ progress autorewrite with run
    | progress run_reduce
    | run_split
    | progress autorewrite with run_nested
    | run_status ].

Lemma res_sendSubtask to data env :
  res (sendSubtask to data env) =
  match r_rejects (env 0%nat) with
  | Some e => Throw e
  | None =>
      match r_rejects (env 1%nat) with
      | Some e => Throw e
      | None => Ok tt
      end
  end.
Proof. unfold sendSubtask. run; reflexivity. Qed.

Lemma used_sendSubtask to data env :
  used (sendSubtask to data env) =
  match r_rejects (env 0%nat) with
  | Some e => 1%nat
  | None => 2%nat
  end.
Proof. unfold sendSubtask. run; reflexivity. Qed.

Lemma events_sendSubtask to data env :
  events (sendSubtask to data env) =
  match r_rejects (env 0%nat) with
  | Some e => [Call (SendTransaction to data HIGH_GAS_PRICE) (Rejected e)]
  | None =>
      Call (SendTransaction to data HIGH_GAS_PRICE)
        (Resolved (VHash (r_hash (env 0%nat))))
      :: match r_rejects (env 1%nat) with
         | Some e =>
             [Call (WaitForTransactionReceipt (r_hash (env 0%nat))) (Rejected e)]
         | None =>
             [Call (WaitForTransactionReceipt (r_hash (env 0%nat)))
                (Resolved (VReceipt (r_receipt (env 1%nat))));
              subtask_log (r_receipt (env 1%nat))]
         end
  end.
Proof. unfold sendSubtask. run; reflexivity. Qed.

Lemma res_bind_sendSubtask {B} to data (k : unit -> M B) env :
  res (bind (sendSubtask to data) k env) =
  match r_rejects (env 0%nat) with
  | Some e => Throw e
  | None =>
      match r_rejects (env 1%nat) with
      | Some e => Throw e
      | None => res (k tt (shift 2 env))
      end
  end.
Proof.
  rewrite res_bind, res_sendSubtask, used_sendSubtask.
  destruct (r_rejects (env 0%nat)); [reflexivity|].
  destruct (r_rejects (env 1%nat)); reflexivity.
Qed.

Lemma used_bind_sendSubtask {B} to data (k : unit -> M B) env :
  used (bind (sendSubtask to data) k env) =
  match r_rejects (env 0%nat) with
  | Some e => 1%nat
  | None =>
      match r_rejects (env 1%nat) with
      | Some e => 2%nat
      | None => S (S (used (k tt (shift 2 env))))
      end
  end.
Proof.
  rewrite used_bind, res_sendSubtask, used_sendSubtask.
  destruct (r_rejects (env 0%nat)); [reflexivity|].
  destruct (r_rejects (env 1%nat)); reflexivity.
Qed.

Lemma events_bind_sendSubtask {B} to data (k : unit -> M B) env :
  events (bind (sendSubtask to data) k env) =
  match r_rejects (env 0%nat) with
  | Some e => [Call (SendTransaction to data HIGH_GAS_PRICE) (Rejected e)]
  | None =>
      Call (SendTransaction to data HIGH_GAS_PRICE)
        (Resolved (VHash (r_hash (env 0%nat))))
      :: match r_rejects (env 1%nat) with
         | Some e =>
             [Call (WaitForTransactionReceipt (r_hash (env 0%nat))) (Rejected e)]
         | None =>
             Call (WaitForTransactionReceipt (r_hash (env 0%nat)))
               (Resolved (VReceipt (r_receipt (env 1%nat))))
             :: subtask_log (r_receipt (env 1%nat))
             :: events (k tt (shift 2 env))
         end
  end.
Proof.
  rewrite events_bind, events_sendSubtask, res_sendSubtask, used_sendSubtask.
  destruct (r_rejects (env 0%nat)); [reflexivity|].
  destruct (r_rejects (env 1%nat)); reflexivity.
Qed.

#[global] Hint Rewrite res_sendSubtask used_sendSubtask events_sendSubtask
  @res_bind_sendSubtask @used_bind_sendSubtask @events_bind_sendSubtask : run.

(** * Client calls of the task functions *)

(** ** Task 5: the approval *)

(** C9. In [task_swapTokens] the approval of the swap router for the
    maximum amount is submitted exactly when the allowance that was read is
    below one token (10^18 wei); otherwise the call that follows the read is
    the swap. *)
Theorem approval_iff_allowance_low (account_address : string) (env : Env)
  (allowance : Z) :
  In (Call (allowance_read account_address) (Resolved (VUint allowance)))
     (events (task_swapTokens account_address env)) ->
  (In approval (calls (events (task_swapTokens account_address env)))
   <-> allowance < 10 ^ 18) /\
  (10 ^ 18 <= allowance ->
   exists op rest,
     calls (events (task_swapTokens account_address env)) =
       allowance_read account_address :: op :: rest /\
     is_swap op = true).
Proof.
  assert (Hone : parseUnits 1 18 = 10 ^ 18) by (vm_compute; reflexivity).
  rewrite <- Hone. clear Hone.
  remember (events (task_swapTokens account_address env)) as evs eqn:Hev.
  revert Hev.
  run; intros -> H; cbn [In] in H;
    repeat (destruct H as [H|H]; [try discriminate H|]); try contradiction;
    injection H as H; subst allowance;
    cbn [project flat_map call_of app In];
    (apply Z.ltb_lt in E0 || apply Z.ltb_ge in E0).
  all: split;
    [ split;
      [ intros Hin;
        first [ exact E0
              | exfalso; unfold approval in Hin;
                repeat (destruct Hin as [Hin|Hin]; [discriminate Hin|]);
                exact Hin ]
      | intros Hlt; first [solve [auto 10] | lia] ]
    | intros Hge; try lia; do 2 eexists; split; reflexivity ].
Qed.

Lemma approval_iff_allowance_low_witness :
  In (Call (allowance_read "0xabc") (Resolved (VUint 0)))
     (events (task_swapTokens "0xabc" calm_world)) /\
  In approval (calls (events (task_swapTokens "0xabc" calm_world))).
Proof.
  assert (H : In (Call (allowance_read "0xabc") (Resolved (VUint 0)))
                (events (task_swapTokens "0xabc" calm_world)))
    by (vm_compute; auto).
  split; [exact H|].
  apply (proj1 (approval_iff_allowance_low "0xabc" calm_world 0 H)).
  reflexivity.
Defined.

(** ** Gas price *)

Lemma all_calls_obey evs : Forall calls_obey evs -> Forall gas_rule (all_calls evs).
Proof.
  induction 1 as [|e evs He _ IH]; simpl; [constructor|].
  apply Forall_app. split; assumption.
Qed.

Lemma emits_obey_promise_all2 a b :
  emits calls_obey a -> emits calls_obey b -> emits calls_obey (promise_all2 a b).
Proof.
  intros Ha Hb env. unfold promise_all2. simpl. constructor; [|constructor].
  unfold calls_obey. simpl. apply Forall_app. split; apply all_calls_obey.
  - apply Ha.
  - apply Hb.
Qed.

Lemma emits_while_true P fuel body :
  emits P body -> emits P (while_true fuel body).
Proof.
  intros H. induction fuel as [|fuel IH]; simpl.
  - intros env. constructor.
  - apply emits_bind; [exact H | intros _; exact IH].
Qed.

Ltac obey_auto :=
  repeat emits_step;
  repeat match goal with |- context [status ?r] => destruct (status r) end;
  unfold calls_obey; cbn [calls_of];
  try solve [constructor];
  try solve [constructor; [reflexivity | constructor]].

Lemma task_functions_obey account_address t :
  In t (task_functions account_address) -> emits calls_obey t.
Proof.
  unfold task_functions. simpl.
  intros [<-|[<-|[<-|[<-|[<-|[<-|[]]]]]]];
    cbv beta delta [task_deployContract task_createToken task_mintNft
      task_claimAndBurn task_swapTokens task_createMintpadNFT];
    obey_auto.
Qed.

Lemma runMainTasks_obey account_address fuel :
  emits calls_obey (runMainTasks account_address fuel).
Proof.
  unfold runMainTasks. obey_auto.
  apply emits_for_loop. intros i. unfold main_sequence. obey_auto.
  apply emits_for_of. intros task Hin. unfold run_guarded. obey_auto.
  apply (task_functions_obey account_address).
  unfold main_tasks in Hin. simpl in Hin. unfold task_functions. simpl.
  destruct Hin as [<-|[<-|[<-|[<-|[<-|[]]]]]]; simpl; auto 10.
Qed.

Lemma runTokenDeploy_obey fuel : emits calls_obey (runTokenDeploy fuel).
Proof.
  unfold runTokenDeploy. obey_auto.
  apply emits_for_loop. intros i. unfold token_sequence. obey_auto.
  apply (task_functions_obey EmptyString).
  unfold task_functions. auto using in_eq, in_cons.
Qed.

(** C6, as the code has it. Every client operation of the script that
    submits a transaction (sendTransaction, writeContract, deployContract) is
    invoked with the gas price [HIGH_GAS_PRICE], 200 Gwei; readContract and
    waitForTransactionReceipt are invoked without a gas price. *)
Theorem gas_price_on_every_submission (account_address : string)
  (tza : JsDate.Zone) (sessions fuel : nat) (env : Env) :
  HIGH_GAS_PRICE = 200 * 10 ^ 9 /\
  Forall gas_rule
    (all_calls (events (scheduleDailyRuns account_address tza sessions fuel env))).
Proof.
  split; [reflexivity|].
  apply all_calls_obey. revert env.
  change (emits calls_obey (scheduleDailyRuns account_address tza sessions fuel)).
  unfold scheduleDailyRuns. obey_auto.
  apply emits_while_true. unfold daily_session. obey_auto.
  apply emits_obey_promise_all2.
  - apply runMainTasks_obey.
  - apply runTokenDeploy_obey.
Qed.

(** C6 as stated fails: the read of the allowance and the waits for a
    receipt carry no gas price. *)
Lemma gas_price_not_on_every_operation :
  ~ Forall (fun op => gasPrice_of op = Some HIGH_GAS_PRICE)
      (all_calls (events (task_swapTokens "0xabc" calm_world))).
Proof.
  intros H. rewrite Forall_forall in H.
  specialize (H (allowance_read "0xabc")).
  discriminate H. vm_compute. auto.
Qed.

(** ** Receipts that report a failure *)

Section Related.












End Related.






Lemma with_status_rejects st env k :
  r_rejects (with_status st env k) = r_rejects (env k).
Proof. reflexivity. Qed.

Lemma with_status_hash st env k : r_hash (with_status st env k) = r_hash (env k).
Proof. reflexivity. Qed.

Lemma with_status_uint st env k : r_uint (with_status st env k) = r_uint (env k).
Proof. reflexivity. Qed.

Lemma with_status_clock st env k :
  r_clock (with_status st env k) = r_clock (env k).
Proof. reflexivity. Qed.

Lemma with_status_random st env k :
  r_random (with_status st env k) = r_random (env k).
Proof. reflexivity. Qed.

Lemma with_status_bytes st env k :
  r_bytes (with_status st env k) = r_bytes (env k).
Proof. reflexivity. Qed.

Lemma with_status_receipt st env k :
  r_receipt (with_status st env k) =
  mkReceipt (st k) (blockNumber (r_receipt (env k)))
    (contractAddress (r_receipt (env k))).
Proof. reflexivity. Qed.

Create Rewrite HintDb statuses.
#[global] Hint Rewrite with_status_rejects with_status_hash with_status_uint
  with_status_clock with_status_random with_status_bytes with_status_receipt
  : statuses.











(** ** Task 6: the calldata *)

Section String_facts.

Lemma length_append (s1 s2 : string) :
  String.length (s1 ++ s2)%string = (String.length s1 + String.length s2)%nat.
Proof. induction s1 as [|c s1 IH]; simpl; [reflexivity | now rewrite IH]. Qed.

Lemma length_substring (s : string) (n m : nat) :
  (n + m <= String.length s)%nat ->
  String.length (String.substring n m s) = m.
Proof.
  revert n m. induction s as [|c s IH]; intros [|n] [|m] H; simpl in *;
    try reflexivity; try lia.
  - rewrite (IH 0%nat m); [reflexivity | lia].
  - apply IH. lia.
  - apply IH. lia.
Qed.

Lemma substring_append_middle (p x q : string) :
  String.substring (String.length p) (String.length x) (p ++ x ++ q)%string = x.
Proof.
  induction p as [|c p IH]; simpl; [|exact IH].
  induction x as [|c x IH]; simpl.
  - destruct q; reflexivity.
  - now rewrite IH.
Qed.

(** Replacing [k] characters of [s] at position [a] by a string of [k]
    characters. *)
Lemma splice_spec (s x : string) (a k : nat) :
  (a + k <= String.length s)%nat ->
  String.length x = k ->
  let d := (String.substring 0 a s ++ x
            ++ String.substring (a + k) (String.length s - (a + k)) s)%string in
  String.length d = String.length s /\
  String.substring a k d = x /\
  (forall i, (i < a \/ a + k <= i)%nat -> String.get i d = String.get i s).
Proof.
  intros Hle Hx d.
  assert (Hp : String.length (String.substring 0 a s) = a)
    by (apply length_substring; lia).
  assert (Hq : String.length
                 (String.substring (a + k) (String.length s - (a + k)) s)
               = (String.length s - (a + k))%nat)
    by (apply length_substring; lia).
  split; [|split].
  - unfold d. rewrite !length_append, Hp, Hq, Hx. lia.
  - unfold d. rewrite <- Hp at 1. rewrite <- Hx at 1.
    apply substring_append_middle.
  - intros i [Hi|Hi]; unfold d.
    + rewrite <- append_correct1 by (rewrite Hp; exact Hi).
      rewrite substring_correct1 by exact Hi. f_equal. lia.
    + replace i with ((i - a) + String.length (String.substring 0 a s))%nat
        at 1 by (rewrite Hp; lia).
      rewrite <- append_correct2.
      replace (i - a)%nat with ((i - a - k) + String.length x)%nat
        by (rewrite Hx; lia).
      rewrite <- append_correct2.
      destruct (Nat.lt_ge_cases (i - a - k) (String.length s - (a + k)))
        as [Hlt|Hge].
      * rewrite substring_correct1 by exact Hlt. f_equal. lia.
      * rewrite substring_correct2 by exact Hge.
        symmetry. clear - Hge Hi Hle.
        assert (Hlen : (String.length s <= i)%nat) by lia.
        clear Hge Hi Hle. revert i Hlen.
        induction s as [|c s IH]; intros [|i] H; simpl in *;
          try reflexivity; try lia.
        apply IH. lia.
Qed.

End String_facts.

Lemma toHex_length bs : String.length (toHex bs) = (2 * List.length bs)%nat.
Proof. induction bs as [|b bs IH]; simpl; [reflexivity | rewrite IH; lia]. Qed.

Lemma toHex_hex bs : all_chars is_hex_digit (toHex bs) = true.
Proof.
  induction bs as [|b bs IH]; [reflexivity|].
  cbn [toHex all_chars]. rewrite IH.
  destruct b; vm_compute; reflexivity.
Qed.

Lemma template_address_position :
  indexOf TEMPLATE_DATA YOUR_ADDRESS_IN_DATA = 74 /\
  strlen YOUR_ADDRESS_IN_DATA = 40 /\
  strlen TEMPLATE_DATA = 1483.
Proof. vm_compute. repeat split. Qed.

Lemma mintpad_data_splice (salt : string) :
  mintpad_data salt =
  (String.substring 0 114 TEMPLATE_DATA ++ salt
   ++ String.substring (114 + 64) (String.length TEMPLATE_DATA - (114 + 64))
        TEMPLATE_DATA)%string.
Proof. vm_compute. reflexivity. Qed.

Lemma substring2_in_range (s : string) (a b : Z) :
  0 <= a <= b -> b <= strlen s ->
  substring2 s a b = String.substring (Z.to_nat a) (Z.to_nat (b - a)) s.
Proof.
  intros Ha Hb. unfold substring2, clamp_index.
  rewrite (Z.max_l a 0), (Z.max_l b 0), (Z.min_l a), (Z.min_l b) by lia.
  rewrite Z.min_l, Z.max_r by lia. reflexivity.
Qed.

Lemma template_first_occurrence (p : Z) :
  0 <= p < indexOf TEMPLATE_DATA YOUR_ADDRESS_IN_DATA ->
  substring2 TEMPLATE_DATA p (p + strlen YOUR_ADDRESS_IN_DATA)
  <> YOUR_ADDRESS_IN_DATA.
Proof.
  destruct template_address_position as (Hat & Hlen & Htpl).
  rewrite Hat, Hlen. intros Hp.
  rewrite substring2_in_range by (rewrite ?Htpl; lia).
  replace (Z.to_nat (p + 40 - p)) with (String.length YOUR_ADDRESS_IN_DATA)
    by (replace (p + 40 - p) with 40 by lia; reflexivity).
  apply (index_correct2 0 74 YOUR_ADDRESS_IN_DATA TEMPLATE_DATA);
    [vm_compute; reflexivity | lia | lia].
Qed.

Lemma mintpad_sends (env : Env) (to data : string) (gasPrice : Z)
  (out : Outcome) :
  In (Call (SendTransaction to data gasPrice) out)
     (events (task_createMintpadNFT env)) ->
  exists bytes : list Byte.byte,
    List.length bytes = 32%nat /\ data = mintpad_data (toHex bytes).
Proof.
  remember (events (task_createMintpadNFT env)) as evs eqn:Hev. revert Hev.
  run; intros -> H; cbn [In] in H;
    remember (mintpad_data _) as d eqn:Hd in H;
    remember (substring2 _ _ _) as shown in H; clear Heqshown;
    repeat (destruct H as [H|H]; [try discriminate H|]); try contradiction;
    injection H as _ <- _ _;
    exists (map (r_bytes (env 0%nat)) (seq 0 32));
    (split; [now rewrite length_map, length_seq | exact Hd]).
Qed.

Lemma mintpad_data_spec (bytes : list Byte.byte) :
  List.length bytes = 32%nat ->
  let data := mintpad_data (toHex bytes) in
  strlen data = strlen TEMPLATE_DATA /\
  substring2 data 114 (114 + 64) = toHex bytes /\
  (forall i, 0 <= i -> i < 114 \/ 114 + 64 <= i ->
     String.get (Z.to_nat i) data = String.get (Z.to_nat i) TEMPLATE_DATA).
Proof.
  intros Hlen data.
  assert (Hsalt : String.length (toHex bytes) = 64%nat)
    by (rewrite toHex_length, Hlen; reflexivity).
  assert (Htpl : String.length TEMPLATE_DATA = 1483%nat)
    by (vm_compute; reflexivity).
  destruct (splice_spec TEMPLATE_DATA (toHex bytes) 114 64) as (Hl & Hs & Hg);
    [rewrite Htpl; lia | exact Hsalt |].
  unfold data. rewrite mintpad_data_splice.
  split; [|split].
  - unfold strlen. now rewrite Hl.
  - rewrite substring2_in_range; [exact Hs | lia |].
    unfold strlen. rewrite Hl, Htpl. lia.
  - intros i Hi Hout. apply Hg. lia.
Qed.

(** The transaction of task 6 carries the bytes the world gave to
    [randomBytes], and the line printed before it shows how their rendering
    begins. *)
Lemma mintpad_sends_salt (env : Env) (to data : string) (gasPrice : Z)
  (out : Outcome) :
  In (Call (SendTransaction to data gasPrice) out)
     (events (task_createMintpadNFT env)) ->
  exists bytes : list Byte.byte,
    res (randomBytes 32 env) = Ok bytes /\
    List.length bytes = 32%nat /\
    data = mintpad_data (toHex bytes) /\
    In (Log stdout (MsgGeneratedSalt (substring2 (toHex bytes) 0 10)))
       (events (task_createMintpadNFT env)).
Proof.
  remember (events (task_createMintpadNFT env)) as evs eqn:Hev. revert Hev.
  run; intros -> H;
    exists (map (r_bytes (env 0%nat)) (seq 0 32));
    (split; [reflexivity|]);
    (split; [now rewrite length_map, length_seq|]);
    (split; [|cbn [In]; right; left; reflexivity]);
    cbn [In] in H;
    remember (mintpad_data _) as d eqn:Hd in H |- *;
    remember (substring2 _ _ _) as shown in H; clear Heqshown;
    repeat (destruct H as [H|H]; [try discriminate H|]); try contradiction;
    injection H as _ <- _ _; reflexivity.
Qed.

(** C10. The calldata that [task_createMintpadNFT] sends has the length of
    the template and is the template except for the 64 characters that
    follow the first occurrence of the sender address: these are the
    hexadecimal rendering of the 32 bytes that [randomBytes] returned to the
    task, the ones whose first ten digits the task has printed. *)
Theorem mintpad_calldata_is_template_with_salt (env : Env) (to data : string)
  (gasPrice : Z) (out : Outcome) :
  In (Call (SendTransaction to data gasPrice) out)
     (events (task_createMintpadNFT env)) ->
  let at_address := indexOf TEMPLATE_DATA YOUR_ADDRESS_IN_DATA in
  let start := at_address + strlen YOUR_ADDRESS_IN_DATA in
  (0 <= at_address /\
   forall p, 0 <= p < at_address ->
     substring2 TEMPLATE_DATA p (p + strlen YOUR_ADDRESS_IN_DATA)
     <> YOUR_ADDRESS_IN_DATA) /\
  strlen data = strlen TEMPLATE_DATA /\
  (exists bytes : list Byte.byte,
     res (randomBytes 32 env) = Ok bytes /\
     List.length bytes = 32%nat /\
     substring2 data start (start + 64) = toHex bytes /\
     all_chars is_hex_digit (toHex bytes) = true /\
     In (Log stdout (MsgGeneratedSalt (substring2 (toHex bytes) 0 10)))
        (events (task_createMintpadNFT env))) /\
  (forall i, 0 <= i -> i < start \/ start + 64 <= i ->
     String.get (Z.to_nat i) data = String.get (Z.to_nat i) TEMPLATE_DATA).
Proof.
  intros Hin at_address start.
  destruct (mintpad_sends_salt env to data gasPrice out Hin)
    as (bytes & Hres & Hlen & -> & Hlog).
  destruct (mintpad_data_spec bytes Hlen) as (Hl & Hs & Hg).
  destruct template_address_position as (Hat & Haddr & _).
  assert (Hstart : start = 114) by (unfold start, at_address; rewrite Hat, Haddr; reflexivity).
  rewrite Hstart.
  split; [|split; [|split]].
  - split; [unfold at_address; rewrite Hat; lia|].
    intros p Hp. now apply template_first_occurrence.
  - exact Hl.
  - exists bytes. split; [exact Hres|]. split; [exact Hlen|].
    split; [exact Hs|]. split; [apply toHex_hex | exact Hlog].
  - exact Hg.
Qed.

Lemma mintpad_calldata_is_template_with_salt_witness :
  In (Call (SendTransaction MINTPAD_CONTRACT_ADDRESS
              (mintpad_data (toHex (repeat Byte.x2a 32))) HIGH_GAS_PRICE)
        (Resolved (VHash "0xfeed")))
     (events (task_createMintpadNFT calm_world)) /\
  res (randomBytes 32 calm_world) = Ok (repeat Byte.x2a 32) /\
  substring2 (mintpad_data (toHex (repeat Byte.x2a 32))) 114 (114 + 64)
  = "2a2a2a2a2a2a2a2a2a2a2a2a2a2a2a2a2a2a2a2a2a2a2a2a2a2a2a2a2a2a2a2a" /\
  In (Log stdout (MsgGeneratedSalt "2a2a2a2a2a"))
     (events (task_createMintpadNFT calm_world)).
Proof.
  assert (H : In (Call (SendTransaction MINTPAD_CONTRACT_ADDRESS
                          (mintpad_data (toHex (repeat Byte.x2a 32)))
                          HIGH_GAS_PRICE)
                    (Resolved (VHash "0xfeed")))
                (events (task_createMintpadNFT calm_world)))
    by (vm_compute; auto).
  split; [exact H|].
  assert (Hb : res (randomBytes 32 calm_world) = Ok (repeat Byte.x2a 32))
    by reflexivity.
  split; [exact Hb|].
  destruct (mintpad_calldata_is_template_with_salt calm_world _ _ _ _ H)
    as (_ & _ & (bytes & Hres & _ & Hs & _ & Hlog) & _).
  rewrite Hb in Hres. injection Hres as <-.
  split; [exact Hs | exact Hlog].
Defined.

(** * Dates *)

Module JsDateFacts.

Import JsDate.

Lemma Day_TimeWithinDay t : MakeDate (Day t) (TimeWithinDay t) = t.
Proof.
  unfold MakeDate, Day, TimeWithinDay, msPerDay.
  pose proof (Z.div_mod t 86400000). lia.
Qed.

Lemma leap_step_4 y :
  (y + 1 - 1969) / 4 - (y - 1969) / 4 = if y mod 4 =? 0 then 1 else 0.
Proof. destruct (Z.eqb_spec (y mod 4) 0); Z.div_mod_to_equations; lia. Qed.

Lemma leap_step_100 y :
  (y + 1 - 1901) / 100 - (y - 1901) / 100 = if y mod 100 =? 0 then 1 else 0.
Proof. destruct (Z.eqb_spec (y mod 100) 0); Z.div_mod_to_equations; lia. Qed.

Lemma leap_step_400 y :
  (y + 1 - 1601) / 400 - (y - 1601) / 400 = if y mod 400 =? 0 then 1 else 0.
Proof. destruct (Z.eqb_spec (y mod 400) 0); Z.div_mod_to_equations; lia. Qed.

Lemma mod_100_4 y : y mod 100 = 0 -> y mod 4 = 0.
Proof. intros H. Z.div_mod_to_equations. lia. Qed.

Lemma mod_400_100 y : y mod 400 = 0 -> y mod 100 = 0.
Proof. intros H. Z.div_mod_to_equations. lia. Qed.

(** A year is as long as the distance between its first day and the
    next year's. *)
Lemma DaysInYear_step y : DayFromYear (y + 1) - DayFromYear y = DaysInYear y.
Proof.
  unfold DayFromYear, DaysInYear.
  pose proof (leap_step_4 y) as H4.
  pose proof (leap_step_100 y) as H100.
  pose proof (leap_step_400 y) as H400.
  pose proof (mod_100_4 y) as I1.
  pose proof (mod_400_100 y) as I2.
  destruct (Z.eqb_spec (y mod 4) 0), (Z.eqb_spec (y mod 100) 0),
    (Z.eqb_spec (y mod 400) 0); simpl negb; cbv iota; lia.
Qed.

Lemma DayFromYear_mono y y' : y <= y' -> DayFromYear y <= DayFromYear y'.
Proof. unfold DayFromYear. Z.div_mod_to_equations. lia. Qed.

(** [YearFromTime t] is the year whose span of days holds [t]. *)
Lemma YearFromTime_spec t :
  TimeFromYear (YearFromTime t) <= t < TimeFromYear (YearFromTime t + 1).
Proof.
  assert (H : DayFromYear (YearFromTime t) <= Day t
              < DayFromYear (YearFromTime t + 1)).
  { unfold YearFromTime.
    set (d := Day t). set (y := 1970 + 400 * d / 146097).
    destruct (Z.ltb_spec d (DayFromYear y)) as [H1|H1].
    - replace (y - 1 + 1) with y by lia. split; [|exact H1].
      subst y. unfold DayFromYear in *. Z.div_mod_to_equations. lia.
    - destruct (Z.leb_spec (DayFromYear (y + 1)) d) as [H2|H2].
      + split; [exact H2|]. subst y. unfold DayFromYear in *.
        Z.div_mod_to_equations. lia.
      + split; assumption. }
  unfold TimeFromYear, Day, msPerDay in *.
  Z.div_mod_to_equations. lia.
Qed.

Lemma YearFromTime_days t :
  DayFromYear (YearFromTime t) <= Day t < DayFromYear (YearFromTime t + 1).
Proof.
  pose proof (YearFromTime_spec t) as H.
  unfold TimeFromYear, Day, msPerDay in *. Z.div_mod_to_equations. lia.
Qed.

Lemma YearFromTime_unique t y :
  DayFromYear y <= Day t < DayFromYear (y + 1) -> YearFromTime t = y.
Proof.
  intros H. pose proof (YearFromTime_days t) as H'.
  destruct (Z.lt_trichotomy (YearFromTime t) y) as [Hlt|[Heq|Hgt]];
    [|exact Heq|].
  - pose proof (DayFromYear_mono (YearFromTime t + 1) y). lia.
  - pose proof (DayFromYear_mono (y + 1) (YearFromTime t)). lia.
Qed.

(** No later year begins at or before [t]. *)
Lemma YearFromTime_largest t y : TimeFromYear y <= t -> y <= YearFromTime t.
Proof.
  intros H. destruct (YearFromTime_spec t) as (_ & Hlt).
  destruct (Z.le_gt_cases y (YearFromTime t)) as [Hle|Hgt]; [exact Hle|].
  pose proof (DayFromYear_mono (YearFromTime t + 1) y) as Hm.
  unfold TimeFromYear, msPerDay in *. lia.
Qed.

Lemma MonthFromTime_range t : 0 <= MonthFromTime t <= 11.
Proof.
  unfold MonthFromTime.
  repeat match goal with
         | |- context [if ?c then _ else _] => destruct c
         end; lia.
Qed.

(** In the month of [t], day [dt] of the month is [dt - DateFromTime t]
    days away from [t]. *)
Lemma MakeDay_same_month t dt :
  MakeDay (YearFromTime t) (MonthFromTime t) dt = Day t - DateFromTime t + dt.
Proof.
  pose proof (MonthFromTime_range t) as Hm.
  unfold MakeDay.
  rewrite (Z.div_small (MonthFromTime t) 12), (Z.mod_small (MonthFromTime t) 12)
    by lia.
  rewrite Z.add_0_r.
  unfold DateFromTime, DayWithinYear, InLeapYear. lia.
Qed.

(** [MakeDay] meets its specification: the day it gives for the first of a
    month lies in that year and month and is the first of the month. *)
Lemma MakeDay_first y m :
  0 <= m <= 11 ->
  let t := MakeDate (MakeDay y m 1) 0 in
  YearFromTime t = y /\ MonthFromTime t = m /\ DateFromTime t = 1.
Proof.
  intros Hm t.
  set (leap := if DaysInYear y =? 365 then 0 else 1).
  assert (Hday : Day t = DayFromYear y + monthStart m leap).
  { unfold t, MakeDate, Day, MakeDay, msPerDay.
    rewrite (Z.div_small m 12) by lia. rewrite (Z.mod_small m 12) by lia.
    rewrite !Z.add_0_r. fold leap. rewrite Z.div_mul by lia. lia. }
  assert (Hleap : leap = 0 /\ DaysInYear y = 365 \/ leap = 1 /\ DaysInYear y = 366).
  { unfold leap, DaysInYear.
    repeat match goal with
           | |- context [negb ?c] => destruct c; cbn [negb]
           end; cbn; auto. }
  assert (Hstart : 0 <= monthStart m leap < DaysInYear y).
  { unfold monthStart.
    repeat match goal with
           | |- context [if ?c then _ else _] => destruct c
           end; lia. }
  assert (Hyear : YearFromTime t = y).
  { apply YearFromTime_unique. pose proof (DaysInYear_step y). lia. }
  assert (Hin : InLeapYear t = leap) by (unfold InLeapYear; now rewrite Hyear).
  assert (Hdwy : DayWithinYear t = monthStart m leap)
    by (unfold DayWithinYear; rewrite Hyear; lia).
  assert (Hmonth : MonthFromTime t = m).
  { unfold MonthFromTime. rewrite Hdwy, Hin.
    assert (Hcases : m = 0 \/ m = 1 \/ m = 2 \/ m = 3 \/ m = 4 \/ m = 5 \/
                     m = 6 \/ m = 7 \/ m = 8 \/ m = 9 \/ m = 10 \/ m = 11)
      by lia.
    destruct Hleap as [[-> _]|[-> _]];
      repeat (destruct Hcases as [->|Hcases]; [reflexivity|]);
      subst m; reflexivity. }
  split; [exact Hyear|]. split; [exact Hmonth|].
  unfold DateFromTime. rewrite Hmonth, Hdwy, Hin. lia.
Qed.

(** Setting the day of the month to the next one moves the local time by
    one day. *)
Lemma setDate_next_day (tza : Zone) (t : Z) :
  setDate tza (Some t) (num_add (getDate tza (Some t)) (Some 1)) =
  TimeClip (UTC tza (LocalTime tza t + msPerDay)).
Proof.
  unfold setDate, getDate, num_add.
  rewrite MakeDay_same_month. f_equal. f_equal.
  replace (Day (LocalTime tza t) - DateFromTime (LocalTime tza t)
           + (DateFromTime (LocalTime tza t) + 1))
    with (Day (LocalTime tza t) + 1) by lia.
  pose proof (Day_TimeWithinDay (LocalTime tza t)) as H.
  unfold MakeDate in *. lia.
Qed.

End JsDateFacts.

(** * The master scheduler *)

Section Master.

Variable account_address : string.
Variable tza : JsDate.Zone.
Variable fuel : nat.
Hypothesis enough_fuel : (Z.to_nat MAIN_RUNS_PER_SESSION < fuel)%nat.

Lemma promise_all2_sub_schedulers env :
  res (promise_all2 (runMainTasks account_address fuel) (runTokenDeploy fuel) env)
  = Ok tt.
Proof.
  unfold promise_all2. cbn [res].
  rewrite (proj1 (runMainTasks_shape account_address fuel _ enough_fuel)).
  rewrite (proj1 (runTokenDeploy_shape fuel _ (token_fuel fuel enough_fuel))).
  reflexivity.
Qed.

Lemma daily_session_shape env :
  res (daily_session account_address tza fuel env) = Ok tt /\
  is_session tza (events (daily_session account_address tza fuel env)).
Proof.
  unfold daily_session.
  rewrite res_bind_date_now, events_bind_date_now, res_bind_log, events_bind_log.
  rewrite res_bind, events_bind, promise_all2_sub_schedulers.
  rewrite res_bind_log, events_bind_log.
  rewrite res_bind_date_now, events_bind_date_now.
  split; [reflexivity|].
  do 4 eexists. unfold session_events, promise_all2. cbn [events app].
  reflexivity.
Qed.

Lemma scheduleDailyRuns_shape sessions env :
  res (scheduleDailyRuns account_address tza sessions fuel env) = OutOfFuel /\
  exists segs,
    List.length segs = sessions /\
    Forall (is_session tza) segs /\
    events (scheduleDailyRuns account_address tza sessions fuel env) =
      master_banner account_address ++ List.concat segs.
Proof.
  unfold scheduleDailyRuns.
  rewrite !res_bind_log, !events_bind_log.
  destruct (while_true_passes (daily_session account_address tza fuel)
              (fun e => proj1 (daily_session_shape e)) sessions env)
    as (Hr & segs & Hl & Hs & He).
  split; [exact Hr|]. exists segs. repeat split.
  - exact Hl.
  - apply Forall_forall. intros seg Hin.
    rewrite Forall_forall in Hs. destruct (Hs seg Hin) as (e & ->).
    apply daily_session_shape.
  - rewrite He. reflexivity.
Qed.

End Master.

(** ** What the master scheduler computes, read off its trace *)

Section Master_trace.

Variable tza : JsDate.Zone.

Lemma session_pairs_sessions segs :
  Forall (is_session tza) segs ->
  forall start0,
    List.length (session_pairs_from start0 (List.concat segs))
    = List.length segs /\
    forall start next,
      In (start, next) (session_pairs_from start0 (List.concat segs)) ->
      exists s, start = Some s /\ next = next_session_time tza (Some s).
Proof.
  induction 1 as [|seg segs (s & now & main & token & ->) _ IH]; intros start0.
  - split; [reflexivity | intros ? ? []].
  - destruct (IH (Some s)) as (Hl & Hin).
    cbn [List.concat session_events app session_pairs_from List.length In].
    split; [now rewrite Hl|].
    intros start next [Heq|Hrest].
    + injection Heq as <- <-. now exists s.
    + now apply Hin.
Qed.


Lemma session_starts_sessions segs :
  Forall (is_session tza) segs ->
  List.length (session_starts (List.concat segs)) = List.length segs.
Proof.
  induction 1 as [|seg segs (s & now & main & token & ->) _ IH];
    [reflexivity|].
  cbn [List.concat]. rewrite project_app, length_app, IH. reflexivity.
Qed.

End Master_trace.

Lemma next_session_time_value (tza : JsDate.Zone) (s : Z) :
  Z.abs s <= 8640000000000000 ->
  next_session_time tza (Some s) =
  JsDate.TimeClip (JsDate.UTC tza (JsDate.LocalTime tza s + JsDate.msPerDay)).
Proof.
  intros Hs. unfold next_session_time, JsDate.getTime, JsDate.Date_of.
  unfold JsDate.TimeClip at 1 2.
  replace (Z.abs s <=? 8640000000000000) with true
    by (symmetry; now apply Z.leb_le).
  apply JsDateFacts.setDate_next_day.
Qed.



(** ** The daily cycle *)

(** C3, as the code has it. After every daily session the next session time
    is the recorded start moved by one calendar day on the local clock (the
    local start time plus 24 hours, read back as local time), whatever the
    clock says when the session ends; it is the recorded start plus exactly
    24 hours whenever the local offset that applies there is the one in
    force at the start. *)
Theorem next_session_is_next_local_day (account_address : string)
  (tza : JsDate.Zone) (sessions fuel : nat) (env : Env) :
  (Z.to_nat MAIN_RUNS_PER_SESSION < fuel)%nat ->
  let pairs :=
    session_pairs
      (events (scheduleDailyRuns account_address tza sessions fuel env)) in
  List.length pairs = sessions /\
  forall start next,
    In (start, next) pairs ->
    exists s,
      start = Some s /\
      (Z.abs s <= 8640000000000000 ->
       next = JsDate.TimeClip
                (JsDate.UTC tza (JsDate.LocalTime tza s + JsDate.msPerDay))) /\
      (Z.abs s <= 8640000000000000 ->
       Z.abs (s + JsDate.msPerDay) <= 8640000000000000 ->
       tza (JsDate.LocalTime tza s + JsDate.msPerDay) false = tza s true ->
       next = Some (s + JsDate.msPerDay)).
Proof.
  intros Hfuel pairs.
  destruct (scheduleDailyRuns_shape account_address tza fuel Hfuel sessions env)
    as (_ & segs & Hl & Hs & He).
  destruct (session_pairs_sessions tza segs Hs NaN) as (Hlen & Hin).
  assert (Hp : pairs = session_pairs_from NaN (List.concat segs))
    by (unfold pairs; rewrite He; reflexivity).
  rewrite Hp. split; [now rewrite Hlen|].
  intros start next Hpair. destruct (Hin start next Hpair) as (s & -> & ->).
  exists s. split; [reflexivity|]. split.
  - apply next_session_time_value.
  - intros Hs1 Hs2 Hoff. rewrite next_session_time_value by exact Hs1.
    unfold JsDate.UTC. rewrite Hoff. unfold JsDate.LocalTime, JsDate.TimeClip.
    replace (s + tza s true + JsDate.msPerDay - tza s true)
      with (s + JsDate.msPerDay) by lia.
    now apply Z.leb_le in Hs2 as ->.
Qed.

Lemma next_session_is_next_local_day_witness :
  (Z.to_nat MAIN_RUNS_PER_SESSION < 11)%nat /\
  List.length
    (session_pairs
       (events (scheduleDailyRuns "0xabc" spring_forward 2 11
                  (world_at noon_before_switch noon_before_switch)))) = 2%nat.
Proof.
  assert (H : (Z.to_nat MAIN_RUNS_PER_SESSION < 11)%nat) by (vm_compute; lia).
  split; [exact H|].
  apply (next_session_is_next_local_day "0xabc" spring_forward 2 11
           (world_at noon_before_switch noon_before_switch) H).
Defined.

(** C3 as stated fails on a host whose zone changes its offset within the
    day: a session started at 2026-03-28T12:00:00Z on the [spring_forward]
    host is followed by one scheduled 23 hours after it. *)
Lemma next_session_not_24_hours_later :
  session_pairs
    (events (scheduleDailyRuns "0xabc" spring_forward 1 11
               (world_at noon_before_switch (noon_before_switch + 36000000))))
  = [(Some noon_before_switch, Some (noon_before_switch + 23 * 3600000))] /\
  ~ Forall (fun p => snd p = num_add (fst p) (Some (24 * 3600000)))
      (session_pairs
         (events (scheduleDailyRuns "0xabc" spring_forward 1 11
                    (world_at noon_before_switch
                       (noon_before_switch + 36000000))))).
Proof.
  assert (H : session_pairs
                (events (scheduleDailyRuns "0xabc" spring_forward 1 11
                           (world_at noon_before_switch
                              (noon_before_switch + 36000000))))
              = [(Some noon_before_switch,
                  Some (noon_before_switch + 23 * 3600000))])
    by (vm_compute; reflexivity).
  split; [exact H|].
  rewrite H. intros Hall. inversion Hall as [|p l Hp _]. subst.
  vm_compute in Hp. discriminate Hp.
Qed.




Lemma while_true_one_more (body : M unit) :
  (forall env, res (body env) = Ok tt) ->
  forall fuel env,
    exists env',
      events (while_true (S fuel) body env) =
      events (while_true fuel body env) ++ events (body env').
Proof.
  intros Hok. induction fuel as [|fuel IH]; intros env.
  - exists env. cbn [while_true]. rewrite events_bind, Hok. apply app_nil_r.
  - destruct (IH (shift (used (body env)) env)) as (env' & He).
    exists env'. change (while_true (S (S fuel)) body)
      with (body ;; while_true (S fuel) body).
    change (while_true (S fuel) body env)
      with ((body ;; while_true fuel body) env).
    rewrite !events_bind, Hok, He. now rewrite app_assoc.
Qed.

(** C8. The master scheduler never returns and never throws: however many
    passes of its loop are run, it is still running, each pass started a
    session, and one more pass adds one more session to the trace. *)
Theorem master_scheduler_never_stops (account_address : string)
  (tza : JsDate.Zone) (sessions fuel : nat) (env : Env) :
  (Z.to_nat MAIN_RUNS_PER_SESSION < fuel)%nat ->
  res (scheduleDailyRuns account_address tza sessions fuel env) = OutOfFuel /\
  List.length
    (session_starts
       (events (scheduleDailyRuns account_address tza sessions fuel env)))
  = sessions /\
  exists seg,
    is_session tza seg /\
    events (scheduleDailyRuns account_address tza (S sessions) fuel env) =
    events (scheduleDailyRuns account_address tza sessions fuel env) ++ seg.
Proof.
  intros Hfuel.
  destruct (scheduleDailyRuns_shape account_address tza fuel Hfuel sessions env)
    as (Hr & segs & Hl & Hs & He).
  split; [exact Hr|]. split.
  - rewrite He, project_app, length_app, (session_starts_sessions tza segs Hs).
    rewrite Hl. reflexivity.
  - destruct (while_true_one_more (daily_session account_address tza fuel)
                (fun e => proj1 (daily_session_shape account_address tza fuel
                                   Hfuel e))
                sessions env) as (env' & Hmore).
    exists (events (daily_session account_address tza fuel env')).
    split; [apply (daily_session_shape account_address tza fuel Hfuel)|].
    unfold scheduleDailyRuns. rewrite !events_bind_log, Hmore. reflexivity.
Qed.

Lemma master_scheduler_never_stops_witness :
  (Z.to_nat MAIN_RUNS_PER_SESSION < 11)%nat /\
  res (scheduleDailyRuns "0xabc" utc 3 11 rough_world) = OutOfFuel.
Proof.
  assert (H : (Z.to_nat MAIN_RUNS_PER_SESSION < 11)%nat) by (vm_compute; lia).
  split; [exact H|].
  apply (master_scheduler_never_stops "0xabc" utc 3 11 rough_world H).
Defined.

(** * The environment *)

Lemma trimStart_split (s : JsString) :
  exists before,
    s = before ++ trimStart s /\ white before /\
    match trimStart s with
    | [] => True
    | c :: _ => is_white_space c = false
    end.
Proof.
  induction s as [|c s (before & Hs & Hb & Hh)]; simpl.
  - exists []. repeat split. constructor.
  - destruct (is_white_space c) eqn:E.
    + exists (c :: before). split; [simpl; now rewrite <- Hs|].
      split; [constructor; assumption | exact Hh].
    + exists []. repeat split; [constructor | exact E].
Qed.

Lemma trimStart_blank (s : JsString) : trimStart s = [] <-> white s.
Proof.
  induction s as [|c s IH]; simpl.
  - split; [constructor | reflexivity].
  - destruct (is_white_space c) eqn:E.
    + rewrite IH. split; [now constructor | now inversion 1].
    + split; [discriminate|]. inversion 1. congruence.
Qed.

Lemma trimEnd_split (s : JsString) :
  exists after,
    s = trimEnd s ++ after /\ white after /\
    (trimEnd s = [] \/
     exists rest c, trimEnd s = rest ++ [c] /\ is_white_space c = false).
Proof.
  unfold trimEnd.
  destruct (trimStart_split (rev s)) as (before & Hs & Hb & Hh).
  exists (rev before). split; [|split].
  - rewrite <- rev_app_distr, <- Hs. now rewrite rev_involutive.
  - now apply Forall_rev.
  - destruct (trimStart (rev s)) as [|c rest]; [now left|].
    right. exists (rev rest), c. split; [reflexivity | exact Hh].
Qed.

Lemma trimEnd_head (s : JsString) c rest :
  s = c :: rest -> is_white_space c = false ->
  exists rest', trimEnd s = c :: rest'.
Proof.
  intros -> Hc.
  destruct (trimEnd_split (c :: rest)) as (after & Hs & Ha & Hl).
  destruct (trimEnd (c :: rest)) as [|c' rest'] eqn:E.
  - simpl in Hs. subst after. inversion Ha. congruence.
  - injection Hs as <- _. now exists rest'.
Qed.

Lemma trim_blank (s : JsString) : trim s = [] <-> white s.
Proof.
  unfold trim.
  destruct (trimStart_split s) as (before & Hs & Hb & Hh).
  split.
  - intros H. apply trimStart_blank.
    destruct (trimStart s) as [|c rest]; [reflexivity|].
    destruct (trimEnd_head (c :: rest) c rest eq_refl Hh) as (rest' & E).
    rewrite E in H. discriminate H.
  - intros H. apply trimStart_blank in H. now rewrite H.
Qed.

Lemma trim_stripped (s : JsString) :
  trim s <> [] -> stripped (Some s) (trim s).
Proof.
  intros Hne. unfold trim in *.
  destruct (trimStart_split s) as (before & Hs & Hb & Hh).
  destruct (trimEnd_split (trimStart s)) as (after & Hs' & Ha & Hl).
  exists before, after, s. split; [reflexivity|].
  split; [now rewrite <- Hs'|]. split; [exact Hb|]. split; [exact Ha|].
  split.
  - destruct (trimStart s) as [|c rest]; [now elim Hne|].
    destruct (trimEnd_head (c :: rest) c rest eq_refl Hh) as (rest' & E).
    exists c, rest'. split; [exact E | exact Hh].
  - destruct Hl as [Hl|Hl]; [now elim Hne | exact Hl].
Qed.

Lemma falsy_optional_trim (v : option JsString) :
  falsy (optional_trim v) = true <-> blank v.
Proof.
  destruct v as [s|]; simpl; [|tauto].
  pose proof (trim_blank s) as H.
  destruct (trim s); split; intros H'; try reflexivity; try discriminate H'.
  - now apply H.
  - apply H in H'. discriminate H'.
Qed.

Lemma stripped_optional_trim (v : option JsString) :
  falsy (optional_trim v) = false ->
  exists s, optional_trim v = Some s /\ stripped v s.
Proof.
  destruct v as [s|]; simpl; [|discriminate].
  intros H. exists (trim s). split; [reflexivity|].
  apply trim_stripped. intros E. rewrite E in H. discriminate H.
Qed.

(** X1. The script exits with code 1 exactly when [RPC_URL] or
    [PRIVATE_KEY] is not set or holds nothing but white space; otherwise it
    goes on with the two values stripped of the white space at both ends,
    each of them non-empty. *)
Theorem bootstrap_needs_url_and_key (env : ProcessEnv) :
  (bootstrap env = Exit 1 <-> blank (env "RPC_URL") \/ blank (env "PRIVATE_KEY")) /\
  (forall code, bootstrap env = Exit code -> code = 1) /\
  (forall u k, bootstrap env = Start u k ->
     exists url key,
       u = Some url /\ k = Some key /\
       stripped (env "RPC_URL") url /\ stripped (env "PRIVATE_KEY") key).
Proof.
  unfold bootstrap.
  pose proof (falsy_optional_trim (env "RPC_URL")) as Hu.
  pose proof (falsy_optional_trim (env "PRIVATE_KEY")) as Hk.
  pose proof (stripped_optional_trim (env "RPC_URL")) as Su.
  pose proof (stripped_optional_trim (env "PRIVATE_KEY")) as Sk.
  destruct (falsy (optional_trim (env "RPC_URL"))) eqn:Eu;
    destruct (falsy (optional_trim (env "PRIVATE_KEY"))) eqn:Ek; simpl.
  1-3: split; [split; [intros _; tauto | reflexivity]|];
       split; [now intros code [= <-] | discriminate].
  split; [|split; [discriminate|]].
  - split; [discriminate|]. intros [H|H]; [apply Hu in H | apply Hk in H];
      discriminate H.
  - intros u k [= <- <-].
    destruct (Su eq_refl) as (url & -> & Hurl).
    destruct (Sk eq_refl) as (key & -> & Hkey).
    now exists url, key.
Qed.

(** * More on the task functions *)

(** ** Task 2: the parameters of the token *)

Lemma toLowerCase_uint (d : Decimal.uint) :
  toLowerCase (NilEmpty.string_of_uint d) = NilEmpty.string_of_uint d.
Proof. induction d; simpl; try rewrite IHd; reflexivity. Qed.

Lemma toLowerCase_string_of_Z (z : Z) :
  toLowerCase (string_of_Z z) = string_of_Z z.
Proof.
  unfold string_of_Z. destruct (Z.to_int z) as [d|d]; simpl;
    now rewrite toLowerCase_uint.
Qed.

Lemma denom_of_symbol (x y : string) :
  ("a" ++ toLowerCase ("ATK" ++ x) ++ "-" ++ y)%string
  = ("aatk" ++ toLowerCase x ++ "-" ++ y)%string.
Proof. reflexivity. Qed.

Lemma Call_inj (op op' : ClientOp) (out out' : Outcome) :
  Call op out = Call op' out' -> op = op' /\ out = out'.
Proof. intros H. injection H as -> ->. now split. Qed.

(** Case analysis on the membership of a call in a trace that symbolic
    execution has made explicit. *)
Ltac pick_call H :=
  cbn [In] in H;
  repeat (destruct H as [H|H]; [try discriminate H|]); try contradiction;
  apply Call_inj in H.

(** X2. The transaction [task_createToken] submits is a call of
    [createErc20] on the token deployer whose name is AutoToken followed by
    a number below 10000, whose symbol is ATK followed by a number below
    1000 and whose denomination is the lower-case symbol between an a and
    the reading of the clock, for a supply of one million tokens of 18
    decimals and an empty logo. *)
Theorem token_parameters (env : Env) (op : ClientOp) (out : Outcome) :
  In (Call op out) (events (task_createToken env)) ->
  submits op = true ->
  exists n m now,
    0 <= n < 10000 /\ 0 <= m < 1000 /\
    In (Clock now) (events (task_createToken env)) /\
    op = WriteContract TOKEN_DEPLOYER_ADDRESS TOKEN_DEPLOYER_ABI "createErc20"
           [AStr ("AutoToken" ++ string_of_Z n);
            AStr ("ATK" ++ string_of_Z m);
            AStr ("aatk" ++ string_of_Z m ++ "-" ++ string_of_Z now);
            AUint (1000000 * 10 ^ 18); AUint 18; AStr ""]
           HIGH_GAS_PRICE.
Proof.
  remember (events (task_createToken env)) as evs eqn:Hev. revert Hev.
  run; intros -> H Hs; cbn [In] in H;
    rewrite denom_of_symbol, toLowerCase_string_of_Z in H;
    unfold parseUnits in H;
    exists (r_random (env 0%nat) mod 10000), (r_random (env 1%nat) mod 1000),
      (r_clock (env 2%nat));
    (split; [apply Z.mod_pos_bound; lia|]);
    (split; [apply Z.mod_pos_bound; lia|]);
    (split; [cbn [In]; auto|]);
    match goal with
    | |- _ = ?w => remember w as tx eqn:Htx; clear Htx
    end;
    pick_call H; destruct H as [<- _]; try discriminate Hs; reflexivity.
Qed.

Lemma token_parameters_witness :
  In (Call
        (WriteContract TOKEN_DEPLOYER_ADDRESS TOKEN_DEPLOYER_ABI "createErc20"
           [AStr "AutoToken7"; AStr "ATK7"; AStr "aatk7-1700000000000";
            AUint (1000000 * 10 ^ 18); AUint 18; AStr ""] HIGH_GAS_PRICE)
        (Resolved (VHash "0xfeed")))
     (events (task_createToken calm_world)) /\
  exists n m now,
    0 <= n < 10000 /\ 0 <= m < 1000 /\
    In (Clock now) (events (task_createToken calm_world)) /\
    WriteContract TOKEN_DEPLOYER_ADDRESS TOKEN_DEPLOYER_ABI "createErc20"
      [AStr "AutoToken7"; AStr "ATK7"; AStr "aatk7-1700000000000";
       AUint (1000000 * 10 ^ 18); AUint 18; AStr ""] HIGH_GAS_PRICE
    = WriteContract TOKEN_DEPLOYER_ADDRESS TOKEN_DEPLOYER_ABI "createErc20"
        [AStr ("AutoToken" ++ string_of_Z n);
         AStr ("ATK" ++ string_of_Z m);
         AStr ("aatk" ++ string_of_Z m ++ "-" ++ string_of_Z now);
         AUint (1000000 * 10 ^ 18); AUint 18; AStr ""]
        HIGH_GAS_PRICE.
Proof.
  assert (H : In (Call
                    (WriteContract TOKEN_DEPLOYER_ADDRESS TOKEN_DEPLOYER_ABI
                       "createErc20"
                       [AStr "AutoToken7"; AStr "ATK7";
                        AStr "aatk7-1700000000000";
                        AUint (1000000 * 10 ^ 18); AUint 18; AStr ""]
                       HIGH_GAS_PRICE)
                    (Resolved (VHash "0xfeed")))
                (events (task_createToken calm_world)))
    by (vm_compute; auto).
  split; [exact H|].
  apply (token_parameters calm_world _ _ H). reflexivity.
Defined.

(** ** Task 4: the order of the subtasks *)

(** How far [task_claimAndBurn] comes. *)
Lemma claimAndBurn_progress (env : Env) :
  exists k,
    (1 <= k <= 4)%nat /\
    submissions (events (task_claimAndBurn env)) = firstn k claim_burn_steps /\
    sleeps (events (task_claimAndBurn env)) = repeat (Some 5000) (k - 1) /\
    (k - 1 <= List.length (receipts (events (task_claimAndBurn env))) <= k)%nat /\
    (res (task_claimAndBurn env) = Ok tt ->
     k = 4%nat /\
     List.length (receipts (events (task_claimAndBurn env))) = 4%nat) /\
    ((k < 4)%nat -> exists e, res (task_claimAndBurn env) = Throw e) /\
    receipts_awaited None (events (task_claimAndBurn env)) = true.
Proof.
  remember (events (task_claimAndBurn env)) as evs eqn:Hev.
  remember (res (task_claimAndBurn env)) as r eqn:Hr.
  revert Hev Hr.
  run; intros -> ->;
    cbn beta iota zeta delta
      [project flat_map app submission_of submits subtask_log sleep_of
       receipt_of List.length receipts_awaited];
    rewrite ?String.eqb_refl;
    match goal with
    | |- context [[_; _; _; _] = firstn _ _] => exists 4%nat
    | |- context [[_; _; _] = firstn _ _] => exists 3%nat
    | |- context [[_; _] = firstn _ _] => exists 2%nat
    | |- context [[_] = firstn _ _] => exists 1%nat
    end;
    (split; [lia|]); (split; [reflexivity|]); (split; [reflexivity|]);
    (split; [cbn; lia|]);
    (split; [first [discriminate | intros _; split; reflexivity]|]);
    (split; [first [lia | intros _; eexists; reflexivity]
            | first [reflexivity | destruct (status _); reflexivity]]).
Qed.

(** X3. [task_claimAndBurn] sends its four transactions in the order of the
    source and stops at the first client call that is rejected: what it
    submitted is the first [k] of the four, it waited 5 seconds after each
    subtask but the last one it came to, it obtained the receipt of every
    subtask before sending the next, and it came to all four unless it
    threw. *)
Theorem claim_and_burn_in_order (env : Env) :
  exists k,
    (1 <= k <= 4)%nat /\
    submissions (events (task_claimAndBurn env)) = firstn k claim_burn_steps /\
    sleeps (events (task_claimAndBurn env)) = repeat (Some 5000) (k - 1) /\
    (k - 1 <= List.length (receipts (events (task_claimAndBurn env))) <= k)%nat /\
    (res (task_claimAndBurn env) = Ok tt ->
     k = 4%nat /\
     List.length (receipts (events (task_claimAndBurn env))) = 4%nat) /\
    ((k < 4)%nat -> exists e, res (task_claimAndBurn env) = Throw e).
Proof.
  destruct (claimAndBurn_progress env) as (k & H1 & H2 & H3 & H4 & H5 & H6 & _).
  exists k. auto 10.
Qed.

(** ** Task 5: the swap *)

(** X4. The swap [task_swapTokens] submits spends exactly one token
    (10^18 wei) of HLS for WETH at the 0.3 percent fee tier, to the account
    itself, accepts any amount in return (minimum 0, no price limit), and
    sets its deadline, in seconds, 600 seconds after the reading of the
    clock taken for it: between 599.001 and 600 seconds after that
    reading. *)
Theorem swap_parameters (account_address : string) (env : Env)
  (op : ClientOp) (out : Outcome) :
  In (Call op out) (events (task_swapTokens account_address env)) ->
  is_swap op = true ->
  exists now,
    In (Clock now) (events (task_swapTokens account_address env)) /\
    op = WriteContract SWAP_ROUTER_ADDRESS SOLARISWAP_ABI "exactInputSingle"
           [ASwapParams HLS_TOKEN_ADDRESS WETH_TOKEN_ADDRESS 3000
              account_address (now / 1000 + 600) (10 ^ 18) 0 0]
           HIGH_GAS_PRICE /\
    now + 599000 < 1000 * (now / 1000 + 600) <= now + 600000.
Proof.
  assert (Hone : parseUnits 1 18 = 10 ^ 18) by (vm_compute; reflexivity).
  rewrite <- Hone. clear Hone.
  remember (events (task_swapTokens account_address env)) as evs eqn:Hev.
  revert Hev.
  run; intros -> H Hs; pick_call H;
    destruct H as [<- _]; try discriminate Hs;
    eexists; (split; [cbn [In]; eauto 10|]);
    (split; [reflexivity|]);
    Z.div_mod_to_equations; lia.
Qed.

Lemma swap_parameters_witness :
  In (Call
        (WriteContract SWAP_ROUTER_ADDRESS SOLARISWAP_ABI "exactInputSingle"
           [ASwapParams HLS_TOKEN_ADDRESS WETH_TOKEN_ADDRESS 3000 "0xabc"
              1700000600 (10 ^ 18) 0 0] HIGH_GAS_PRICE)
        (Resolved (VHash "0xfeed")))
     (events (task_swapTokens "0xabc" calm_world)) /\
  exists now,
    In (Clock now) (events (task_swapTokens "0xabc" calm_world)) /\
    WriteContract SWAP_ROUTER_ADDRESS SOLARISWAP_ABI "exactInputSingle"
      [ASwapParams HLS_TOKEN_ADDRESS WETH_TOKEN_ADDRESS 3000 "0xabc"
         1700000600 (10 ^ 18) 0 0] HIGH_GAS_PRICE
    = WriteContract SWAP_ROUTER_ADDRESS SOLARISWAP_ABI "exactInputSingle"
        [ASwapParams HLS_TOKEN_ADDRESS WETH_TOKEN_ADDRESS 3000 "0xabc"
           (now / 1000 + 600) (10 ^ 18) 0 0] HIGH_GAS_PRICE /\
    now + 599000 < 1000 * (now / 1000 + 600) <= now + 600000.
Proof.
  assert (H : In (Call
                    (WriteContract SWAP_ROUTER_ADDRESS SOLARISWAP_ABI
                       "exactInputSingle"
                       [ASwapParams HLS_TOKEN_ADDRESS WETH_TOKEN_ADDRESS 3000
                          "0xabc" 1700000600 (10 ^ 18) 0 0] HIGH_GAS_PRICE)
                    (Resolved (VHash "0xfeed")))
                (events (task_swapTokens "0xabc" calm_world)))
    by (vm_compute; auto 10).
  split; [exact H|].
  apply (swap_parameters "0xabc" calm_world _ _ H). reflexivity.
Defined.

(** X5. [task_swapTokens] does not look at the receipt of the approval:
    once the approval was submitted and its receipt obtained, whatever the
    receipt reports, the task prints that the approval is complete and
    submits the swap. *)
Theorem swap_follows_unchecked_approval (account_address : string) (env : Env)
  (h : string) (r : Receipt) :
  In (Call approval (Resolved (VHash h)))
     (events (task_swapTokens account_address env)) ->
  In (Call (WaitForTransactionReceipt h) (Resolved (VReceipt r)))
     (events (task_swapTokens account_address env)) ->
  In (Log stdout MsgApprovalComplete)
     (events (task_swapTokens account_address env)) /\
  exists op,
    is_swap op = true /\
    In op (submissions (events (task_swapTokens account_address env))).
Proof.
  remember (events (task_swapTokens account_address env)) as evs eqn:Hev.
  revert Hev.
  run; intros -> Ha Hw; pick_call Ha; pick_call Hw;
    (split; [cbn [In]; auto 10|]);
    match goal with
    | |- context [Call (WriteContract SWAP_ROUTER_ADDRESS ?abi ?f ?args ?g) _] =>
        exists (WriteContract SWAP_ROUTER_ADDRESS abi f args g)
    end;
    (split; [reflexivity|]);
    cbn beta iota zeta delta [project flat_map app submission_of submits In];
    auto 10.
Qed.

Lemma swap_follows_unchecked_approval_witness :
  In (Call approval (Resolved (VHash "0xfeed")))
     (events (task_swapTokens "0xabc"
                (with_status (fun _ => reverted) calm_world))) /\
  In (Call (WaitForTransactionReceipt "0xfeed")
        (Resolved (VReceipt (mkReceipt reverted 1 None))))
     (events (task_swapTokens "0xabc"
                (with_status (fun _ => reverted) calm_world))) /\
  In (Log stdout MsgApprovalComplete)
     (events (task_swapTokens "0xabc"
                (with_status (fun _ => reverted) calm_world))) /\
  exists op,
    is_swap op = true /\
    In op (submissions
             (events (task_swapTokens "0xabc"
                        (with_status (fun _ => reverted) calm_world)))).
Proof.
  assert (Ha : In (Call approval (Resolved (VHash "0xfeed")))
                 (events (task_swapTokens "0xabc"
                            (with_status (fun _ => reverted) calm_world))))
    by (vm_compute; auto 10).
  assert (Hw : In (Call (WaitForTransactionReceipt "0xfeed")
                     (Resolved (VReceipt (mkReceipt reverted 1 None))))
                 (events (task_swapTokens "0xabc"
                            (with_status (fun _ => reverted) calm_world))))
    by (vm_compute; auto 10).
  split; [exact Ha|]. split; [exact Hw|].
  exact (swap_follows_unchecked_approval "0xabc"
           (with_status (fun _ => reverted) calm_world) "0xfeed"
           (mkReceipt reverted 1 None) Ha Hw).
Defined.

(** X15. [task_swapTokens] asks for the allowance before anything else, and
    submits nothing without it: when the read is rejected the task throws
    the error of the read and no transaction is submitted. *)
Theorem swap_reads_allowance_first (account_address : string) (env : Env) :
  (exists rest,
     calls (events (task_swapTokens account_address env)) =
     allowance_read account_address :: rest) /\
  (forall e,
     In (Call (allowance_read account_address) (Rejected e))
        (events (task_swapTokens account_address env)) ->
     res (task_swapTokens account_address env) = Throw e /\
     submissions (events (task_swapTokens account_address env)) = []).
Proof.
  remember (events (task_swapTokens account_address env)) as evs eqn:Hev.
  remember (res (task_swapTokens account_address env)) as r eqn:Hr.
  revert Hev Hr.
  run; intros -> ->;
    (split;
     [ eexists; cbn beta iota zeta delta [project flat_map app call_of];
       reflexivity
     | intros e H; pick_call H; destruct H as [_ H]; try discriminate H;
       injection H as <-; split; reflexivity ]).
Qed.

(** ** Receipts *)

(** X6. In every task function each transaction is followed to its receipt
    before the client is asked anything else: a submission that resolved
    with a hash is followed, as the next client call, by the wait for the
    receipt of that very hash, and no receipt is waited for otherwise. *)
Theorem every_receipt_is_awaited (account_address : string) (t : M unit)
  (env : Env) :
  In t (task_functions account_address) ->
  receipts_awaited None (events (t env)) = true.
Proof.
  unfold task_functions. simpl.
  intros [<-|[<-|[<-|[<-|[<-|[<-|[]]]]]]];
    try (destruct (claimAndBurn_progress env) as (k & _ & _ & _ & _ & _ & _ & H);
         exact H);
    match goal with
    | |- receipts_awaited None (events (?t env)) = true =>
        let evs := fresh "evs" in
        let Hev := fresh "Hev" in
        remember (events (t env)) as evs eqn:Hev; revert Hev
    end;
    run_all; intros ->;
    cbn beta iota zeta delta [receipts_awaited submits subtask_log];
    rewrite ?String.eqb_refl; reflexivity.
Qed.

Lemma every_receipt_is_awaited_witness :
  In task_claimAndBurn (task_functions "0xabc") /\
  receipts_awaited None (events (task_claimAndBurn rough_world)) = true.
Proof.
  assert (H : In task_claimAndBurn (task_functions "0xabc"))
    by (unfold task_functions; auto using in_eq, in_cons).
  split; [exact H|].
  exact (every_receipt_is_awaited "0xabc" task_claimAndBurn rough_world H).
Defined.

(** ** Task 6: the calldata is not hexadecimal *)

Lemma all_chars_get (f : ascii -> bool) (s : string) (k : nat) (c : ascii) :
  String.get k s = Some c -> f c = false -> all_chars f s = false.
Proof.
  revert k. induction s as [|a s IH]; intros [|k] H Hc; simpl in *;
    try discriminate H.
  - injection H as ->. now rewrite Hc.
  - rewrite (IH k H Hc). apply andb_false_r.
Qed.

(** X11. Whatever salt is drawn, the calldata [task_createMintpadNFT] sends
    is not the hexadecimal rendering of a byte string: after the 0x prefix
    it has an odd number of characters, and one of them, which the template
    holds outside the salt, is not a hexadecimal digit. *)
Theorem mintpad_calldata_is_not_hex (env : Env) (to data : string)
  (gasPrice : Z) (out : Outcome) :
  In (Call (SendTransaction to data gasPrice) out)
     (events (task_createMintpadNFT env)) ->
  substring2 data 0 2 = "0x" /\
  Z.odd (strlen data - 2) = true /\
  all_chars is_hex_digit (substring1 data 2) = false.
Proof.
  intros Hin.
  destruct (mintpad_sends env to data gasPrice out Hin) as (bytes & Hlen & ->).
  destruct (mintpad_data_spec bytes Hlen) as (Hl & _ & Hg).
  set (data := mintpad_data (toHex bytes)) in *.
  assert (Htpl : strlen TEMPLATE_DATA = 1483) by (vm_compute; reflexivity).
  rewrite Htpl in Hl.
  assert (Hn : String.length data = 1483%nat) by (unfold strlen in Hl; lia).
  split; [|split].
  - rewrite substring2_in_range by lia.
    unfold data. rewrite mintpad_data_splice.
    set (p := String.substring 0 114 TEMPLATE_DATA).
    vm_compute in p. subst p. reflexivity.
  - rewrite Hl. reflexivity.
  - unfold substring1. rewrite substring2_in_range by lia.
    rewrite Hl. change (Z.to_nat 2) with 2%nat.
    change (Z.to_nat (1483 - 2)) with 1481%nat.
    apply (all_chars_get _ _ 976 "g"%char); [|reflexivity].
    rewrite substring_correct1 by lia.
    change (976 + 2)%nat with (Z.to_nat 978).
    rewrite Hg by lia. vm_compute. reflexivity.
Qed.

Lemma mintpad_calldata_is_not_hex_witness :
  In (Call (SendTransaction MINTPAD_CONTRACT_ADDRESS
              (mintpad_data (toHex (repeat Byte.x2a 32))) HIGH_GAS_PRICE)
        (Resolved (VHash "0xfeed")))
     (events (task_createMintpadNFT calm_world)) /\
  all_chars is_hex_digit
    (substring1 (mintpad_data (toHex (repeat Byte.x2a 32))) 2) = false.
Proof.
  assert (H : In (Call (SendTransaction MINTPAD_CONTRACT_ADDRESS
                          (mintpad_data (toHex (repeat Byte.x2a 32)))
                          HIGH_GAS_PRICE)
                    (Resolved (VHash "0xfeed")))
                (events (task_createMintpadNFT calm_world)))
    by (vm_compute; auto).
  split; [exact H|].
  apply (mintpad_calldata_is_not_hex calm_world _ _ _ _ H).
Defined.

(** * Tallies of the sub-schedulers *)

Lemma zsum_app (l1 l2 : list Z) : zsum (l1 ++ l2) = zsum l1 + zsum l2.
Proof. induction l1 as [|x l1 IH]; simpl; [reflexivity | rewrite IH; lia]. Qed.

Lemma total_delay_app (a b : list Event) :
  total_delay (a ++ b) = total_delay a + total_delay b.
Proof. unfold total_delay. now rewrite project_app, map_app, zsum_app. Qed.

Lemma count_app {X} (proj : Event -> option X) (a b : list Event) :
  List.length (project proj (a ++ b))
  = (List.length (project proj a) + List.length (project proj b))%nat.
Proof. now rewrite project_app, length_app. Qed.

Lemma count_cons {X} (proj : Event -> option X) (e : Event) (l : list Event) :
  List.length (project proj (e :: l))
  = (List.length (project proj [e]) + List.length (project proj l))%nat.
Proof. apply (count_app proj [e] l). Qed.

Lemma total_delay_cons (e : Event) (l : list Event) :
  total_delay (e :: l) = total_delay [e] + total_delay l.
Proof. apply (total_delay_app [e] l). Qed.

(** What each task function submits and how long it sleeps. *)
Ltac tally t env :=
  let evs := fresh "evs" in
  let Hev := fresh "Hev" in
  remember (events (t env)) as evs eqn:Hev; revert Hev;
  run_all; intros ->;
  cbn beta iota zeta delta
    [project flat_map app submission_of submits subtask_log sleep_of
     List.length total_delay map zsum fold_right];
  try lia; try (split; [lia | reflexivity]); try (split; reflexivity).

Lemma tally_task_deployContract (env : Env) :
  List.length (submissions (events (task_deployContract env))) = 1%nat /\
  total_delay (events (task_deployContract env)) = 0.
Proof. tally task_deployContract env. Qed.

Lemma tally_task_createToken (env : Env) :
  List.length (submissions (events (task_createToken env))) = 1%nat /\
  total_delay (events (task_createToken env)) = 0.
Proof. tally task_createToken env. Qed.

Lemma tally_task_mintNft (env : Env) :
  List.length (submissions (events (task_mintNft env))) = 1%nat /\
  total_delay (events (task_mintNft env)) = 0.
Proof. tally task_mintNft env. Qed.

Lemma tally_task_claimAndBurn (env : Env) :
  (1 <= List.length (submissions (events (task_claimAndBurn env))) <= 4)%nat /\
  0 <= total_delay (events (task_claimAndBurn env)) <= 15000.
Proof.
  destruct (claimAndBurn_progress env) as (k & Hk & Hs & Hd & _).
  unfold total_delay. rewrite Hs, Hd. clear Hs Hd.
  assert (Hc : k = 1%nat \/ k = 2%nat \/ k = 3%nat \/ k = 4%nat) by lia.
  destruct Hc as [-> | [-> | [-> | ->]]]; cbn; lia.
Qed.

Lemma tally_task_swapTokens (account_address : string) (env : Env) :
  (List.length (submissions (events (task_swapTokens account_address env)))
   <= 2)%nat /\
  total_delay (events (task_swapTokens account_address env)) = 0.
Proof. tally (task_swapTokens account_address) env. Qed.

Lemma tally_task_createMintpadNFT (env : Env) :
  List.length (submissions (events (task_createMintpadNFT env))) = 1%nat /\
  total_delay (events (task_createMintpadNFT env)) = 0.
Proof. tally task_createMintpadNFT env. Qed.

Lemma Forall2_cons_l {A B} (R : A -> B -> Prop) (a : A) (l : list A)
  (l' : list B) :
  Forall2 R (a :: l) l' ->
  exists b l'', l' = b :: l'' /\ R a b /\ Forall2 R l l''.
Proof. inversion 1; subst. eauto. Qed.

Lemma Forall2_nil_l {A B} (R : A -> B -> Prop) (l' : list B) :
  Forall2 R [] l' -> l' = [].
Proof. now inversion 1. Qed.

(** The five passes of the inner loop of a run. *)
Lemma main_sequence_tasks (account_address : string) (i : Z) (env : Env) :
  exists t0 t1 e1 e2 e3 e4 e5,
    events (main_sequence account_address i env) =
      [Log stdout (MsgMainRun i MAIN_RUNS_PER_SESSION); Clock t0]
      ++ (events (run_guarded (mkTask "task_deployContract" task_deployContract) e1)
          ++ events (run_guarded (mkTask "task_mintNft" task_mintNft) e2)
          ++ events (run_guarded (mkTask "task_claimAndBurn" task_claimAndBurn) e3)
          ++ events (run_guarded
                       (mkTask "task_swapTokens" (task_swapTokens account_address))
                       e4)
          ++ events (run_guarded
                       (mkTask "task_createMintpadNFT" task_createMintpadNFT) e5))
      ++ [Clock t1; Log stdout (MsgMainRunFinished i (t1 - t0))]
      ++ main_interval i.
Proof.
  destruct (main_sequence_shape account_address i env)
    as (_ & t0 & t1 & segs & Hs & ->).
  unfold main_tasks in Hs.
  apply Forall2_cons_l in Hs as (s1 & segs1 & -> & (e1 & ->) & Hs).
  apply Forall2_cons_l in Hs as (s2 & segs2 & -> & (e2 & ->) & Hs).
  apply Forall2_cons_l in Hs as (s3 & segs3 & -> & (e3 & ->) & Hs).
  apply Forall2_cons_l in Hs as (s4 & segs4 & -> & (e4 & ->) & Hs).
  apply Forall2_cons_l in Hs as (s5 & segs5 & -> & (e5 & ->) & Hs).
  apply Forall2_nil_l in Hs as ->.
  exists t0, t1, e1, e2, e3, e4, e5.
  cbn [List.concat]. now rewrite app_nil_r.
Qed.

Lemma tally_run_guarded (task : Task) (env : Env) :
  faithful (task_run task) ->
  List.length (submissions (events (run_guarded task env)))
  = List.length (submissions (events (task_run task env))) /\
  total_delay (events (run_guarded task env))
  = total_delay (events (task_run task env)) + DELAY_BETWEEN_TASKS_MS.
Proof.
  intros Hf.
  rewrite (proj2 (run_guarded_shape task env Hf)).
  rewrite !count_app, !total_delay_app.
  destruct (res (task_run task env)); cbn; split; lia.
Qed.

Lemma tally_main_interval (i : Z) :
  submissions (main_interval i) = [] /\
  total_delay (main_interval i)
  = interval_after MAIN_RUNS_PER_SESSION MAIN_RUN_INTERVAL_MS i.
Proof.
  unfold main_interval, interval_after.
  destruct (i <? MAIN_RUNS_PER_SESSION); split; reflexivity.
Qed.

Lemma tally_token_interval (i : Z) :
  submissions (token_interval i) = [] /\
  total_delay (token_interval i)
  = interval_after TOKEN_RUNS_PER_SESSION TOKEN_RUN_INTERVAL_MS i.
Proof.
  unfold token_interval, interval_after.
  destruct (i <? TOKEN_RUNS_PER_SESSION); split; reflexivity.
Qed.

Lemma tally_main_sequence (account_address : string) (i : Z) (env : Env) :
  (4 <= List.length (submissions (events (main_sequence account_address i env)))
   <= 9)%nat /\
  50000 + interval_after MAIN_RUNS_PER_SESSION MAIN_RUN_INTERVAL_MS i
  <= total_delay (events (main_sequence account_address i env))
  <= 65000 + interval_after MAIN_RUNS_PER_SESSION MAIN_RUN_INTERVAL_MS i.
Proof.
  destruct (main_sequence_tasks account_address i env)
    as (t0 & t1 & e1 & e2 & e3 & e4 & e5 & ->).
  rewrite !count_app, !total_delay_app.
  destruct (tally_main_interval i) as (-> & ->).
  pose proof (main_tasks_faithful account_address) as Hf.
  unfold main_tasks in Hf. cbn [In] in Hf.
  destruct (tally_run_guarded (mkTask "task_deployContract" task_deployContract)
              e1) as (-> & ->); [apply Hf; auto 10|].
  destruct (tally_run_guarded (mkTask "task_mintNft" task_mintNft) e2)
    as (-> & ->); [apply Hf; auto 10|].
  destruct (tally_run_guarded (mkTask "task_claimAndBurn" task_claimAndBurn) e3)
    as (-> & ->); [apply Hf; auto 10|].
  destruct (tally_run_guarded
              (mkTask "task_swapTokens" (task_swapTokens account_address)) e4)
    as (-> & ->); [apply Hf; auto 10|].
  destruct (tally_run_guarded
              (mkTask "task_createMintpadNFT" task_createMintpadNFT) e5)
    as (-> & ->); [apply Hf; auto 10|].
  clear Hf. cbn [task_run].
  destruct (tally_task_deployContract e1) as (-> & ->).
  destruct (tally_task_mintNft e2) as (-> & ->).
  destruct (tally_task_claimAndBurn e3) as (Hc3 & Hd3).
  destruct (tally_task_swapTokens account_address e4) as (Hc4 & ->).
  destruct (tally_task_createMintpadNFT e5) as (-> & ->).
  unfold DELAY_BETWEEN_TASKS_MS. cbn [project flat_map app List.length total_delay
    map zsum fold_right submission_of sleep_of]. split; lia.
Qed.

Lemma tally_token_sequence (i : Z) (env : Env) :
  List.length (submissions (events (token_sequence i env))) = 1%nat /\
  total_delay (events (token_sequence i env))
  = interval_after TOKEN_RUNS_PER_SESSION TOKEN_RUN_INTERVAL_MS i.
Proof.
  destruct (token_sequence_shape i env) as (_ & env' & ->).
  rewrite count_cons, total_delay_cons, !count_app, !total_delay_app.
  destruct (tally_token_interval i) as (-> & ->).
  destruct (tally_task_createToken env') as (-> & ->).
  destruct (res (task_createToken env')); cbn; split; lia.
Qed.

(** The tallies of a loop are the sums of the tallies of its passes. *)
Lemma tally_passes (body : Z -> M unit) (clo chi : nat) (dlo dhi : Z -> Z)
  (js : list Z) (segs : list (list Event)) :
  (forall j env,
     (clo <= List.length (submissions (events (body j env))) <= chi)%nat /\
     dlo j <= total_delay (events (body j env)) <= dhi j) ->
  Forall2 (fun j seg => pass_of (body j) seg) js segs ->
  (List.length js * clo <= List.length (submissions (List.concat segs))
   <= List.length js * chi)%nat /\
  zsum (map dlo js) <= total_delay (List.concat segs) <= zsum (map dhi js).
Proof.
  intros Hb H. induction H as [|j seg js segs (env & ->) _ IH].
  - cbn. split; lia.
  - cbn [List.concat map zsum fold_right List.length].
    rewrite count_app, total_delay_app.
    destruct (Hb j env) as (Hc & Hd). fold (zsum (map dlo js)) (zsum (map dhi js)).
    split; lia.
Qed.

Lemma tally_runMainTasks (account_address : string) (fuel : nat) (env : Env) :
  (Z.to_nat MAIN_RUNS_PER_SESSION < fuel)%nat ->
  (40 <= List.length (submissions (events (runMainTasks account_address fuel env)))
   <= 90)%nat /\
  35600000 <= total_delay (events (runMainTasks account_address fuel env))
  <= 35750000.
Proof.
  intros Hfuel.
  destruct (runMainTasks_shape account_address fuel env Hfuel)
    as (_ & segs & Hs & ->).
  rewrite count_cons, total_delay_cons, count_app, total_delay_app.
  destruct (tally_passes (main_sequence account_address) 4 9
              (fun i => 50000 + interval_after MAIN_RUNS_PER_SESSION
                                  MAIN_RUN_INTERVAL_MS i)
              (fun i => 65000 + interval_after MAIN_RUNS_PER_SESSION
                                  MAIN_RUN_INTERVAL_MS i)
              _ _ (tally_main_sequence account_address) Hs) as (Hc & Hd).
  change (zsum (map _ (zseq 1 (Z.to_nat MAIN_RUNS_PER_SESSION))))
    with 35600000 in Hd at 1.
  change (zsum (map _ (zseq 1 (Z.to_nat MAIN_RUNS_PER_SESSION))))
    with 35750000 in Hd.
  change (List.length (zseq 1 (Z.to_nat MAIN_RUNS_PER_SESSION))) with 10%nat in Hc.
  cbn; split; lia.
Qed.

Lemma tally_runTokenDeploy (fuel : nat) (env : Env) :
  (Z.to_nat TOKEN_RUNS_PER_SESSION < fuel)%nat ->
  List.length (submissions (events (runTokenDeploy fuel env))) = 3%nat /\
  total_delay (events (runTokenDeploy fuel env)) = 7800000.
Proof.
  intros Hfuel.
  destruct (runTokenDeploy_shape fuel env Hfuel) as (_ & segs & Hs & ->).
  rewrite count_cons, total_delay_cons, count_app, total_delay_app.
  assert (Hb : forall i e,
             (1 <= List.length (submissions (events (token_sequence i e)))
              <= 1)%nat /\
             interval_after TOKEN_RUNS_PER_SESSION TOKEN_RUN_INTERVAL_MS i
             <= total_delay (events (token_sequence i e))
             <= interval_after TOKEN_RUNS_PER_SESSION TOKEN_RUN_INTERVAL_MS i).
  { intros i e. destruct (tally_token_sequence i e) as (-> & ->). split; lia. }
  destruct (tally_passes token_sequence 1 1 _ _ _ segs Hb Hs) as (Hc & Hd).
  change (zsum (map _ (zseq 1 (Z.to_nat TOKEN_RUNS_PER_SESSION))))
    with 7800000 in Hd.
  change (List.length (zseq 1 (Z.to_nat TOKEN_RUNS_PER_SESSION))) with 3%nat in Hc.
  cbn; split; lia.
Qed.

(** Fuel beyond what the loop needs changes nothing. *)
Lemma for_loop_enough (N : Z) (body : Z -> M unit) (n : nat) :
  forall fuel i env,
    i + Z.of_nat n = N + 1 -> (n < fuel)%nat ->
    for_loop fuel (fun j => j <=? N) body i env =
    for_loop (S n) (fun j => j <=? N) body i env.
Proof.
  induction n as [|n IH]; intros fuel i env Hi Hf;
    (destruct fuel as [|fuel]; [lia|]); cbn [for_loop].
  - replace (i <=? N) with false by (symmetry; apply Z.leb_gt; lia).
    reflexivity.
  - replace (i <=? N) with true by (symmetry; apply Z.leb_le; lia).
    unfold bind. destruct (res (body i env)); [|reflexivity|reflexivity].
    rewrite (IH fuel (i + 1)) by lia. reflexivity.
Qed.

Lemma runMainTasks_fuel (account_address : string) (fuel : nat) (env : Env) :
  (Z.to_nat MAIN_RUNS_PER_SESSION < fuel)%nat ->
  runMainTasks account_address fuel env = runMainTasks account_address 11 env.
Proof.
  intros Hfuel. unfold runMainTasks, bind. cbn [res log used events].
  rewrite (for_loop_enough MAIN_RUNS_PER_SESSION _ 10 fuel 1)
    by (unfold MAIN_RUNS_PER_SESSION in *; lia).
  reflexivity.
Qed.

(** X7. Counting every call that submits a transaction, resolved or
    rejected: one pass of the body of the main loop makes between 4 and 9 of
    them, a session of [runMainTasks] between 40 and 90, and a session of
    [runTokenDeploy] exactly 3, in every world.  [runMainTasks] makes 40 in
    the world that rejects every call and 90 in the world that rejects none
    and reports no allowance. *)
Theorem transactions_per_session (account_address : string) (fuel : nat)
  (env : Env) :
  (Z.to_nat MAIN_RUNS_PER_SESSION < fuel)%nat ->
  (forall i e,
     (4 <= List.length (submissions (events (main_sequence account_address i e)))
      <= 9)%nat) /\
  (40 <= List.length (submissions (events (runMainTasks account_address fuel env)))
   <= 90)%nat /\
  List.length (submissions (events (runTokenDeploy fuel env))) = 3%nat /\
  List.length
    (submissions (events (runMainTasks account_address fuel stormy_world)))
  = 40%nat /\
  List.length
    (submissions (events (runMainTasks account_address fuel calm_world)))
  = 90%nat.
Proof.
  intros Hfuel. split; [|split; [|split; [|split]]].
  - intros i e. apply tally_main_sequence.
  - apply tally_runMainTasks, Hfuel.
  - apply tally_runTokenDeploy, token_fuel, Hfuel.
  - rewrite runMainTasks_fuel by exact Hfuel. vm_compute. reflexivity.
  - rewrite runMainTasks_fuel by exact Hfuel. vm_compute. reflexivity.
Qed.

Lemma transactions_per_session_witness :
  (Z.to_nat MAIN_RUNS_PER_SESSION < 11)%nat /\
  (40 <= List.length (submissions (events (runMainTasks "0xabc" 11 rough_world)))
   <= 90)%nat /\
  List.length (submissions (events (runTokenDeploy 11 rough_world))) = 3%nat /\
  List.length (submissions (events (runMainTasks "0xabc" 11 stormy_world)))
  = 40%nat /\
  List.length (submissions (events (runMainTasks "0xabc" 11 calm_world)))
  = 90%nat.
Proof.
  assert (H : (Z.to_nat MAIN_RUNS_PER_SESSION < 11)%nat) by (vm_compute; lia).
  split; [exact H|].
  apply (transactions_per_session "0xabc" 11 rough_world H).
Defined.

(** ** Sleeps *)

Lemma sleeps_among_project (allowed : list Z) (evs : list Event) :
  Forall (sleeps_among allowed) evs ->
  Forall (fun ms => exists d, ms = Some d /\ In d allowed) (sleeps evs).
Proof.
  induction 1 as [|e evs He _ IH]; [constructor|].
  destruct e; cbn; try exact IH. constructor; assumption.
Qed.

Ltac sleeps_auto :=
  repeat emits_step;
  repeat match goal with |- context [status ?r] => destruct (status r) end;
  try exact I;
  try (eexists; split; [reflexivity | cbn [In]; auto 10]).

Lemma task_functions_sleeps (account_address : string) (t : M unit) :
  In t (task_functions account_address) ->
  emits (sleeps_among [5000; DELAY_BETWEEN_TASKS_MS; MAIN_RUN_INTERVAL_MS]) t.
Proof.
  unfold task_functions. simpl.
  intros [<-|[<-|[<-|[<-|[<-|[<-|[]]]]]]];
    cbv beta delta [task_deployContract task_createToken task_mintNft
      task_claimAndBurn task_swapTokens task_createMintpadNFT];
    sleeps_auto.
Qed.

Lemma runMainTasks_sleeps (account_address : string) (fuel : nat) :
  emits (sleeps_among [5000; DELAY_BETWEEN_TASKS_MS; MAIN_RUN_INTERVAL_MS])
    (runMainTasks account_address fuel).
Proof.
  unfold runMainTasks. sleeps_auto.
  apply emits_for_loop. intros i. unfold main_sequence. sleeps_auto.
  apply emits_for_of. intros task Hin. unfold run_guarded. sleeps_auto.
  apply (task_functions_sleeps account_address).
  unfold main_tasks in Hin. simpl in Hin. unfold task_functions. simpl.
  destruct Hin as [<-|[<-|[<-|[<-|[<-|[]]]]]]; simpl; auto 10.
Qed.

Lemma sleeps_task_createToken (env : Env) :
  sleeps (events (task_createToken env)) = [].
Proof.
  apply project_silent. revert env.
  change (silent sleep_of task_createToken).
  cbv beta delta [task_createToken]. silent_auto.
Qed.

Lemma sleeps_token_sequence (i : Z) (env : Env) :
  sleeps (events (token_sequence i env)) =
  if i <? TOKEN_RUNS_PER_SESSION then [Some TOKEN_RUN_INTERVAL_MS] else [].
Proof.
  destruct (project_token_sequence sleep_of i env) as (env' & ->).
  rewrite sleeps_task_createToken.
  unfold token_interval.
  destruct (res (task_createToken env')), (i <? TOKEN_RUNS_PER_SESSION);
    reflexivity.
Qed.

(** X9. The sleeps of the sub-schedulers are fixed delays that the timer
    takes as they are: [runMainTasks] sleeps 5 seconds between subtasks, 10
    seconds after a task and 65 minutes between runs, between 35 600 and
    35 750 seconds in all per session; [runTokenDeploy] sleeps the 65 minutes
    between runs and nothing else, 7 800 seconds per session. *)
Theorem sub_scheduler_sleep_budget (account_address : string) (fuel : nat)
  (env : Env) :
  (Z.to_nat MAIN_RUNS_PER_SESSION < fuel)%nat ->
  (Forall (fun ms =>
             In ms [Some 5000; Some DELAY_BETWEEN_TASKS_MS;
                    Some MAIN_RUN_INTERVAL_MS] /\
             Some (timer_delay ms) = ms)
     (sleeps (events (runMainTasks account_address fuel env))) /\
   35600000 <= total_delay (events (runMainTasks account_address fuel env))
   <= 35750000) /\
  (sleeps (events (runTokenDeploy fuel env)) =
     [Some TOKEN_RUN_INTERVAL_MS; Some TOKEN_RUN_INTERVAL_MS] /\
   total_delay (events (runTokenDeploy fuel env)) = 7800000).
Proof.
  intros Hfuel. split; split.
  - pose proof (sleeps_among_project _ _
                  (runMainTasks_sleeps account_address fuel env)) as H.
    eapply Forall_impl; [|exact H].
    intros ms (d & -> & Hd). cbn [In] in Hd.
    destruct Hd as [<-|[<-|[<-|[]]]]; split; cbn; auto.
  - apply tally_runMainTasks, Hfuel.
  - rewrite (project_runTokenDeploy sleep_of
               (fun i => if i <? TOKEN_RUNS_PER_SESSION
                         then [Some TOKEN_RUN_INTERVAL_MS] else []));
      [reflexivity | | exact (token_fuel fuel Hfuel)].
    intros i e. apply sleeps_token_sequence.
  - apply tally_runTokenDeploy, token_fuel, Hfuel.
Qed.

Lemma sub_scheduler_sleep_budget_witness :
  (Z.to_nat MAIN_RUNS_PER_SESSION < 11)%nat /\
  total_delay (events (runTokenDeploy 11 rough_world)) = 7800000.
Proof.
  assert (H : (Z.to_nat MAIN_RUNS_PER_SESSION < 11)%nat) by (vm_compute; lia).
  split; [exact H|].
  apply (sub_scheduler_sleep_budget "0xabc" 11 rough_world H).
Defined.

(** ** The pause after a task *)

Section Task_paces.

Variable account_address : string.

Lemma paces_task_deployContract env :
  paces (events (task_deployContract env)) = [PTask MsgTask1].
Proof. task_projection. Qed.

Lemma paces_task_createToken env :
  paces (events (task_createToken env)) = [PTask MsgTask2].
Proof. task_projection. Qed.

Lemma paces_task_mintNft env :
  paces (events (task_mintNft env)) = [PTask MsgTask3].
Proof. task_projection. Qed.

Lemma paces_task_claimAndBurn env :
  paces (events (task_claimAndBurn env)) = [PTask MsgTask4].
Proof. task_projection. Qed.

Lemma paces_task_swapTokens env :
  paces (events (task_swapTokens account_address env)) = [PTask MsgTask5].
Proof. task_projection. Qed.

Lemma paces_task_createMintpadNFT env :
  paces (events (task_createMintpadNFT env)) = [PTask MsgTask6].
Proof. task_projection. Qed.

End Task_paces.

Lemma paces_caught name r : paces (caught name r) = [].
Proof. destruct r; reflexivity. Qed.

Lemma paces_run_guarded account_address task b env :
  In task (main_tasks account_address) ->
  paces (events (task_run task env)) = [PTask b] ->
  paces (events (run_guarded task env)) = [PTask b; PPause].
Proof.
  intros Hin Hb.
  rewrite project_run_guarded by now apply (main_tasks_faithful account_address).
  now rewrite Hb, paces_caught.
Qed.

Lemma paces_main_tasks account_address :
  Forall2 (fun task out => forall e, paces (events (run_guarded task e)) = out)
    (main_tasks account_address) (map (fun b => [PTask b; PPause]) main_banners).
Proof.
  unfold main_tasks, main_banners. simpl map.
  repeat constructor; intros e;
    apply (paces_run_guarded account_address);
    unfold main_tasks; auto 10 using in_eq, in_cons;
    cbn [task_run].
  - apply paces_task_deployContract.
  - apply paces_task_mintNft.
  - apply paces_task_claimAndBurn.
  - apply paces_task_swapTokens.
  - apply paces_task_createMintpadNFT.
Qed.

Lemma paces_main_sequence account_address i env :
  paces (events (main_sequence account_address i env)) =
  flat_map (fun b => [PTask b; PPause]) main_banners.
Proof.
  destruct (project_main_sequence pace_of account_address _ i env
              (paces_main_tasks account_address)) as (t0 & t1 & H).
  rewrite H. unfold main_interval.
  destruct (i <? MAIN_RUNS_PER_SESSION); reflexivity.
Qed.

Lemma paces_token_sequence i env :
  paces (events (token_sequence i env)) = [PTask MsgTask2].
Proof.
  destruct (project_token_sequence pace_of i env) as (env' & H).
  rewrite H, paces_task_createToken, paces_caught. unfold token_interval.
  destruct (i <? TOKEN_RUNS_PER_SESSION); reflexivity.
Qed.

(** X8. In [runMainTasks] the 10 second pause follows every task, the last
    task of a run and a task that threw included: in every world the tasks
    and the pauses alternate, five of each in each of the 10 runs.
    [runTokenDeploy] does not pause after its task. *)
Theorem pause_follows_every_task (account_address : string) (fuel : nat)
  (env : Env) :
  (Z.to_nat MAIN_RUNS_PER_SESSION < fuel)%nat ->
  paces (events (runMainTasks account_address fuel env)) =
    List.concat
      (repeat [PTask MsgTask1; PPause; PTask MsgTask3; PPause;
               PTask MsgTask4; PPause; PTask MsgTask5; PPause;
               PTask MsgTask6; PPause] 10) /\
  paces (events (runTokenDeploy fuel env)) = repeat (PTask MsgTask2) 3.
Proof.
  intros Hfuel. split.
  - rewrite (project_runMainTasks pace_of account_address
               (fun _ => flat_map (fun b => [PTask b; PPause]) main_banners));
      [reflexivity | | exact Hfuel].
    intros i e. apply paces_main_sequence.
  - rewrite (project_runTokenDeploy pace_of (fun _ => [PTask MsgTask2]));
      [reflexivity | | exact (token_fuel fuel Hfuel)].
    intros i e. apply paces_token_sequence.
Qed.

Lemma pause_follows_every_task_witness :
  (Z.to_nat MAIN_RUNS_PER_SESSION < 11)%nat /\
  paces (events (runTokenDeploy 11 rough_world)) = repeat (PTask MsgTask2) 3.
Proof.
  assert (H : (Z.to_nat MAIN_RUNS_PER_SESSION < 11)%nat) by (vm_compute; lia).
  split; [exact H|].
  apply (pause_follows_every_task "0xabc" 11 rough_world H).
Defined.

(** * More on the master scheduler *)

Section Master_sessions.

Variable account_address : string.
Variable tza : JsDate.Zone.
Variable fuel : nat.
Hypothesis enough_fuel : (Z.to_nat MAIN_RUNS_PER_SESSION < fuel)%nat.

Lemma daily_session_full env :
  is_full_session account_address tza fuel
    (events (daily_session account_address tza fuel env)).
Proof.
  unfold daily_session.
  rewrite events_bind_date_now, events_bind_log.
  rewrite events_bind, (promise_all2_sub_schedulers account_address fuel enough_fuel).
  rewrite events_bind_log, events_bind_date_now.
  do 4 eexists. unfold session_events, promise_all2. cbn [events app].
  reflexivity.
Qed.

Lemma scheduleDailyRuns_full sessions env :
  exists segs,
    List.length segs = sessions /\
    Forall (is_full_session account_address tza fuel) segs /\
    events (scheduleDailyRuns account_address tza sessions fuel env) =
      master_banner account_address ++ List.concat segs.
Proof.
  unfold scheduleDailyRuns.
  rewrite !events_bind_log.
  destruct (while_true_passes (daily_session account_address tza fuel)
              (fun e => proj1 (daily_session_shape account_address tza fuel
                                 enough_fuel e)) sessions env)
    as (_ & segs & Hl & Hs & He).
  exists segs. repeat split.
  - exact Hl.
  - apply Forall_forall. intros seg Hin.
    rewrite Forall_forall in Hs. destruct (Hs seg Hin) as (e & ->).
    apply daily_session_full.
  - rewrite He. reflexivity.
Qed.

Lemma full_session_is_session seg :
  is_full_session account_address tza fuel seg -> is_session tza seg.
Proof. intros (s & n & e1 & e2 & ->). now do 4 eexists. Qed.

Lemma branches_sessions segs :
  Forall (is_full_session account_address tza fuel) segs ->
  List.length (branches (List.concat segs)) = List.length segs /\
  forall main token,
    In (main, token) (branches (List.concat segs)) ->
    pass_of (runMainTasks account_address fuel) main /\
    pass_of (runTokenDeploy fuel) token.
Proof.
  induction 1 as [|seg segs (s & now & e1 & e2 & ->) _ (IHl & IHin)].
  - split; [reflexivity | intros ? ? []].
  - cbn [List.concat]. rewrite project_app, length_app, IHl.
    split; [reflexivity|].
    intros main token Hin. apply in_app_or in Hin as [Hin|Hin].
    + cbn in Hin. destruct Hin as [[= <- <-]|[]].
      split; eexists; reflexivity.
    + now apply IHin.
Qed.

End Master_sessions.

Lemma last_bracketed {A} (a x d : A) (l : list A) :
  last (a :: l ++ [x]) d = x.
Proof. rewrite app_comm_cons. apply last_last. Qed.

(** X12. Each daily session of the master scheduler is one complete session
    of each sub-scheduler, run side by side: [runMainTasks] from its first
    line to its completion line with its 50 task executions, and
    [runTokenDeploy] likewise with its 3, together between 43 and 93
    submitted transactions. *)
Theorem daily_session_runs_both_schedulers (account_address : string)
  (tza : JsDate.Zone) (sessions fuel : nat) (env : Env) :
  (Z.to_nat MAIN_RUNS_PER_SESSION < fuel)%nat ->
  List.length
    (branches (events (scheduleDailyRuns account_address tza sessions fuel env)))
  = sessions /\
  forall main token,
    In (main, token)
       (branches (events (scheduleDailyRuns account_address tza sessions fuel env))) ->
    (hd (Clock 0) main = Log stdout MsgMainStart /\
     last main (Clock 0) = Log stdout MsgMainComplete /\
     banners main = List.concat (repeat main_banners 10)) /\
    (hd (Clock 0) token = Log stdout MsgTokenStart /\
     last token (Clock 0) = Log stdout MsgTokenComplete /\
     banners token = repeat MsgTask2 3) /\
    (43 <= List.length (submissions main) + List.length (submissions token)
     <= 93)%nat.
Proof.
  intros Hfuel. pose proof (token_fuel fuel Hfuel) as Hfuel'.
  destruct (scheduleDailyRuns_full account_address tza fuel Hfuel sessions env)
    as (segs & Hl & Hs & ->).
  destruct (branches_sessions account_address tza fuel segs Hs) as (Hlen & Hin).
  rewrite project_app. cbn [project flat_map master_banner parallel_of app].
  split; [now rewrite Hlen|].
  intros main token Hb. destruct (Hin main token Hb) as ((e1 & ->) & (e2 & ->)).
  split; [|split].
  - destruct (runMainTasks_shape account_address fuel e1 Hfuel)
      as (_ & runs & _ & He).
    split; [now rewrite He|]. split; [rewrite He; apply last_bracketed|].
    apply banners_runMainTasks, Hfuel.
  - destruct (runTokenDeploy_shape fuel e2 Hfuel') as (_ & runs & _ & He).
    split; [now rewrite He|]. split; [rewrite He; apply last_bracketed|].
    apply banners_runTokenDeploy, Hfuel'.
  - destruct (tally_runMainTasks account_address fuel e1 Hfuel) as (Hc & _).
    destruct (tally_runTokenDeploy fuel e2 Hfuel') as (Hc' & _).
    lia.
Qed.

Lemma daily_session_runs_both_schedulers_witness :
  (Z.to_nat MAIN_RUNS_PER_SESSION < 11)%nat /\
  List.length (branches (events (scheduleDailyRuns "0xabc" utc 2 11 rough_world)))
  = 2%nat.
Proof.
  assert (H : (Z.to_nat MAIN_RUNS_PER_SESSION < 11)%nat) by (vm_compute; lia).
  split; [exact H|].
  apply (daily_session_runs_both_schedulers "0xabc" utc 2 11 rough_world H).
Defined.

(** ** What the master scheduler prints of the wait *)

Lemma reports_sessions (tza : JsDate.Zone) (segs : list (list Event)) :
  Forall (is_session tza) segs ->
  forall h0 m0,
    List.length (reports_from h0 m0 (List.concat segs)) = List.length segs /\
    forall rp,
      In rp (reports_from h0 m0 (List.concat segs)) ->
      rp_hours rp = num_floor_div (rp_wait rp) 3600000 /\
      rp_minutes rp = num_floor_div (num_rem (rp_wait rp) 3600000) 60000.
Proof.
  induction 1 as [|seg segs (s & now & main & token & ->) _ IH]; intros h0 m0.
  - split; [reflexivity | intros ? []].
  - cbn [List.concat session_events app reports_from List.length In].
    match goal with
    | |- context [reports_from ?h ?m (List.concat segs)] =>
        destruct (IH h m) as (Hl & Hin)
    end.
    split; [now rewrite Hl|].
    intros rp [<-|Hrest]; [split; reflexivity | now apply Hin].
Qed.

(** X10. Before each wait the master scheduler prints the wait in hours and
    minutes, rounded down: for a wait of [w] milliseconds that is not
    negative it prints the hours [h] and the minutes [m], below 60, such
    that [h] hours and [m] minutes are at most [w] and [h] hours and [m + 1]
    minutes are more.  For a negative wait (the session ended after the next
    session time) the remainder keeps the sign of the wait and each number
    is rounded down on its own: the hours are negative, the minutes lie
    between -60 and 0, and the two together are at or below the wait.  A
    wait that is not a number is printed as such. *)
Theorem wait_report_is_hours_and_minutes (account_address : string)
  (tza : JsDate.Zone) (sessions fuel : nat) (env : Env) :
  (Z.to_nat MAIN_RUNS_PER_SESSION < fuel)%nat ->
  List.length
    (reports (events (scheduleDailyRuns account_address tza sessions fuel env)))
  = sessions /\
  forall rp,
    In rp (reports (events (scheduleDailyRuns account_address tza sessions fuel env))) ->
    (rp_wait rp = NaN -> rp_hours rp = NaN /\ rp_minutes rp = NaN) /\
    forall w,
      rp_wait rp = Some w ->
      exists h m,
        rp_hours rp = Some h /\ rp_minutes rp = Some m /\
        (0 <= w ->
         0 <= h /\ 0 <= m < 60 /\
         h * 3600000 + m * 60000 <= w < h * 3600000 + (m + 1) * 60000) /\
        (w < 0 ->
         h < 0 /\ -60 <= m <= 0 /\ h * 3600000 + m * 60000 <= w).
Proof.
  intros Hfuel.
  destruct (scheduleDailyRuns_shape account_address tza fuel Hfuel sessions env)
    as (_ & segs & Hl & Hs & ->).
  destruct (reports_sessions tza segs Hs NaN NaN) as (Hlen & Hin).
  change (reports (master_banner account_address ++ List.concat segs))
    with (reports_from NaN NaN (List.concat segs)).
  split; [now rewrite Hlen|].
  intros rp Hrp. destruct (Hin rp Hrp) as (-> & ->).
  split; [intros ->; split; reflexivity|].
  intros w ->. cbn [num_floor_div num_rem].
  exists (w / 3600000), (Z.rem w 3600000 / 60000).
  split; [reflexivity|]. split; [reflexivity|].
  split; intros Hw.
  - Z.to_euclidean_division_equations. lia.
  - Z.to_euclidean_division_equations. lia.
Qed.

Lemma wait_report_is_hours_and_minutes_witness :
  (Z.to_nat MAIN_RUNS_PER_SESSION < 11)%nat /\
  List.length
    (reports (events (scheduleDailyRuns "0xabc" utc 2 11
                        (world_at noon_before_switch
                           (noon_before_switch + 36000000))))) = 2%nat.
Proof.
  assert (H : (Z.to_nat MAIN_RUNS_PER_SESSION < 11)%nat) by (vm_compute; lia).
  split; [exact H|].
  apply (wait_report_is_hours_and_minutes "0xabc" utc 2 11
           (world_at noon_before_switch (noon_before_switch + 36000000)) H).
Defined.

(** ** The daily cycle on a host with a fixed offset *)




(** ** Who is blamed for an error *)

Lemma storied_nil : storied [].
Proof. exists []. split; [constructor | reflexivity]. Qed.

Lemma storied_app (l1 l2 : list Attribution) :
  storied l1 -> storied l2 -> storied (l1 ++ l2).
Proof.
  intros (s1 & H1 & ->) (s2 & H2 & ->). exists (s1 ++ s2).
  split; [now apply Forall_app | now rewrite concat_app].
Qed.

Lemma storied_concat (segs : list (list Event)) :
  Forall (fun seg => storied (attributions seg)) segs ->
  storied (attributions (List.concat segs)).
Proof.
  induction 1 as [|seg segs H _ IH]; [apply storied_nil|].
  cbn [List.concat]. rewrite project_app. now apply storied_app.
Qed.

Lemma storied_well_attributed (l : list Attribution) :
  storied l -> forall last, well_attributed last l = true.
Proof.
  intros (stories & H & ->).
  induction H as [|story stories (b & [->| ->]) _ IH]; intros last.
  - reflexivity.
  - cbn. apply IH.
  - cbn. rewrite String.eqb_refl. apply IH.
Qed.

Lemma attributions_caught name r :
  attributions (caught name r) =
  match r with Throw _ => [Blamed name] | _ => [] end.
Proof. destruct r; reflexivity. Qed.

Lemma storied_guarded (t : M unit) (b : LogMsg) (env : Env) :
  attributions (events (t env)) = [Began b] ->
  storied (attributions (events (t env))
           ++ attributions (caught (function_name b) (res (t env)))).
Proof.
  intros ->. rewrite attributions_caught.
  exists [ [Began b] ++ match res (t env) with
                        | Throw _ => [Blamed (function_name b)]
                        | _ => []
                        end ].
  split; [|cbn; now rewrite app_nil_r].
  constructor; [|constructor]. exists b.
  destruct (res (t env)); cbn; auto.
Qed.

Section Task_attributions.

Variable account_address : string.

Lemma attributions_task_deployContract env :
  attributions (events (task_deployContract env)) = [Began MsgTask1].
Proof. task_projection. Qed.

Lemma attributions_task_createToken env :
  attributions (events (task_createToken env)) = [Began MsgTask2].
Proof. task_projection. Qed.

Lemma attributions_task_mintNft env :
  attributions (events (task_mintNft env)) = [Began MsgTask3].
Proof. task_projection. Qed.

Lemma attributions_task_claimAndBurn env :
  attributions (events (task_claimAndBurn env)) = [Began MsgTask4].
Proof. task_projection. Qed.

Lemma attributions_task_swapTokens env :
  attributions (events (task_swapTokens account_address env)) = [Began MsgTask5].
Proof. task_projection. Qed.

Lemma attributions_task_createMintpadNFT env :
  attributions (events (task_createMintpadNFT env)) = [Began MsgTask6].
Proof. task_projection. Qed.

Lemma storied_run_guarded task env :
  In task (main_tasks account_address) ->
  storied (attributions (events (run_guarded task env))).
Proof.
  intros Hin.
  rewrite project_run_guarded by now apply (main_tasks_faithful account_address).
  rewrite app_assoc. apply storied_app; [|apply storied_nil].
  unfold main_tasks in Hin. cbn [In] in Hin.
  destruct Hin as [<-|[<-|[<-|[<-|[<-|[]]]]]]; cbn [task_name task_run].
  - apply (storied_guarded _ MsgTask1), attributions_task_deployContract.
  - apply (storied_guarded _ MsgTask3), attributions_task_mintNft.
  - apply (storied_guarded _ MsgTask4), attributions_task_claimAndBurn.
  - apply (storied_guarded _ MsgTask5), attributions_task_swapTokens.
  - apply (storied_guarded _ MsgTask6), attributions_task_createMintpadNFT.
Qed.

Lemma storied_main_sequence i env :
  storied (attributions (events (main_sequence account_address i env))).
Proof.
  destruct (main_sequence_shape account_address i env)
    as (_ & t0 & t1 & segs & Hs & ->).
  rewrite !project_app.
  apply (storied_app []); [apply storied_nil|].
  apply storied_app.
  - apply storied_concat.
    apply (passes_all run_guarded _ _ _ Hs).
    intros task Hin e. now apply storied_run_guarded.
  - replace (attributions (main_interval i)) with (@nil Attribution)
      by (unfold main_interval; destruct (i <? MAIN_RUNS_PER_SESSION);
          reflexivity).
    apply storied_nil.
Qed.

Lemma storied_token_sequence i env :
  storied (attributions (events (token_sequence i env))).
Proof.
  destruct (project_token_sequence attribution_of i env) as (env' & ->).
  apply (storied_app []); [apply storied_nil|].
  rewrite app_assoc. apply storied_app.
  - apply (storied_guarded _ MsgTask2), attributions_task_createToken.
  - replace (attributions (token_interval i)) with (@nil Attribution)
      by (unfold token_interval; destruct (i <? TOKEN_RUNS_PER_SESSION);
          reflexivity).
    apply storied_nil.
Qed.

End Task_attributions.

(** X13. Whenever a sub-scheduler reports a critical error, the function it
    names is the task that began last before the report, and no task is
    reported twice. *)
Theorem critical_errors_name_the_task (account_address : string) (fuel : nat)
  (env : Env) :
  (Z.to_nat MAIN_RUNS_PER_SESSION < fuel)%nat ->
  well_attributed None
    (attributions (events (runMainTasks account_address fuel env))) = true /\
  well_attributed None (attributions (events (runTokenDeploy fuel env))) = true.
Proof.
  intros Hfuel. split; apply storied_well_attributed.
  - destruct (runMainTasks_shape account_address fuel env Hfuel)
      as (_ & segs & Hs & ->).
    rewrite project_cons, project_app.
    apply (storied_app []); [apply storied_nil|].
    apply storied_app; [|apply storied_nil].
    apply storied_concat.
    apply (passes_all (main_sequence account_address) _ _ _ Hs).
    intros i _ e. apply storied_main_sequence.
  - destruct (runTokenDeploy_shape fuel env (token_fuel fuel Hfuel))
      as (_ & segs & Hs & ->).
    rewrite project_cons, project_app.
    apply (storied_app []); [apply storied_nil|].
    apply storied_app; [|apply storied_nil].
    apply storied_concat.
    apply (passes_all token_sequence _ _ _ Hs).
    intros i _ e. apply storied_token_sequence.
Qed.

Lemma critical_errors_name_the_task_witness :
  (Z.to_nat MAIN_RUNS_PER_SESSION < 11)%nat /\
  well_attributed None
    (attributions (events (runMainTasks "0xabc" 11 rough_world))) = true.
Proof.
  assert (H : (Z.to_nat MAIN_RUNS_PER_SESSION < 11)%nat) by (vm_compute; lia).
  split; [exact H|].
  apply (critical_errors_name_the_task "0xabc" 11 rough_world H).
Defined.
